(** * Change detection engine (change_detector.py): embedding and properties

    The Python module compares two rasters and builds a change report.
    This development embeds its functions in Rocq and proves properties
    of them.

    Modelling conventions.
    - A numpy floating-point value is an [npfloat]: the real number it
      denotes, or one of the IEEE special values (plus or minus infinity,
      not-a-number).  Arithmetic on finite values is exact: rounding,
      overflow and signed zeros are not represented.  The special values
      arise, as in numpy, from a division whose divisor is zero and from
      operations on special values.
    - A raster element read from a file is a real number ([R]); [astype]
      turns it into a finite [npfloat].
    - An n-dimensional array is a record of its shape and an indexing
      function; only the entries inside the shape are meaningful.  Rasters
      and pictures are three-dimensional, as [rasterio]'s [read] and
      [np.array] of an RGB picture give them, so the test [ndim == 3] of
      the code always succeeds and is not represented.
    - A Python call returns a value or raises: [outcome].
    - A Python [dict] with string keys is a [gmap string _]. *)

From Stdlib Require Import Reals Lra Lia ZArith.
From stdpp Require Import gmap strings.

(** ** Python outcomes: a value or an exception *)

Module Py.

Inductive exn : Type :=
| ValueError (msg : string)
| TypeError (msg : string)
| IndexError (msg : string)
| KeyError (key : string)
| OSError (msg : string)
| OverflowError (msg : string)
| RasterioIOError (msg : string).

Inductive outcome (A : Type) : Type :=
| Returns (a : A)
| Raises (e : exn).

Arguments Returns {A} a.
Arguments Raises {A} e.

Definition bind {A B : Type} (c : outcome A) (k : A -> outcome B) : outcome B :=
  match c with
  | Returns a => k a
  | Raises e => Raises e
  end.

(** [try: body except Exception as e: handler e] *)
Definition try_except {A : Type} (body : outcome A) (handler : exn -> outcome A)
  : outcome A :=
  match body with
  | Returns a => Returns a
  | Raises e => handler e
  end.

(** [try: body except RasterioIOError: handler]: other exceptions pass. *)
Definition try_except_rasterio {A : Type} (body : outcome A) (handler : outcome A)
  : outcome A :=
  match body with
  | Raises (RasterioIOError _) => handler
  | other => other
  end.

End Py.

Export Py.

(** stdpp's monad notation: [x ← c; k] runs [c] and, when it returns,
    continues with [k]; an exception raised by [c] propagates. *)
#[export] Instance outcome_bind : MBind outcome := fun A B k c => Py.bind c k.
#[export] Instance outcome_ret : MRet outcome := fun A a => Returns a.

(** ** numpy floating-point values *)

Module NpFloat.

Inductive npfloat : Type :=
| Finite (r : R)
| PosInf
| NegInf
| NaN.

Definition Rltb (x y : R) : bool := if Rlt_dec x y then true else false.
Definition Reqb (x y : R) : bool := if Req_dec_T x y then true else false.

Definition fneg (x : npfloat) : npfloat :=
  match x with
  | Finite r => Finite (- r)
  | PosInf => NegInf
  | NegInf => PosInf
  | NaN => NaN
  end.

Definition fadd (x y : npfloat) : npfloat :=
  match x, y with
  | NaN, _ | _, NaN => NaN
  | Finite a, Finite b => Finite (a + b)
  | PosInf, NegInf | NegInf, PosInf => NaN
  | PosInf, _ | _, PosInf => PosInf
  | NegInf, _ | _, NegInf => NegInf
  end.

Definition fsub (x y : npfloat) : npfloat := fadd x (fneg y).

(** The infinity whose sign is [neg] ([true]: negative). *)
Definition inf_of_sign (neg : bool) : npfloat := if neg then NegInf else PosInf.

(** infinity times a finite value [r]: not-a-number when [r] is zero. *)
Definition inf_times (neg : bool) (r : R) : npfloat :=
  if Reqb r 0 then NaN else inf_of_sign (xorb neg (Rltb r 0)).

Definition fmul (x y : npfloat) : npfloat :=
  match x, y with
  | NaN, _ | _, NaN => NaN
  | Finite a, Finite b => Finite (a * b)
  | PosInf, Finite b | Finite b, PosInf => inf_times false b
  | NegInf, Finite b | Finite b, NegInf => inf_times true b
  | PosInf, PosInf | NegInf, NegInf => PosInf
  | PosInf, NegInf | NegInf, PosInf => NegInf
  end.

(** numpy's [true_divide]: a zero divisor gives not-a-number (0/0) or an
    infinity (with a warning), never an exception. *)
Definition fdiv (x y : npfloat) : npfloat :=
  match x, y with
  | NaN, _ | _, NaN => NaN
  | Finite a, Finite b =>
      if Reqb b 0 then
        if Reqb a 0 then NaN else inf_of_sign (Rltb a 0)
      else Finite (a / b)
  | Finite _, (PosInf | NegInf) => Finite 0
  | PosInf, Finite b => inf_of_sign (Rltb b 0)
  | NegInf, Finite b => inf_of_sign (negb (Rltb b 0))
  | (PosInf | NegInf), (PosInf | NegInf) => NaN
  end.

Definition fabs (x : npfloat) : npfloat :=
  match x with
  | Finite r => Finite (Rabs r)
  | PosInf | NegInf => PosInf
  | NaN => NaN
  end.

Definition fsqrt (x : npfloat) : npfloat :=
  match x with
  | Finite r => if Rltb r 0 then NaN else Finite (sqrt r)
  | PosInf => PosInf
  | NegInf | NaN => NaN
  end.

(** [x < y]; every comparison with not-a-number is false. *)
Definition fltb (x y : npfloat) : bool :=
  match x, y with
  | NaN, _ | _, NaN => false
  | Finite a, Finite b => Rltb a b
  | NegInf, (Finite _ | PosInf) => true
  | Finite _, PosInf => true
  | _, _ => false
  end.

(** [x > y] *)
Definition fgtb (x y : npfloat) : bool := fltb y x.

(** [x == y] *)
Definition feqb (x y : npfloat) : bool :=
  match x, y with
  | Finite a, Finite b => Reqb a b
  | PosInf, PosInf | NegInf, NegInf => true
  | _, _ => false
  end.

Definition is_finite (x : npfloat) : Prop := exists r, x = Finite r.

(** The sum [f 0 + f 1 + ... + f (n-1)], starting from 0.0. *)
Fixpoint fsum (n : nat) (f : nat -> npfloat) : npfloat :=
  match n with
  | O => Finite 0
  | S m => fadd (fsum m f) (f m)
  end.

End NpFloat.

Export NpFloat.

(** ** numpy arrays *)

Module NdArray.

(** A two-dimensional array of shape [(nrows, ncols)]. *)
Record ndarray2 (A : Type) : Type := mk_ndarray2 {
  nrows : nat;
  ncols : nat;
  item2 : nat -> nat -> A
}.

(** A three-dimensional array of shape [(shape0, shape1, shape2)]. *)
Record ndarray3 (A : Type) : Type := mk_ndarray3 {
  shape0 : nat;
  shape1 : nat;
  shape2 : nat;
  item3 : nat -> nat -> nat -> A
}.

Arguments mk_ndarray2 {A} _ _ _.
Arguments nrows {A} _.
Arguments ncols {A} _.
Arguments item2 {A} _ _ _.
Arguments mk_ndarray3 {A} _ _ _ _.
Arguments shape0 {A} _.
Arguments shape1 {A} _.
Arguments shape2 {A} _.
Arguments item3 {A} _ _ _ _.

(** [a.shape == b.shape] *)
Definition shape_eqb3 {A B : Type} (a : ndarray3 A) (b : ndarray3 B) : bool :=
  (shape0 a =? shape0 b) && (shape1 a =? shape1 b) && (shape2 a =? shape2 b).

Definition same_shape3 {A B : Type} (a : ndarray3 A) (b : ndarray3 B) : Prop :=
  shape0 a = shape0 b /\ shape1 a = shape1 b /\ shape2 a = shape2 b.

Definition same_shape2 {A B : Type} (a : ndarray2 A) (b : ndarray2 B) : Prop :=
  nrows a = nrows b /\ ncols a = ncols b.

(** No axis of the array has length zero. *)
Definition nonempty3 {A : Type} (a : ndarray3 A) : Prop :=
  0 < shape0 a /\ 0 < shape1 a /\ 0 < shape2 a.

Definition nonempty2 {A : Type} (a : ndarray2 A) : Prop :=
  0 < nrows a /\ 0 < ncols a.

(** numpy's broadcasting rule along one axis: equal lengths, or one of the
    two lengths is 1 and that operand is repeated. *)
Definition broadcast_dim (m n : nat) : option nat :=
  if m =? n then Some m
  else if m =? 1 then Some n
  else if n =? 1 then Some m
  else None.

(** The index read in an operand whose axis has length [m]. *)
Definition bcast_idx (m i : nat) : nat := if m =? 1 then 0 else i.

Definition broadcast_error : exn :=
  ValueError "operands could not be broadcast together".

(** An elementwise binary operator ([a + b], [a - b], [a / b]). *)
Definition zip2 {A B C : Type} (f : A -> B -> C) (a : ndarray2 A) (b : ndarray2 B)
  : outcome (ndarray2 C) :=
  match broadcast_dim (nrows a) (nrows b), broadcast_dim (ncols a) (ncols b) with
  | Some r, Some c =>
      Returns (mk_ndarray2 r c (fun i j =>
        f (item2 a (bcast_idx (nrows a) i) (bcast_idx (ncols a) j))
          (item2 b (bcast_idx (nrows b) i) (bcast_idx (ncols b) j))))
  | _, _ => Raises broadcast_error
  end.

Definition zip3 {A B C : Type} (f : A -> B -> C) (a : ndarray3 A) (b : ndarray3 B)
  : outcome (ndarray3 C) :=
  match broadcast_dim (shape0 a) (shape0 b),
        broadcast_dim (shape1 a) (shape1 b),
        broadcast_dim (shape2 a) (shape2 b) with
  | Some d0, Some d1, Some d2 =>
      Returns (mk_ndarray3 d0 d1 d2 (fun i j k =>
        f (item3 a (bcast_idx (shape0 a) i) (bcast_idx (shape1 a) j)
                   (bcast_idx (shape2 a) k))
          (item3 b (bcast_idx (shape0 b) i) (bcast_idx (shape1 b) j)
                   (bcast_idx (shape2 b) k))))
  | _, _, _ => Raises broadcast_error
  end.

(** An elementwise unary operator ([astype], [np.abs], [a > c]). *)
Definition map2 {A B : Type} (f : A -> B) (a : ndarray2 A) : ndarray2 B :=
  mk_ndarray2 (nrows a) (ncols a) (fun i j => f (item2 a i j)).

Definition map3 {A B : Type} (f : A -> B) (a : ndarray3 A) : ndarray3 B :=
  mk_ndarray3 (shape0 a) (shape1 a) (shape2 a) (fun i j k => f (item3 a i j k)).

(** [a.astype(float)], [a.astype(np.float32)] *)
Definition astype_float2 (a : ndarray2 R) : ndarray2 npfloat := map2 Finite a.
Definition astype_float3 (a : ndarray3 R) : ndarray3 npfloat := map3 Finite a.

(** [a[b]]: the plane of index [b] along the first axis. *)
Definition getitem0 {A : Type} (a : ndarray3 A) (b : nat) : outcome (ndarray2 A) :=
  if b <? shape0 a then
    Returns (mk_ndarray2 (shape1 a) (shape2 a) (fun i j => item3 a b i j))
  else Raises (IndexError "index is out of bounds for axis 0").

(** [a[:, :, c]] for [c] inside the last axis. *)
Definition take_last {A : Type} (a : ndarray3 A) (c : nat) : ndarray2 A :=
  mk_ndarray2 (shape0 a) (shape1 a) (fun i j => item3 a i j c).

(** [np.transpose(a, (1, 2, 0))]: the first axis becomes the last one. *)
Definition transpose_120 {A : Type} (a : ndarray3 A) : ndarray3 A :=
  mk_ndarray3 (shape1 a) (shape2 a) (shape0 a) (fun i j k => item3 a k i j).

(** [a[mask] = v] where [mask] is computed elementwise from [a]. *)
Definition masked_fill {A : Type} (mask : A -> bool) (v : A) (a : ndarray2 A)
  : ndarray2 A :=
  map2 (fun x => if mask x then v else x) a.

Definition size2 {A : Type} (a : ndarray2 A) : nat := nrows a * ncols a.
Definition size3 {A : Type} (a : ndarray3 A) : nat := shape0 a * shape1 a * shape2 a.

(** The sum [f 0 + ... + f (n-1)] of natural numbers. *)
Fixpoint nat_sum (n : nat) (f : nat -> nat) : nat :=
  match n with
  | O => O
  | S m => nat_sum m f + f m
  end.

Definition bool_to_nat (b : bool) : nat := if b then 1 else 0.

(** [np.sum] of a boolean array: the number of [True] entries. *)
Definition count2 (a : ndarray2 bool) : nat :=
  nat_sum (nrows a) (fun i => nat_sum (ncols a) (fun j => bool_to_nat (item2 a i j))).

Definition count3 (a : ndarray3 bool) : nat :=
  nat_sum (shape0 a) (fun i => nat_sum (shape1 a) (fun j =>
    nat_sum (shape2 a) (fun k => bool_to_nat (item3 a i j k)))).

(** [a.sum()] *)
Definition sum2 (a : ndarray2 npfloat) : npfloat :=
  fsum (nrows a) (fun i => fsum (ncols a) (fun j => item2 a i j)).

(** [a.mean()]: the sum divided by the number of entries. *)
Definition mean2 (a : ndarray2 npfloat) : npfloat :=
  fdiv (sum2 a) (Finite (INR (size2 a))).

(** [a.std()] (population standard deviation, [ddof = 0]): the square
    root of the mean of the squared deviations from the mean. *)
Definition std2 (a : ndarray2 npfloat) : npfloat :=
  let arrmean := mean2 a in
  let x := map2 (fun v => fsub v arrmean) a in
  let x := map2 (fun v => fmul v v) x in
  fsqrt (fdiv (sum2 x) (Finite (INR (size2 a)))).

(** [a.mean(axis=-1)]: the mean along the last axis. *)
Definition mean_last_axis (a : ndarray3 npfloat) : ndarray2 npfloat :=
  mk_ndarray2 (shape0 a) (shape1 a) (fun i j =>
    fdiv (fsum (shape2 a) (fun k => item3 a i j k)) (Finite (INR (shape2 a)))).

(** Inside the shape, the entries of [a] are the finite values [d]. *)
Definition holds2 (a : ndarray2 npfloat) (d : nat -> nat -> R) : Prop :=
  forall i j, i < nrows a -> j < ncols a -> item2 a i j = Finite (d i j).

(** Every entry of [a], at every index, is finite. *)
Definition all_finite2 (a : ndarray2 npfloat) : Prop :=
  forall i j, is_finite (item2 a i j).

End NdArray.

Export NdArray.

(** ** Python values stored in a report *)

Module PyDict.

Inductive pyval : Type :=
| VFloat (x : npfloat)
| VInt (n : Z)
| VStr (s : string)
| VDict (d : gmap string npfloat).

(** [d[k]] *)
Definition getitem {V : Type} (d : gmap string V) (k : string) : outcome V :=
  match d !! k with
  | Some v => Returns v
  | None => Raises (KeyError k)
  end.

(** [d.get(k, dflt)] *)
Definition dict_get {V : Type} (d : gmap string V) (k : string) (dflt : V) : V :=
  default dflt (d !! k).

(** The truth value of an object in [if v:]. *)
Definition truthy (v : pyval) : bool :=
  match v with
  | VFloat x => negb (feqb x (Finite 0))
  | VInt n => negb (n =? 0)%Z
  | VStr s => negb (String.eqb s "")
  | VDict d => negb (size d =? 0)
  end.

(** [v[k]] where [v] is expected to be a dictionary of floats. *)
Definition subscript (v : pyval) (k : string) : outcome npfloat :=
  match v with
  | VDict d => getitem d k
  | _ => Raises (TypeError "object is not subscriptable")
  end.

(** [x > v] for a float [x]. *)
Definition float_gt (x : npfloat) (v : pyval) : outcome bool :=
  match v with
  | VFloat y => Returns (fgtb x y)
  | VInt n => Returns (fgtb x (Finite (IZR n)))
  | _ => Raises (TypeError "'>' not supported between these instances")
  end.

(** [int(x)] for a float [x]: truncation towards zero. *)
Definition int_of_float (x : npfloat) : outcome Z :=
  match x with
  | Finite r => Returns (if Rltb r 0 then - Int_part (- r) else Int_part r)%Z
  | PosInf | NegInf => Raises (OverflowError "cannot convert float infinity to integer")
  | NaN => Raises (ValueError "cannot convert float NaN to integer")
  end.

(** Binding the arguments of a call to a function whose parameters are
    [params] (none has a default, there is no [*args] or [**kwargs]):
    [npos] positional arguments and the keyword arguments [kws].  An
    unknown keyword is reported first, then too many positional
    arguments, then a parameter bound twice or left unbound. *)
Definition bind_arguments (params : list string) (npos : nat) (kws : list string)
  : outcome unit :=
  match List.find (fun k => negb (existsb (String.eqb k) params)) kws with
  | Some k => Raises (TypeError ("got an unexpected keyword argument " ++ k))
  | None =>
      if length params <? npos then
        Raises (TypeError "too many positional arguments")
      else if existsb (fun k => existsb (String.eqb k) (firstn npos params)) kws then
        Raises (TypeError "got multiple values for argument")
      else if npos + length kws <? length params then
        Raises (TypeError "missing required positional arguments")
      else Returns tt
  end.

End PyDict.

Export PyDict.

(** ** The files and the operating system *)

(** What [PIL.Image.open(path).convert('RGB')] gives: three channels. *)
Record rgb_image : Type := mk_rgb_image {
  img_height : nat;
  img_width : nat;
  img_channel : nat -> nat -> nat -> R
}.

(** [np.array(img)]: shape [(height, width, 3)]. *)
Definition np_array (img : rgb_image) : ndarray3 R :=
  mk_ndarray3 (img_height img) (img_width img) 3 (img_channel img).

(** The environment of a call: what opening a path gives, and whether the
    change map can be written. *)
Record world : Type := mk_world {
  (** [with rasterio.open(path) as src: src.read()], shape (bands, H, W) *)
  rasterio_read : string -> outcome (ndarray3 R);
  (** [Image.open(path).convert('RGB')] *)
  pil_open_rgb : string -> outcome rgb_image;
  (** [os.makedirs(os.path.dirname(path), exist_ok=True)] *)
  makedirs : string -> outcome unit;
  (** drawing the picture with matplotlib and [plt.savefig(path)] *)
  savefig : string -> outcome unit
}.

(** ** change_detector.py *)

Module ChangeDetector.

Local Open Scope R_scope.

(** The body shared by [calculate_ndvi] and [calculate_ndbi], which differ
    in the names of their parameters only:
<<
    a = a_band.astype(float); b = b_band.astype(float)
    denominator = a + b
    denominator[denominator == 0] = 1e-10
    return (a - b) / denominator
>> *)
Definition guarded_denominator (a b : ndarray2 npfloat) : outcome (ndarray2 npfloat) :=
  denominator ← zip2 fadd a b;
  mret (masked_fill (fun d => feqb d (Finite 0)) (Finite 1e-10) denominator).

(** The denominator after line 16, as a real number: a sum that is
    exactly zero is replaced, every other sum is kept. *)
Definition replaced_zero (d : R) : R := if Reqb d 0 then 1e-10 else d.

Definition normalized_difference (a_band b_band : ndarray2 R)
  : outcome (ndarray2 npfloat) :=
  let a := astype_float2 a_band in
  let b := astype_float2 b_band in
  denominator ← guarded_denominator a b;
  numerator ← zip2 fsub a b;
  zip2 fdiv numerator denominator.

Definition calculate_ndvi (nir_band red_band : ndarray2 R) : outcome (ndarray2 npfloat) :=
  normalized_difference nir_band red_band.

Definition calculate_ndbi (swir_band nir_band : ndarray2 R) : outcome (ndarray2 npfloat) :=
  normalized_difference swir_band nir_band.

(** [save_change_map]: the whole body is inside [try ... except Exception],
    so every failure is printed and the function returns.  The picture
    goes to the file and to no returned value; its pixels are not modelled. *)
Definition save_change_map (w : world) (before after : ndarray3 R) (out_path : string)
  : outcome unit :=
  try_except
    (_ ← makedirs w out_path;
     _ ← (if shape_eqb3 before after then mret tt
          else Raises (ValueError "Before and after images must have the same shape"));
     _ ← (if shape0 before <=? 5 then mret tt
          else if shape2 before <=? 5 then mret tt
          else Raises (ValueError "Unexpected image shape for change map visualization"));
     savefig w out_path)
    (fun e => mret tt).

(** Lines 81-83: the arrays are brought to the layout (H, W, bands).
<<
    if before_arr.ndim == 3 and before_arr.shape[0] <= 5:
        before_arr = np.transpose(before_arr, (1, 2, 0))
        after_arr = np.transpose(after_arr, (1, 2, 0))
>>
    The test looks at the first axis of [before_arr] only. *)
Definition to_pixel_major (before_arr after_arr : ndarray3 R)
  : ndarray3 R * ndarray3 R :=
  if shape0 before_arr <=? 5 then (transpose_120 before_arr, transpose_120 after_arr)
  else (before_arr, after_arr).

(** Lines 89-91: the per-pixel change magnitude. *)
Definition diff_magnitude (before_arr after_arr : ndarray3 R)
  : outcome (ndarray2 npfloat) :=
  let before_f := astype_float3 before_arr in
  let after_f := astype_float3 after_arr in
  d ← zip3 fsub after_f before_f;
  let diff := map3 fabs d in
  mret (mean_last_axis diff).

(** Lines 94-96: the threshold and the percentage of pixels above it. *)
Definition threshold (diff_mag : ndarray2 npfloat) (threshold_factor : R) : npfloat :=
  fadd (mean2 diff_mag) (fmul (Finite threshold_factor) (std2 diff_mag)).

Definition percent_above (diff_mag : ndarray2 npfloat) (thr : npfloat) : npfloat :=
  let changed := map2 (fun v => fgtb v thr) diff_mag in
  fmul (fdiv (Finite (INR (count2 changed))) (Finite (INR (size2 changed)))) (Finite 100).

(** Lines 85-100, on the arrays as they are after lines 81-83. *)
Definition pixel_change_of_layout (w : world)
    (before_arr after_arr : ndarray3 R) (threshold_factor : R)
    (change_map_path : option string) : outcome npfloat :=
  diff_mag ← diff_magnitude before_arr after_arr;
  let thr := threshold diff_mag threshold_factor in
  let pct := percent_above diff_mag thr in
  _ ← match change_map_path with
      | Some path => save_change_map w before_arr after_arr path
      | None => mret tt
      end;
  mret pct.

Definition calculate_pixel_change_percentage (w : world)
    (before_arr after_arr : ndarray3 R) (threshold_factor : R)
    (change_map_path : option string) : outcome npfloat :=
  let '(before_arr, after_arr) := to_pixel_major before_arr after_arr in
  pixel_change_of_layout w before_arr after_arr threshold_factor change_map_path.

(** The statistics of one index: the percentages of pixels whose index
    fell by more than 0.1 and rose by more than 0.1, and the mean change. *)
Definition fraction_pct (count total : nat) : npfloat :=
  fmul (fdiv (Finite (INR count)) (Finite (INR total))) (Finite 100).

Definition loss_pct (index_diff : ndarray2 npfloat) : npfloat :=
  fraction_pct (count2 (map2 (fun v => fltb v (Finite (-0.1))) index_diff))
               (size2 index_diff).

Definition gain_pct (index_diff : ndarray2 npfloat) : npfloat :=
  fraction_pct (count2 (map2 (fun v => fgtb v (Finite 0.1)) index_diff))
               (size2 index_diff).

Definition vegetation_dict (ndvi_diff : ndarray2 npfloat) : gmap string npfloat :=
  <["mean_ndvi_change" := mean2 ndvi_diff]>
  (<["net_change" := fsub (gain_pct ndvi_diff) (loss_pct ndvi_diff)]>
  (<["gain_percentage" := gain_pct ndvi_diff]>
  (<["loss_percentage" := loss_pct ndvi_diff]> ∅))).

Definition urban_dict (ndbi_diff : ndarray2 npfloat) : gmap string npfloat :=
  <["mean_ndbi_change" := mean2 ndbi_diff]>
  (<["net_change" := fsub (gain_pct ndbi_diff) (loss_pct ndbi_diff)]>
  (<["decline_percentage" := loss_pct ndbi_diff]>
  (<["growth_percentage" := gain_pct ndbi_diff]> ∅))).

(** The dictionary [analyze_satellite_changes] starts from. *)
Definition initial_changes : gmap string pyval :=
  <["total_change_percentage" := VFloat (Finite 0)]>
  (<["urban_changes" := VDict ∅]>
  (<["vegetation_changes" := VDict ∅]>
  (<["analysis_type" := VStr "satellite_indices"]> ∅))).

(** [if before is not None and after is not None: changes[key] = stats(after - before)] *)
Definition analyze_index (key : string)
    (stats : ndarray2 npfloat -> gmap string npfloat)
    (before after : option (ndarray2 npfloat))
    (changes : gmap string pyval) : outcome (gmap string pyval) :=
  match before, after with
  | Some b, Some a =>
      index_diff ← zip2 fsub a b;
      mret (<[key := VDict (stats index_diff)]> changes)
  | _, _ => mret changes
  end.

(** [if changes[key]: total_changes += changes[key][k1] + changes[key][k2]] *)
Definition add_to_total (changes : gmap string pyval) (key k1 k2 : string)
    (total_changes : npfloat) : outcome npfloat :=
  entry ← getitem changes key;
  if truthy entry then
    x ← subscript entry k1;
    y ← subscript entry k2;
    mret (fadd total_changes (fadd x y))
  else mret total_changes.

Definition analyze_satellite_changes
    (before_ndvi after_ndvi before_ndbi after_ndbi : option (ndarray2 npfloat))
  : outcome (gmap string pyval) :=
  let changes := initial_changes in
  changes ← analyze_index "vegetation_changes" vegetation_dict
              before_ndvi after_ndvi changes;
  changes ← analyze_index "urban_changes" urban_dict before_ndbi after_ndbi changes;
  let total_changes := Finite 0 in
  total_changes ← add_to_total changes "vegetation_changes"
                    "loss_percentage" "gain_percentage" total_changes;
  total_changes ← add_to_total changes "urban_changes"
                    "growth_percentage" "decline_percentage" total_changes;
  mret (<["total_change_percentage" := VFloat total_changes]> changes).

(** Lines 126-143 of [process_geotiff]: the indices that the band count
    allows, [None] for the others. *)
Definition index_pair (f : ndarray2 R -> ndarray2 R -> outcome (ndarray2 npfloat))
    (before_data after_data : ndarray3 R) (i j : nat)
  : outcome (ndarray2 npfloat * ndarray2 npfloat) :=
  bi ← getitem0 before_data i;
  bj ← getitem0 before_data j;
  before_index ← f bi bj;
  ai ← getitem0 after_data i;
  aj ← getitem0 after_data j;
  after_index ← f ai aj;
  mret (before_index, after_index).

Definition compute_indices (before_data after_data : ndarray3 R)
  : outcome (option (ndarray2 npfloat) * option (ndarray2 npfloat)
             * option (ndarray2 npfloat) * option (ndarray2 npfloat)) :=
  if 4 <=? shape0 before_data then
    '(before_ndvi, after_ndvi) ← index_pair calculate_ndvi before_data after_data 3 2;
    if 5 <=? shape0 before_data then
      '(before_ndbi, after_ndbi) ← index_pair calculate_ndbi before_data after_data 4 3;
      mret (Some before_ndvi, Some after_ndvi, Some before_ndbi, Some after_ndbi)
    else mret (Some before_ndvi, Some after_ndvi, None, None)
  else mret (None, None, None, None).

(** Lines 152-158: the pixel percentage is stored, and replaces the total
    when it is larger. *)
Definition reconcile (changes : gmap string pyval) (pixel_change_pct : npfloat)
  : outcome (gmap string pyval) :=
  let changes := <["pixel_change_percentage" := VFloat pixel_change_pct]> changes in
  larger ← float_gt pixel_change_pct
             (dict_get changes "total_change_percentage" (VInt 0));
  if (larger : bool) then
    mret (<["total_change_percentage" := VFloat pixel_change_pct]> changes)
  else mret changes.

(** Lines 126-146: the report of the index path. *)
Definition index_path_report (before_data after_data : ndarray3 R)
  : outcome (gmap string pyval) :=
  '(before_ndvi, after_ndvi, before_ndbi, after_ndbi) ←
      compute_indices before_data after_data;
  analyze_satellite_changes before_ndvi after_ndvi before_ndbi after_ndbi.

Definition process_geotiff (w : world) (before_data after_data : ndarray3 R)
    (change_map_path : option string) (threshold_factor : R)
  : outcome (gmap string pyval) :=
  changes ← index_path_report before_data after_data;
  pixel_change_pct ← calculate_pixel_change_percentage w before_data after_data
                       threshold_factor change_map_path;
  reconcile changes pixel_change_pct.

(** [process_regular_image(before_path, after_path)] *)
Definition process_regular_image_params : list string :=
  ["before_path"; "after_path"].

Definition channel_pct (diff : ndarray3 npfloat) (c total_pixels : nat) : npfloat :=
  fmul (fdiv (Finite (INR (count2 (map2 (fun v => fgtb v (Finite 20)) (take_last diff c)))))
             (Finite (INR total_pixels)))
       (Finite 100).

Definition classify_change (red green blue : npfloat) : string :=
  if fgtb green red && fgtb green blue then "vegetation"
  else if fgtb red green && fgtb red blue then "urban"
  else "unknown".

Definition process_regular_image (w : world) (before_path after_path : string)
  : outcome (gmap string pyval) :=
  before_img ← pil_open_rgb w before_path;
  after_img ← pil_open_rgb w after_path;
  let before_arr := np_array before_img in
  let after_arr := np_array after_img in
  d ← zip3 fsub (astype_float3 after_arr) (astype_float3 before_arr);
  let diff := map3 fabs d in
  let total_pixels := (size3 diff / 3)%nat in
  let significant_changes_10 :=
    fdiv (Finite (INR (count3 (map3 (fun v => fgtb v (Finite 10)) diff)))) (Finite 3) in
  let significant_changes := significant_changes_10 in
  let change_percentage :=
    fmul (fdiv significant_changes (Finite (INR total_pixels))) (Finite 100) in
  let red := channel_pct diff 0 total_pixels in
  let green := channel_pct diff 1 total_pixels in
  let blue := channel_pct diff 2 total_pixels in
  let channel_changes : gmap string npfloat :=
    <["blue" := blue]> (<["green" := green]> (<["red" := red]> ∅)) in
  let change_type := classify_change red green blue in
  significant_int ← int_of_float significant_changes;
  mret (<["pixel_change_percentage" := VFloat change_percentage]>
       (<["analysis_type" := VStr "rgb_based"]>
       (<["significant_changes" := VInt significant_int]>
       (<["total_pixels" := VInt (Z.of_nat total_pixels)]>
       (<["change_type" := VStr change_type]>
       (<["channel_changes" := VDict channel_changes]>
       (<["total_change_percentage" := VFloat change_percentage]> ∅))))))).

(** [detect_changes]: the fallback calls
    [process_regular_image(before_path, after_path, change_map_path,
    threshold_factor=threshold_factor)]: three positional arguments and
    one keyword argument. *)
Definition detect_changes (w : world) (before_path after_path : string)
    (change_map_path : option string) (threshold_factor : R)
  : outcome (gmap string pyval) :=
  try_except_rasterio
    (before_data ← rasterio_read w before_path;
     after_data ← rasterio_read w after_path;
     process_geotiff w before_data after_data change_map_path threshold_factor)
    (_ ← bind_arguments process_regular_image_params 3 ["threshold_factor"];
     process_regular_image w before_path after_path).

End ChangeDetector.

Export ChangeDetector.

(** ** The formulas of the specification

    These definitions follow the words of the specification (sections 4.2
    and 4.4), over real numbers; the theorems below compare them with the
    functions of the code. *)

Module Spec.

Local Open Scope R_scope.

(** The sum of the real numbers [f 0], ..., [f (n-1)]. *)
Fixpoint Rsum (n : nat) (f : nat -> R) : R :=
  match n with
  | O => 0
  | S m => Rsum m f + f m
  end.

Definition epsilon : R := 1e-10.

(** Section 4.2: [(a - b) / max(a + b, epsilon)]. *)
Definition index_formula (a b : R) : R := (a - b) / Rmax (a + b) epsilon.

(** Section 4.4, step 2: the mean over the [B] bands of the absolute
    difference, for the pixel [(y, x)]; [before y x b] is the value of band
    [b] at that pixel. *)
Definition diffMagnitude (B : nat) (before after : nat -> nat -> nat -> R)
    (y x : nat) : R :=
  Rsum B (fun b => Rabs (after y x b - before y x b)) / INR B.

(** The mean and the standard deviation of a field over [H] x [W] pixels. *)
Definition mean (H W : nat) (d : nat -> nat -> R) : R :=
  Rsum H (fun y => Rsum W (fun x => d y x)) / INR (H * W).

Definition std (H W : nat) (d : nat -> nat -> R) : R :=
  sqrt (mean H W (fun y x => (d y x - mean H W d) * (d y x - mean H W d))).

(** Step 3: the threshold. *)
Definition tau (H W : nat) (d : nat -> nat -> R) (k : R) : R :=
  mean H W d + k * std H W d.

(** Step 4: the number of pixels whose magnitude exceeds [t]. *)
Definition changed_count (H W : nat) (d : nat -> nat -> R) (t : R) : nat :=
  nat_sum H (fun y => nat_sum W (fun x => if Rlt_dec t (d y x) then 1 else 0)%nat).

Definition percentage_above (H W : nat) (d : nat -> nat -> R) (t : R) : R :=
  100 * (INR (changed_count H W d t) / INR (H * W)).

(** The pixel-change percentage of an [H] x [W] image pair with [B] bands. *)
Definition pixel_change_percentage (H W B : nat)
    (before after : nat -> nat -> nat -> R) (k : R) : R :=
  let d := diffMagnitude B before after in
  percentage_above H W d (tau H W d k).

End Spec.

(** ** Inputs used in the examples *)

Module Examples.

Local Open Scope R_scope.

(** An array all of whose entries are [v]. *)
Definition full3 (d0 d1 d2 : nat) (v : R) : ndarray3 R :=
  mk_ndarray3 d0 d1 d2 (fun _ _ _ => v).

Definition full2 (r c : nat) (v : R) : ndarray2 R :=
  mk_ndarray2 r c (fun _ _ => v).

(** No path is a raster; every path opens as a black 1 x 1 picture; the
    change map can be written. *)
Definition plain_pictures : world :=
  mk_world (fun path => Raises (RasterioIOError (path ++ ": not recognized as a supported file format")))
           (fun _ => Returns (mk_rgb_image 1 1 (fun _ _ _ => 0)))
           (fun _ => Returns tt)
           (fun _ => Returns tt).

(** Scenario B of the specification: 50 x 50 pixels, 3 channels. *)
Definition black50 : ndarray3 R := full3 50 50 3 0.
Definition white50 : ndarray3 R := full3 50 50 3 255.

(** A 1 x 1 band pair with a negative sum: near-infrared -3, red 1. *)
Definition nir_negative : ndarray2 R := full2 1 1 (-3).
Definition red_one : ndarray2 R := full2 1 1 1.

(** A band pair that is all zeros. *)
Definition zero_band : ndarray2 R := full2 2 2 0.

(** Rasters of 2 x 2 pixels, band-major. *)
Definition three_bands : ndarray3 R := full3 3 2 2 0.
Definition one_band : ndarray3 R := full3 1 2 2 0.
Definition five_bands_dark : ndarray3 R := full3 5 2 2 1.
Definition five_bands_bright : ndarray3 R := full3 5 2 2 3.

End Examples.

(** ** gpt_summary.py *)

Module Summary.

Local Open Scope R_scope.
Local Open Scope string_scope.

(** The exceptions of the summary code: those of the detector, and
    AttributeError (calling [get] on an object that is not a dictionary). *)
Inductive failure : Type :=
| Exn (e : exn)
| AttributeError (msg : string).

Inductive result (A : Type) : Type :=
| Ok (a : A)
| Fail (f : failure).

Arguments Ok {A} a.
Arguments Fail {A} f.

Definition result_then {A B : Type} (c : result A) (k : A -> result B) : result B :=
  match c with
  | Ok a => k a
  | Fail f => Fail f
  end.

#[export] Instance result_bind : MBind result := fun A B k c => result_then c k.
#[export] Instance result_ret : MRet result := fun A a => Ok a.

Definition lift {A : Type} (o : outcome A) : result A :=
  match o with
  | Returns a => Ok a
  | Raises e => Fail (Exn e)
  end.

(** [try: body except Exception as e: handler] *)
Definition try_except_all {A : Type} (body : result A) (handler : result A) : result A :=
  match body with
  | Ok a => Ok a
  | Fail _ => handler
  end.

(** What the summary code takes from outside: which Ollama models answer,
    what the language-model chain returns, and Python's conversions of
    numbers and objects to text. *)
Record summary_env : Type := mk_summary_env {
  (** [Ollama(model=name).invoke("Hello")] completes without an exception *)
  ollama_answers : string -> bool;
  (** [LLMChain(llm=llm, prompt=create_satellite_prompt()).invoke(...)],
      then [result.get('text', str(result)).strip()] *)
  run_chain : option string -> string -> result string;
  (** [f"{x:.Nf}"] for a float [x] *)
  format_fixed : nat -> npfloat -> string;
  (** [str(v)] for an object that is not a string *)
  py_repr : pyval -> string
}.

(** [x >= y] and [x <= y] on floats. *)
Definition fgeb (x y : npfloat) : bool := fltb y x || feqb x y.

(** [v == s] for a string [s]: objects of another type are not equal to it. *)
Definition eq_str (v : pyval) (s : string) : bool :=
  match v with
  | VStr s' => String.eqb s' s
  | _ => false
  end.

(** [v < c], [v > c] and [v >= c] for a float constant [c]. *)
Definition value_lt (v : pyval) (c : R) : outcome bool :=
  match v with
  | VFloat x => Returns (fltb x (Finite c))
  | VInt n => Returns (fltb (Finite (IZR n)) (Finite c))
  | _ => Raises (TypeError "'<' not supported between these instances")
  end.

Definition value_ge (v : pyval) (c : R) : outcome bool :=
  match v with
  | VFloat x => Returns (fgeb x (Finite c))
  | VInt n => Returns (fgeb (Finite (IZR n)) (Finite c))
  | _ => Raises (TypeError "'>=' not supported between these instances")
  end.

(** [f"{v:.Nf}"] *)
Definition format_value (env : summary_env) (digits : nat) (v : pyval) : outcome string :=
  match v with
  | VFloat x => Returns (format_fixed env digits x)
  | VInt n => Returns (format_fixed env digits (Finite (IZR n)))
  | VStr _ => Raises (ValueError "Unknown format code 'f' for object of type 'str'")
  | VDict _ => Raises (TypeError "unsupported format string passed to dict.__format__")
  end.

(** [f"{v}"] *)
Definition str_of (env : summary_env) (v : pyval) : string :=
  match v with
  | VStr s => s
  | _ => py_repr env v
  end.

(** [v.get(k, 0)] where [v] is expected to be a dictionary of floats. *)
Definition stats_get (v : pyval) (k : string) : result npfloat :=
  match v with
  | VDict d => Ok (default (Finite 0) (d !! k))
  | _ => Fail (AttributeError "object has no attribute 'get'")
  end.

(** [s.strip()], on text made of ASCII characters. *)
Definition is_space (a : Ascii.ascii) : bool :=
  let n := Ascii.nat_of_ascii a in
  ((9 <=? n)%nat && (n <=? 13)%nat) || ((28 <=? n)%nat && (n <=? 32)%nat).

Fixpoint lstrip (s : string) : string :=
  match s with
  | EmptyString => EmptyString
  | String a rest => if is_space a then lstrip rest else s
  end.

Fixpoint rstrip (s : string) : string :=
  match s with
  | EmptyString => EmptyString
  | String a rest =>
      match rstrip rest with
      | EmptyString => if is_space a then EmptyString else String a EmptyString
      | kept => String a kept
      end
  end.

Definition strip (s : string) : string := rstrip (lstrip s).

(** [get_llm]: the models are tried in this order; the first one that
    answers is returned, [None] when none does. *)
Definition models_to_try : list string :=
  ["llama3.2:3b"; "llama3:latest"; "deepseek-r1:8b"; "deepseek-r1:1.5b";
   "deepseek-coder:1.3b"].

Definition get_llm (env : summary_env) : option string :=
  List.find (ollama_answers env) models_to_try.

Definition calculate_confidence (change_data : gmap string pyval) : outcome R :=
  let analysis_type := dict_get change_data "analysis_type" (VStr "unknown") in
  if eq_str analysis_type "satellite_indices" then
    let total_change := dict_get change_data "total_change_percentage" (VInt 0) in
    small ← value_lt total_change 1;
    if (small : bool) then mret 0.95 else
    moderate ← value_lt total_change 5;
    if (moderate : bool) then mret 0.90 else
    significant ← value_lt total_change 15;
    if (significant : bool) then mret 0.85 else mret 0.80
  else
    let total_change := dict_get change_data "total_change_percentage" (VInt 0) in
    small ← value_lt total_change 1;
    if (small : bool) then mret 0.85 else
    moderate ← value_lt total_change 5;
    if (moderate : bool) then mret 0.75 else mret 0.65.

(** Lines 188-193 and 195-200 of [generate_rule_based_summary]: the
    sentence about one index, added to [summary]. *)
Definition vegetation_sentence (env : summary_env) (veg_changes : pyval)
    (summary : string) : result string :=
  if truthy veg_changes then
    net_veg ← stats_get veg_changes "net_change";
    if fltb net_veg (Finite (-1)) then
      mret (summary ++ "Vegetation loss of " ++ format_fixed env 1 (fabs net_veg)
            ++ "% detected. ")
    else if fgtb net_veg (Finite 1) then
      mret (summary ++ "Vegetation growth of " ++ format_fixed env 1 net_veg
            ++ "% detected. ")
    else mret summary
  else mret summary.

Definition urban_sentence (env : summary_env) (urban_changes : pyval)
    (summary : string) : result string :=
  if truthy urban_changes then
    net_urban ← stats_get urban_changes "net_change";
    if fgtb net_urban (Finite 1) then
      mret (summary ++ "Urban expansion of " ++ format_fixed env 1 net_urban
            ++ "% detected. ")
    else if fltb net_urban (Finite (-1)) then
      mret (summary ++ "Urban decline of " ++ format_fixed env 1 (fabs net_urban)
            ++ "% detected. ")
    else mret summary
  else mret summary.

(** Lines 203-216: the text for a report that is not of type
    satellite_indices. *)
Definition rgb_text (env : summary_env) (change_data : gmap string pyval)
    (total_change change_type : pyval) : result string :=
  small ← lift (value_lt total_change 1);
  summary ← (if (small : bool) then
               shown ← lift (format_value env 1 total_change);
               mret ("Minimal changes detected (" ++ shown ++ "% total change). ")
             else
               moderate ← lift (value_lt total_change 5);
               shown ← lift (format_value env 1 total_change);
               if (moderate : bool) then
                 mret ("Moderate changes detected (" ++ shown ++ "% total change). ")
               else
                 mret ("Significant changes detected (" ++ shown ++ "% total change). "));
  let channel_changes := dict_get change_data "channel_changes" (VDict ∅) in
  if eq_str change_type "vegetation" then
    green ← stats_get channel_changes "green";
    mret (summary ++ "Changes appear to be primarily vegetation-related, with "
          ++ format_fixed env 1 green ++ "% change in green channel. ")
  else if eq_str change_type "urban" then
    red ← stats_get channel_changes "red";
    mret (summary ++ "Changes appear to be primarily urban-related, with "
          ++ format_fixed env 1 red ++ "% change in red channel. ")
  else
    red ← stats_get channel_changes "red";
    green ← stats_get channel_changes "green";
    blue ← stats_get channel_changes "blue";
    mret (summary ++ "Changes are distributed across color channels (R: "
          ++ format_fixed env 1 red ++ "%, G: " ++ format_fixed env 1 green
          ++ "%, B: " ++ format_fixed env 1 blue ++ "%). ").

Definition generate_rule_based_summary (env : summary_env)
    (change_data : gmap string pyval) : result (string * R) :=
  let total_change := dict_get change_data "total_change_percentage" (VInt 0) in
  let change_type := dict_get change_data "change_type" (VStr "unknown") in
  let analysis_type := dict_get change_data "analysis_type" (VStr "unknown") in
  summary ← (if eq_str analysis_type "satellite_indices" then
               let veg_changes := dict_get change_data "vegetation_changes" (VDict ∅) in
               let urban_changes := dict_get change_data "urban_changes" (VDict ∅) in
               shown ← lift (format_value env 1 total_change);
               let summary := "Satellite analysis detected " ++ shown
                              ++ "% total change. " in
               summary ← vegetation_sentence env veg_changes summary;
               urban_sentence env urban_changes summary
             else rgb_text env change_data total_change change_type);
  confidence ← lift (calculate_confidence change_data);
  mret (strip summary, confidence).

(** A line of the text given to the language model: a line break and
    eight spaces come before it. *)
Definition line (text : string) : string :=
  String (Ascii.ascii_of_nat 10) "        " ++ text.

Definition format_change_data (env : summary_env) (change_data : gmap string pyval)
  : result string :=
  let analysis_type := dict_get change_data "analysis_type" (VStr "unknown") in
  if eq_str analysis_type "satellite_indices" then
    let veg_changes := dict_get change_data "vegetation_changes" (VDict ∅) in
    let urban_changes := dict_get change_data "urban_changes" (VDict ∅) in
    total ← lift (format_value env 2
                    (dict_get change_data "total_change_percentage" (VInt 0)));
    pixel ← lift (format_value env 2
                    (dict_get change_data "pixel_change_percentage" (VInt 0)));
    loss ← stats_get veg_changes "loss_percentage";
    gain ← stats_get veg_changes "gain_percentage";
    net ← stats_get veg_changes "net_change";
    mean_ndvi ← stats_get veg_changes "mean_ndvi_change";
    growth ← stats_get urban_changes "growth_percentage";
    decline ← stats_get urban_changes "decline_percentage";
    net_urban ← stats_get urban_changes "net_change";
    mean_ndbi ← stats_get urban_changes "mean_ndbi_change";
    mret (line "Analysis Type: Satellite Indices (NDVI/NDBI)"
          ++ line ("Total Change Percentage (combined): " ++ total ++ "%")
          ++ line ("Pixel-level Spectral Change: " ++ pixel ++ "%")
          ++ line ""
          ++ line "Vegetation Changes (NDVI):"
          ++ line ("- Loss: " ++ format_fixed env 2 loss ++ "%")
          ++ line ("- Gain: " ++ format_fixed env 2 gain ++ "%")
          ++ line ("- Net Change: " ++ format_fixed env 2 net ++ "%")
          ++ line ("- Mean NDVI Change: " ++ format_fixed env 3 mean_ndvi)
          ++ line ""
          ++ line "Urban Changes (NDBI):"
          ++ line ("- Growth: " ++ format_fixed env 2 growth ++ "%")
          ++ line ("- Decline: " ++ format_fixed env 2 decline ++ "%")
          ++ line ("- Net Change: " ++ format_fixed env 2 net_urban ++ "%")
          ++ line ("- Mean NDBI Change: " ++ format_fixed env 3 mean_ndbi)
          ++ line "")
  else
    let channel_changes := dict_get change_data "channel_changes" (VDict ∅) in
    total ← lift (format_value env 2
                    (dict_get change_data "total_change_percentage" (VInt 0)));
    pixel ← lift (format_value env 2
                    (dict_get change_data "pixel_change_percentage" (VInt 0)));
    let change_type := str_of env (dict_get change_data "change_type" (VStr "unknown")) in
    red ← stats_get channel_changes "red";
    green ← stats_get channel_changes "green";
    blue ← stats_get channel_changes "blue";
    mret (line "Analysis Type: RGB-based Analysis"
          ++ line ("Total Change Percentage (pixel-level): " ++ total ++ "%")
          ++ line ("Pixel-level Spectral Change: " ++ pixel ++ "%")
          ++ line ("Change Type: " ++ change_type)
          ++ line ""
          ++ line "Channel Changes:"
          ++ line ("- Red Channel: " ++ format_fixed env 2 red ++ "%")
          ++ line ("- Green Channel: " ++ format_fixed env 2 green ++ "%")
          ++ line ("- Blue Channel: " ++ format_fixed env 2 blue ++ "%")
          ++ line "").

(** Lines 64-65 of [generate_summary]; [main.py] computes the same flag
    from the report (lines 81-83). *)
Definition conflict_damage_detected (change_data : gmap string pyval) : outcome bool :=
  let pixel_change := dict_get change_data "pixel_change_percentage" (VFloat (Finite 0)) in
  value_ge pixel_change 10.

(** [generate_summary].  When no model answers, the rule-based summary (a
    pair of the text and the confidence) is computed and, when the conflict
    flag is set, the warning text is added to it with [+=]: adding a string
    to a pair raises TypeError.  That happens before the [try]. *)
Definition generate_summary (env : summary_env) (change_data : gmap string pyval)
  : result (string * R) :=
  conflict ← lift (conflict_damage_detected change_data);
  let llm := get_llm env in
  _ ← match llm with
      | None =>
          summary ← generate_rule_based_summary env change_data;
          if (conflict : bool) then
            Fail (Exn (TypeError "can only concatenate tuple (not str) to tuple"))
          else mret tt
      | Some _ => mret tt
      end;
  try_except_all
    (formatted_data ← format_change_data env change_data;
     summary_text ← run_chain env llm formatted_data;
     confidence ← lift (calculate_confidence change_data);
     mret (summary_text, confidence))
    (generate_rule_based_summary env change_data).

End Summary.

Export Summary.

(** ** Further inputs used in the examples *)

Module MoreExamples.

Local Open Scope R_scope.

(** Three rasters under their paths; no other path is a raster. *)
Definition raster_files : world :=
  mk_world (fun path =>
              if String.eqb path "before.tif" then Returns Examples.five_bands_dark
              else if String.eqb path "after.tif" then Returns Examples.five_bands_bright
              else if String.eqb path "rgb.tif" then Returns Examples.three_bands
              else Raises (RasterioIOError (path ++ ": No such file or directory")))
           (fun _ => Returns (mk_rgb_image 1 1 (fun _ _ _ => 0)))
           (fun _ => Returns tt)
           (fun _ => Returns tt).

(** A black picture and a green one, of one pixel each. *)
Definition black_pixel : rgb_image := mk_rgb_image 1 1 (fun _ _ _ => 0).
Definition green_pixel : rgb_image :=
  mk_rgb_image 1 1 (fun _ _ c => if (c =? 1)%nat then 255 else 0).

Definition two_pictures : world :=
  mk_world (fun path => Raises (RasterioIOError path))
           (fun path => if String.eqb path "green.png" then Returns green_pixel
                        else Returns black_pixel)
           (fun _ => Returns tt)
           (fun _ => Returns tt).

(** No Ollama model answers, and the chain fails without a model. *)
Definition no_model : summary_env :=
  mk_summary_env (fun _ => false)
                 (fun llm _ => match llm with
                               | Some _ => Ok "summary"
                               | None => Fail (Exn (ValueError "llm: none is not an allowed value"))
                               end)
                 (fun _ _ => "0.0")
                 (fun _ => "object").

(** Only the third model of the list answers. *)
Definition third_model_only : summary_env :=
  mk_summary_env (fun name => String.eqb name "deepseek-r1:8b")
                 (fun _ _ => Ok "summary")
                 (fun _ _ => "0.0")
                 (fun _ => "object").

(** A report of the index path with 40 percent of the pixels changed. *)
Definition heavy_damage : gmap string pyval :=
  <["pixel_change_percentage" := VFloat (Finite 40)]>
  (<["total_change_percentage" := VFloat (Finite 40)]>
  (<["urban_changes" := VDict ∅]>
  (<["vegetation_changes" := VDict ∅]>
  (<["analysis_type" := VStr "satellite_indices"]> ∅)))).

(** A report of the RGB analysis with the same total. *)
Definition rgb_damage : gmap string pyval :=
  <["pixel_change_percentage" := VFloat (Finite 40)]>
  (<["total_change_percentage" := VFloat (Finite 40)]>
  (<["analysis_type" := VStr "rgb_based"]> ∅)).

(** A report of the index path with 2 percent of the pixels changed. *)
Definition quiet_report : gmap string pyval :=
  <["pixel_change_percentage" := VFloat (Finite 2)]>
  (<["total_change_percentage" := VFloat (Finite 2)]>
  (<["urban_changes" := VDict ∅]>
  (<["vegetation_changes" := VDict ∅]>
  (<["analysis_type" := VStr "satellite_indices"]> ∅)))).

End MoreExamples.

(** * Properties *)

(** ** Comparisons and sums *)

Section Arithmetic.

Local Open Scope R_scope.

Lemma Rltb_true (x y : R) : x < y -> Rltb x y = true.
Proof. intros H. unfold Rltb. destruct (Rlt_dec x y); [reflexivity | contradiction]. Qed.

Lemma Rltb_false (x y : R) : ~ x < y -> Rltb x y = false.
Proof. intros H. unfold Rltb. destruct (Rlt_dec x y); [contradiction | reflexivity]. Qed.

Lemma Reqb_true (x y : R) : x = y -> Reqb x y = true.
Proof. intros H. unfold Reqb. destruct (Req_dec_T x y); [reflexivity | contradiction]. Qed.

Lemma Reqb_false (x y : R) : x <> y -> Reqb x y = false.
Proof. intros H. unfold Reqb. destruct (Req_dec_T x y); [contradiction | reflexivity]. Qed.

Lemma fdiv_finite (a b : R) : b <> 0 -> fdiv (Finite a) (Finite b) = Finite (a / b).
Proof. intros H. simpl. rewrite (Reqb_false b 0 H). reflexivity. Qed.

Lemma fsqrt_finite (a : R) : 0 <= a -> fsqrt (Finite a) = Finite (sqrt a).
Proof. intros H. simpl. rewrite Rltb_false; [reflexivity | lra]. Qed.

Lemma INR_pos_neq (n : nat) : (0 < n)%nat -> INR n <> 0.
Proof. intros H. apply not_0_INR. lia. Qed.

Lemma fsum_finite (n : nat) (f : nat -> npfloat) (g : nat -> R) :
  (forall i, (i < n)%nat -> f i = Finite (g i)) ->
  fsum n f = Finite (Spec.Rsum n g).
Proof.
  induction n as [|n IH]; intros Hf; simpl.
  - reflexivity.
  - rewrite IH by (intros i Hi; apply Hf; lia).
    rewrite (Hf n) by lia. reflexivity.
Qed.

Lemma Rsum_ext (n : nat) (f g : nat -> R) :
  (forall i, (i < n)%nat -> f i = g i) -> Spec.Rsum n f = Spec.Rsum n g.
Proof.
  induction n as [|n IH]; intros Hfg; simpl.
  - reflexivity.
  - rewrite IH by (intros i Hi; apply Hfg; lia).
    rewrite (Hfg n) by lia. reflexivity.
Qed.

Lemma Rsum_nonneg (n : nat) (f : nat -> R) :
  (forall i, (i < n)%nat -> 0 <= f i) -> 0 <= Spec.Rsum n f.
Proof.
  induction n as [|n IH]; intros Hf; simpl.
  - lra.
  - assert (0 <= Spec.Rsum n f) by (apply IH; intros i Hi; apply Hf; lia).
    assert (0 <= f n) by (apply Hf; lia). lra.
Qed.

Lemma Rsum_const (n : nat) (c : R) : Spec.Rsum n (fun _ => c) = INR n * c.
Proof.
  induction n as [|n IH].
  - simpl. lra.
  - rewrite S_INR. simpl. rewrite IH. lra.
Qed.

Lemma nat_sum_ext (n : nat) (f g : nat -> nat) :
  (forall i, (i < n)%nat -> f i = g i) -> nat_sum n f = nat_sum n g.
Proof.
  induction n as [|n IH]; intros Hfg; simpl.
  - reflexivity.
  - rewrite IH by (intros i Hi; apply Hfg; lia).
    rewrite (Hfg n) by lia. reflexivity.
Qed.

Lemma nat_sum_le (n : nat) (f g : nat -> nat) :
  (forall i, (i < n)%nat -> (f i <= g i)%nat) -> (nat_sum n f <= nat_sum n g)%nat.
Proof.
  induction n as [|n IH]; intros Hfg; simpl.
  - lia.
  - assert (nat_sum n f <= nat_sum n g)%nat by (apply IH; intros i Hi; apply Hfg; lia).
    assert (f n <= g n)%nat by (apply Hfg; lia). lia.
Qed.

Lemma nat_sum_zero (n : nat) : nat_sum n (fun _ => O) = O.
Proof. induction n as [|n IH]; simpl; lia. Qed.

Lemma mult_pos (m n : nat) : (0 < m)%nat -> (0 < n)%nat -> (0 < m * n)%nat.
Proof. intros Hm Hn. destruct m, n; simpl; lia. Qed.

End Arithmetic.

(** ** Arrays of finite values *)

Section FiniteArrays.

Local Open Scope R_scope.

Lemma bcast_idx_inside (m i : nat) : (i < m)%nat -> bcast_idx m i = i.
Proof.
  intros H. unfold bcast_idx. destruct (Nat.eqb_spec m 1); [lia | reflexivity].
Qed.

Lemma broadcast_dim_same (n : nat) : broadcast_dim n n = Some n.
Proof. unfold broadcast_dim. rewrite Nat.eqb_refl. reflexivity. Qed.

Lemma sum2_holds (a : ndarray2 npfloat) (d : nat -> nat -> R) :
  holds2 a d ->
  sum2 a = Finite (Spec.Rsum (nrows a) (fun i => Spec.Rsum (ncols a) (fun j => d i j))).
Proof.
  intros Ha. unfold sum2.
  apply fsum_finite. intros i Hi.
  apply fsum_finite. intros j Hj. apply Ha; assumption.
Qed.

Lemma mean2_holds (a : ndarray2 npfloat) (d : nat -> nat -> R) :
  holds2 a d -> nonempty2 a ->
  mean2 a = Finite (Spec.mean (nrows a) (ncols a) d).
Proof.
  intros Ha [Hr Hc]. unfold mean2, size2. rewrite (sum2_holds a d Ha).
  rewrite fdiv_finite; [reflexivity |].
  apply INR_pos_neq, mult_pos; assumption.
Qed.

Lemma mean_nonneg (H W : nat) (d : nat -> nat -> R) :
  (0 < H)%nat -> (0 < W)%nat ->
  (forall i j, (i < H)%nat -> (j < W)%nat -> 0 <= d i j) ->
  0 <= Spec.mean H W d.
Proof.
  intros HH HW Hd. unfold Spec.mean, Rdiv.
  apply Rmult_le_pos.
  - apply Rsum_nonneg. intros i Hi. apply Rsum_nonneg. intros j Hj. auto.
  - left. apply Rinv_0_lt_compat. apply lt_0_INR, mult_pos; assumption.
Qed.

Lemma std2_holds (a : ndarray2 npfloat) (d : nat -> nat -> R) :
  holds2 a d -> nonempty2 a ->
  std2 a = Finite (Spec.std (nrows a) (ncols a) d).
Proof.
  intros Ha Hne. unfold std2. rewrite (mean2_holds a d Ha Hne).
  set (m := Spec.mean (nrows a) (ncols a) d).
  set (x := map2 _ (map2 _ a)).
  assert (Hx : holds2 x (fun i j => (d i j - m) * (d i j - m))).
  { intros i j Hi Hj. subst x. simpl in *. rewrite (Ha i j Hi Hj). reflexivity. }
  assert (Hxne : nonempty2 x) by exact Hne.
  pose proof (mean2_holds x _ Hx Hxne) as Hmean.
  unfold mean2 in Hmean. change (size2 x) with (size2 a) in Hmean.
  rewrite Hmean. unfold Spec.std. fold m.
  apply fsqrt_finite. destruct Hne as [Hr Hc].
  apply mean_nonneg; [exact Hr | exact Hc |].
  intros i j _ _. apply Rle_0_sqr.
Qed.

Lemma threshold_holds (a : ndarray2 npfloat) (d : nat -> nat -> R) (k : R) :
  holds2 a d -> nonempty2 a ->
  threshold a k = Finite (Spec.tau (nrows a) (ncols a) d k).
Proof.
  intros Ha Hne. unfold threshold.
  rewrite (mean2_holds a d Ha Hne), (std2_holds a d Ha Hne). reflexivity.
Qed.

Lemma count_above_holds (a : ndarray2 npfloat) (d : nat -> nat -> R) (t : R) :
  holds2 a d ->
  count2 (map2 (fun v => fgtb v (Finite t)) a)
  = Spec.changed_count (nrows a) (ncols a) d t.
Proof.
  intros Ha. unfold count2, Spec.changed_count. simpl.
  apply nat_sum_ext. intros i Hi. apply nat_sum_ext. intros j Hj.
  rewrite (Ha i j Hi Hj). simpl. unfold Rltb.
  destruct (Rlt_dec t (d i j)); reflexivity.
Qed.

Lemma percent_above_holds (a : ndarray2 npfloat) (d : nat -> nat -> R) (t : R) :
  holds2 a d -> nonempty2 a ->
  percent_above a (Finite t)
  = Finite (Spec.percentage_above (nrows a) (ncols a) d t).
Proof.
  intros Ha [Hr Hc]. unfold percent_above.
  rewrite (count_above_holds a d t Ha).
  change (size2 (map2 _ a)) with (nrows a * ncols a)%nat.
  rewrite fdiv_finite by (apply INR_pos_neq, mult_pos; assumption).
  simpl. unfold Spec.percentage_above. f_equal. ring.
Qed.

End FiniteArrays.

(** ** The pixel change detector *)

Section PixelChange.

Local Open Scope R_scope.

Lemma save_change_map_returns (w : world) (before after : ndarray3 R) (path : string) :
  save_change_map w before after path = Returns tt.
Proof.
  unfold save_change_map, try_except.
  match goal with |- match ?body with _ => _ end = _ => destruct body as [[]|e] end;
    reflexivity.
Qed.

Lemma zip3_same_shape {A B C : Type} (f : A -> B -> C) (a : ndarray3 A) (b : ndarray3 B) :
  same_shape3 a b ->
  exists r, zip3 f a b = Returns r
    /\ shape0 r = shape0 a /\ shape1 r = shape1 a /\ shape2 r = shape2 a
    /\ forall i j k, (i < shape0 a)%nat -> (j < shape1 a)%nat -> (k < shape2 a)%nat ->
         item3 r i j k = f (item3 a i j k) (item3 b i j k).
Proof.
  intros (H0 & H1 & H2). unfold zip3. rewrite <- H0, <- H1, <- H2.
  rewrite !broadcast_dim_same. eexists. split; [reflexivity |].
  simpl. repeat split; try reflexivity.
  intros i j k Hi Hj Hk. rewrite !bcast_idx_inside by assumption. reflexivity.
Qed.

Lemma zip2_same_shape {A B C : Type} (f : A -> B -> C) (a : ndarray2 A) (b : ndarray2 B) :
  same_shape2 a b ->
  exists r, zip2 f a b = Returns r
    /\ nrows r = nrows a /\ ncols r = ncols a
    /\ forall i j, (i < nrows a)%nat -> (j < ncols a)%nat ->
         item2 r i j = f (item2 a i j) (item2 b i j).
Proof.
  intros (H0 & H1). unfold zip2. rewrite <- H0, <- H1.
  rewrite !broadcast_dim_same. eexists. split; [reflexivity |].
  simpl. repeat split; try reflexivity.
  intros i j Hi Hj. rewrite !bcast_idx_inside by assumption. reflexivity.
Qed.

Lemma diff_magnitude_same_shape (before after : ndarray3 R) :
  same_shape3 before after -> (0 < shape2 before)%nat ->
  exists dm, diff_magnitude before after = Returns dm
    /\ nrows dm = shape0 before /\ ncols dm = shape1 before
    /\ holds2 dm (Spec.diffMagnitude (shape2 before) (item3 before) (item3 after)).
Proof.
  intros Hs HB. unfold diff_magnitude.
  assert (Hs' : same_shape3 (astype_float3 after) (astype_float3 before)).
  { destruct Hs as (H0 & H1 & H2). repeat split; simpl; congruence. }
  destruct (zip3_same_shape fsub _ _ Hs') as (d & Hd & D0 & D1 & D2 & Hitem).
  rewrite Hd. simpl in *. eexists. split; [reflexivity |].
  destruct Hs as (H0 & H1 & H2).
  simpl. repeat split; try congruence.
  intros i j Hi Hj. simpl in *.
  rewrite (fsum_finite _ _ (fun k => Rabs (item3 after i j k - item3 before i j k))).
  - rewrite D2, <- H2. rewrite fdiv_finite by (apply INR_pos_neq; exact HB).
    reflexivity.
  - intros k Hk. rewrite Hitem by lia. reflexivity.
Qed.

Lemma pixel_change_of_layout_value (w : world) (before after : ndarray3 R)
    (k : R) (path : option string) :
  same_shape3 before after -> nonempty3 before ->
  pixel_change_of_layout w before after k path
  = Returns (Finite (Spec.pixel_change_percentage
                       (shape0 before) (shape1 before) (shape2 before)
                       (item3 before) (item3 after) k)).
Proof.
  intros Hs (N0 & N1 & N2). unfold pixel_change_of_layout.
  destruct (diff_magnitude_same_shape before after Hs N2) as (dm & Hdm & R0 & C0 & Hh).
  rewrite Hdm. simpl.
  assert (Hne : nonempty2 dm) by (split; [rewrite R0 | rewrite C0]; assumption).
  rewrite (threshold_holds dm _ k Hh Hne).
  rewrite (percent_above_holds dm _ _ Hh Hne).
  rewrite R0, C0.
  destruct path as [p|]; [rewrite save_change_map_returns |]; reflexivity.
Qed.

Lemma transpose_same_shape {A B : Type} (a : ndarray3 A) (b : ndarray3 B) :
  same_shape3 a b -> same_shape3 (transpose_120 a) (transpose_120 b).
Proof. intros (H0 & H1 & H2). repeat split; simpl; assumption. Qed.

Lemma transpose_nonempty {A : Type} (a : ndarray3 A) :
  nonempty3 a -> nonempty3 (transpose_120 a).
Proof. intros (H0 & H1 & H2). repeat split; simpl; assumption. Qed.

Lemma to_pixel_major_same_shape (before after : ndarray3 R) :
  same_shape3 before after ->
  same_shape3 (fst (to_pixel_major before after)) (snd (to_pixel_major before after)).
Proof.
  intros Hs. unfold to_pixel_major. destruct (shape0 before <=? 5); simpl.
  - apply transpose_same_shape, Hs.
  - exact Hs.
Qed.

Lemma to_pixel_major_nonempty (before after : ndarray3 R) :
  nonempty3 before -> nonempty3 (fst (to_pixel_major before after)).
Proof.
  intros Hn. unfold to_pixel_major. destruct (shape0 before <=? 5); simpl.
  - apply transpose_nonempty, Hn.
  - exact Hn.
Qed.

Lemma calculate_as_layout (w : world) (before after : ndarray3 R) (k : R)
    (path : option string) :
  calculate_pixel_change_percentage w before after k path
  = pixel_change_of_layout w (fst (to_pixel_major before after))
      (snd (to_pixel_major before after)) k path.
Proof.
  unfold calculate_pixel_change_percentage.
  destruct (to_pixel_major before after); reflexivity.
Qed.

End PixelChange.

Section PixelChangeClaims.

Local Open Scope R_scope.

Lemma changed_count_antitone (H W : nat) (d : nat -> nat -> R) (t1 t2 : R) :
  t1 <= t2 -> (Spec.changed_count H W d t2 <= Spec.changed_count H W d t1)%nat.
Proof.
  intros Ht. unfold Spec.changed_count.
  apply nat_sum_le. intros i _. apply nat_sum_le. intros j _.
  destruct (Rlt_dec t2 (d i j)) as [H2|H2], (Rlt_dec t1 (d i j)) as [H1|H1];
    try lia.
  exfalso. apply H1. lra.
Qed.

Lemma percentage_above_antitone (H W : nat) (d : nat -> nat -> R) (t1 t2 : R) :
  (0 < H * W)%nat -> t1 <= t2 ->
  Spec.percentage_above H W d t2 <= Spec.percentage_above H W d t1.
Proof.
  intros HN Ht. unfold Spec.percentage_above.
  pose proof (changed_count_antitone H W d t1 t2 Ht) as Hc.
  apply le_INR in Hc. apply lt_0_INR in HN.
  apply Rmult_le_compat_l; [lra |].
  unfold Rdiv. apply Rmult_le_compat_r; [| exact Hc].
  left. apply Rinv_0_lt_compat. exact HN.
Qed.

Lemma tau_monotone (H W : nat) (d : nat -> nat -> R) (k1 k2 : R) :
  k1 <= k2 -> Spec.tau H W d k1 <= Spec.tau H W d k2.
Proof.
  intros Hk. unfold Spec.tau.
  pose proof (sqrt_pos (Spec.mean H W
    (fun y x => (d y x - Spec.mean H W d) * (d y x - Spec.mean H W d)))) as Hs.
  unfold Spec.std. nra.
Qed.

Lemma mean_const (H W : nat) (v : R) :
  (0 < H)%nat -> (0 < W)%nat -> Spec.mean H W (fun _ _ => v) = v.
Proof.
  intros HH HW. unfold Spec.mean.
  rewrite (Rsum_ext H _ (fun _ => INR W * v)) by (intros; apply Rsum_const).
  rewrite Rsum_const, mult_INR.
  apply INR_pos_neq in HH. apply INR_pos_neq in HW. field. split; assumption.
Qed.

(** A field that is the same at every pixel has no pixel above its own
    threshold: the deviation is zero and the threshold is the common value. *)
Lemma percentage_const (H W : nat) (v k : R) :
  (0 < H)%nat -> (0 < W)%nat ->
  Spec.percentage_above H W (fun _ _ => v) (Spec.tau H W (fun _ _ => v) k) = 0.
Proof.
  intros HH HW. unfold Spec.tau, Spec.std.
  rewrite (mean_const H W v HH HW).
  replace (Spec.mean H W (fun _ _ => (v - v) * (v - v))) with 0.
  2:{ rewrite (mean_const H W ((v - v) * (v - v)) HH HW). ring. }
  rewrite sqrt_0. replace (v + k * 0) with v by ring.
  unfold Spec.percentage_above, Spec.changed_count.
  rewrite (nat_sum_ext H _ (fun _ => O)).
  - rewrite nat_sum_zero. simpl. unfold Rdiv. ring.
  - intros i _. rewrite (nat_sum_ext W _ (fun _ => O)).
    + apply nat_sum_zero.
    + intros j _. destruct (Rlt_dec v v) as [Hlt|_]; [lra | reflexivity].
Qed.

(** C3: for a before/after pair of one shape with no empty axis, and every
    threshold factor [k], [calculate_pixel_change_percentage] returns 100
    times the fraction of the pixels of the normalized pair whose change
    magnitude (the mean over the bands of the absolute difference) is
    strictly above [mean + k * std] of the magnitudes. *)
Theorem pixel_change_percentage_formula (w : world) (before after : ndarray3 R)
    (k : R) (path : option string) :
  same_shape3 before after -> nonempty3 before ->
  let b := fst (to_pixel_major before after) in
  let a := snd (to_pixel_major before after) in
  let H := shape0 b in
  let W := shape1 b in
  let d := Spec.diffMagnitude (shape2 b) (item3 b) (item3 a) in
  let tau := Spec.mean H W d + k * Spec.std H W d in
  calculate_pixel_change_percentage w before after k path
  = Returns (Finite (100 * (INR (Spec.changed_count H W d tau) / INR (H * W)))).
Proof.
  intros Hs Hn. simpl. rewrite calculate_as_layout.
  apply pixel_change_of_layout_value.
  - apply to_pixel_major_same_shape, Hs.
  - apply to_pixel_major_nonempty, Hn.
Qed.

(** C7: for a fixed image pair, the percentage does not grow when the
    threshold factor grows. *)
Theorem pixel_change_antitone_in_factor (w : world) (before after : ndarray3 R)
    (k1 k2 : R) (path : option string) :
  same_shape3 before after -> nonempty3 before -> k1 <= k2 ->
  exists p1 p2,
    calculate_pixel_change_percentage w before after k1 path = Returns (Finite p1)
    /\ calculate_pixel_change_percentage w before after k2 path = Returns (Finite p2)
    /\ p2 <= p1.
Proof.
  intros Hs Hn Hk.
  pose proof (to_pixel_major_same_shape before after Hs) as Hs'.
  pose proof (to_pixel_major_nonempty before after Hn) as Hn'.
  do 2 eexists. rewrite !calculate_as_layout.
  rewrite !(pixel_change_of_layout_value w _ _ _ path Hs' Hn').
  split; [reflexivity |]. split; [reflexivity |].
  unfold Spec.pixel_change_percentage.
  apply percentage_above_antitone.
  - destruct Hn' as (N0 & N1 & _). apply mult_pos; assumption.
  - apply tau_monotone, Hk.
Qed.

Lemma uniform_step_value (w : world) (k : R) (path : option string) :
  calculate_pixel_change_percentage w Examples.black50 Examples.white50 k path
  = Returns (Finite 0).
Proof.
  rewrite calculate_as_layout.
  change (to_pixel_major Examples.black50 Examples.white50)
    with (Examples.black50, Examples.white50).
  rewrite pixel_change_of_layout_value.
  - do 2 f_equal. unfold Spec.pixel_change_percentage.
    apply (percentage_const 50 50); lia.
  - repeat split; reflexivity.
  - repeat split; simpl; lia.
Qed.

(** C9, as the code behaves: for the 50 x 50 three-channel pair that is
    all zeros before and all 255 after, the reported percentage is 0 for
    every threshold factor: every pixel has magnitude 255, the deviation is
    zero, the threshold is 255 and no pixel is strictly above it. *)
Theorem uniform_step_reports_zero (w : world) (k : R) (path : option string) :
  calculate_pixel_change_percentage w Examples.black50 Examples.white50 k path
  = Returns (Finite 0).
Proof. apply uniform_step_value. Qed.

(** C9 as stated fails: the percentage is not 100. *)
Lemma uniform_step_not_full :
  calculate_pixel_change_percentage Examples.plain_pictures
    Examples.black50 Examples.white50 1 None <> Returns (Finite 100).
Proof.
  rewrite uniform_step_value. intros H. injection H as H. lra.
Qed.

Lemma pixel_change_of_layout_outcomes (w : world) (before after : ndarray3 R)
    (k : R) (path : option string) :
  (exists p, pixel_change_of_layout w before after k path = Returns p)
  \/ pixel_change_of_layout w before after k path = Raises broadcast_error.
Proof.
  unfold pixel_change_of_layout, diff_magnitude, zip3. simpl.
  destruct (broadcast_dim (shape0 after) (shape0 before));
    [| right; reflexivity].
  destruct (broadcast_dim (shape1 after) (shape1 before));
    [| right; reflexivity].
  destruct (broadcast_dim (shape2 after) (shape2 before));
    [| right; reflexivity].
  left. simpl.
  destruct path as [p|]; [rewrite save_change_map_returns |];
    eexists; reflexivity.
Qed.

(** C10: the layout is decided by the length of the first axis alone.  A
    first axis of length at most 5 is taken for the band axis: the pixels
    are the positions of the two other axes and the mean runs over the
    first one.  A longer first axis is taken for the rows: the mean runs
    over the last axis.  No layout is refused: the only exception the
    function can raise is numpy's broadcasting error. *)
Theorem layout_decided_by_first_axis (w : world) (before after : ndarray3 R)
    (k : R) (path : option string) :
  ((exists p, calculate_pixel_change_percentage w before after k path = Returns p)
   \/ calculate_pixel_change_percentage w before after k path
      = Raises broadcast_error)
  /\ ((shape0 before <= 5)%nat ->
      to_pixel_major before after = (transpose_120 before, transpose_120 after))
  /\ ((5 < shape0 before)%nat -> to_pixel_major before after = (before, after))
  /\ (same_shape3 before after -> nonempty3 before -> (shape0 before <= 5)%nat ->
      calculate_pixel_change_percentage w before after k path
      = Returns (Finite (Spec.pixel_change_percentage
          (shape1 before) (shape2 before) (shape0 before)
          (fun y x b => item3 before b y x) (fun y x b => item3 after b y x) k)))
  /\ (same_shape3 before after -> nonempty3 before -> (5 < shape0 before)%nat ->
      calculate_pixel_change_percentage w before after k path
      = Returns (Finite (Spec.pixel_change_percentage
          (shape0 before) (shape1 before) (shape2 before)
          (item3 before) (item3 after) k))).
Proof.
  assert (Hle : (shape0 before <= 5)%nat ->
      to_pixel_major before after = (transpose_120 before, transpose_120 after)).
  { intros H. unfold to_pixel_major.
    destruct (Nat.leb_spec (shape0 before) 5); [reflexivity | lia]. }
  assert (Hgt : (5 < shape0 before)%nat -> to_pixel_major before after = (before, after)).
  { intros H. unfold to_pixel_major.
    destruct (Nat.leb_spec (shape0 before) 5); [lia | reflexivity]. }
  split; [| split; [exact Hle | split; [exact Hgt | split]]].
  - rewrite calculate_as_layout. apply pixel_change_of_layout_outcomes.
  - intros Hs Hn H. rewrite calculate_as_layout, (Hle H). simpl.
    apply (pixel_change_of_layout_value w (transpose_120 before) (transpose_120 after)).
    + apply transpose_same_shape, Hs.
    + apply transpose_nonempty, Hn.
  - intros Hs Hn H. rewrite calculate_as_layout, (Hgt H). simpl.
    apply pixel_change_of_layout_value; assumption.
Qed.

Lemma uniform_magnitude_zero (dm : ndarray2 npfloat) (v k : R) :
  holds2 dm (fun _ _ => v) -> nonempty2 dm ->
  percent_above dm (threshold dm k) = Finite 0.
Proof.
  intros Hh Hn.
  rewrite (threshold_holds dm _ k Hh Hn), (percent_above_holds dm _ _ Hh Hn).
  destruct Hn as [Hr Hc]. rewrite (percentage_const _ _ v k Hr Hc). reflexivity.
Qed.

(** C6, at a pair whose band counts differ (three bands before, one band
    after, 2 x 2 pixels): the single band is broadcast against the three
    and the function returns a percentage; no shape error is raised. *)
Theorem band_mismatch_goes_unreported (w : world) (k : R) (path : option string) :
  ~ same_shape3 Examples.three_bands Examples.one_band
  /\ calculate_pixel_change_percentage w Examples.three_bands Examples.one_band k path
     = Returns (Finite 0).
Proof.
  split.
  - intros (H & _). discriminate H.
  - unfold calculate_pixel_change_percentage.
    change (to_pixel_major Examples.three_bands Examples.one_band)
      with (transpose_120 Examples.three_bands, transpose_120 Examples.one_band).
    cbv beta iota.
    unfold pixel_change_of_layout.
    assert (Hd : exists dm v, diff_magnitude (transpose_120 Examples.three_bands)
                  (transpose_120 Examples.one_band) = Returns dm
               /\ holds2 dm (fun _ _ => v) /\ nonempty2 dm).
    { unfold diff_magnitude, zip3. simpl. do 2 eexists. split; [reflexivity |].
      split.
      - intros i j _ _. simpl. rewrite Reqb_false by lra. reflexivity.
      - split; simpl; lia. }
    destruct Hd as (dm & v & -> & Hh & Hn). simpl.
    rewrite (uniform_magnitude_zero dm v k Hh Hn).
    destruct path as [p|]; [rewrite save_change_map_returns |]; reflexivity.
Qed.

End PixelChangeClaims.

(** ** The spectral indices *)

Section Indices.

Local Open Scope R_scope.

Lemma replaced_zero_is_max (d : R) :
  d = 0 \/ Spec.epsilon <= d -> replaced_zero d = Rmax d Spec.epsilon.
Proof.
  unfold replaced_zero, Reqb, Spec.epsilon. intros [H | H].
  - subst d. destruct (Req_dec_T 0 0); [| contradiction].
    rewrite Rmax_right; lra.
  - destruct (Req_dec_T d 0); [lra |]. rewrite Rmax_left; lra.
Qed.

Lemma guarded_denominator_value (a b : ndarray2 R) :
  same_shape2 a b ->
  exists den, guarded_denominator (astype_float2 a) (astype_float2 b) = Returns den
    /\ same_shape2 den a
    /\ (forall i j, exists d, item2 den i j = Finite d /\ d <> 0)
    /\ holds2 den (fun i j => replaced_zero (item2 a i j + item2 b i j)).
Proof.
  intros (H0 & H1). unfold guarded_denominator, zip2. simpl.
  rewrite <- H0, <- H1, !broadcast_dim_same. simpl.
  eexists. split; [reflexivity |]. split; [split; reflexivity |]. split.
  - intros i j. simpl.
    destruct (Reqb _ 0) eqn:E.
    + exists 1e-10. split; [reflexivity | lra].
    + eexists. split; [reflexivity |].
      unfold Reqb in E. destruct (Req_dec_T _ 0); [discriminate | assumption].
  - intros i j Hi Hj. simpl in *. rewrite !bcast_idx_inside by assumption.
    unfold replaced_zero. destruct (Reqb _ 0); reflexivity.
Qed.

Lemma normalized_difference_value (a b : ndarray2 R) :
  same_shape2 a b ->
  exists res, normalized_difference a b = Returns res
    /\ same_shape2 res a
    /\ all_finite2 res
    /\ holds2 res (fun i j =>
         (item2 a i j - item2 b i j) / replaced_zero (item2 a i j + item2 b i j)).
Proof.
  intros (H0 & H1). unfold normalized_difference, guarded_denominator, zip2. simpl.
  rewrite <- H0, <- H1, !broadcast_dim_same. simpl.
  rewrite !broadcast_dim_same. simpl.
  eexists. split; [reflexivity |]. split; [split; reflexivity |]. split.
  - intros i j. simpl.
    destruct (Reqb _ 0) eqn:E; cbv iota.
    + eexists. rewrite (Reqb_false 1e-10 0) by lra. reflexivity.
    + eexists. rewrite E. reflexivity.
  - intros i j Hi Hj. simpl in *.
    rewrite !(bcast_idx_inside _ i Hi), !(bcast_idx_inside _ j Hj).
    unfold replaced_zero.
    destruct (Reqb _ 0) eqn:E; cbv iota.
    + rewrite (Reqb_false 1e-10 0) by lra. reflexivity.
    + rewrite E. reflexivity.
Qed.

(** C8: for bands of one shape, [calculate_ndvi] and [calculate_ndbi]
    return (they do not raise), every divisor they use is a non-zero number,
    and every entry of their result is finite: no not-a-number, no
    infinity.  (Finite arithmetic is exact in this model.) *)
Theorem indices_are_finite (a_band b_band : ndarray2 R) :
  same_shape2 a_band b_band ->
  (exists den,
      guarded_denominator (astype_float2 a_band) (astype_float2 b_band) = Returns den
      /\ forall i j, exists d, item2 den i j = Finite d /\ d <> 0)
  /\ (exists ndvi, calculate_ndvi a_band b_band = Returns ndvi
        /\ same_shape2 ndvi a_band /\ forall i j, is_finite (item2 ndvi i j))
  /\ (exists ndbi, calculate_ndbi a_band b_band = Returns ndbi
        /\ same_shape2 ndbi a_band /\ forall i j, is_finite (item2 ndbi i j)).
Proof.
  intros Hs.
  destruct (guarded_denominator_value a_band b_band Hs) as (den & Hden & _ & Hnz & _).
  destruct (normalized_difference_value a_band b_band Hs) as (res & Hres & Hsh & Hfin & _).
  split; [exists den; split; assumption |].
  split; exists res; repeat split; try assumption; apply Hsh.
Qed.

(** C4, as the code behaves: for bands of one shape, each entry of the
    result of [calculate_ndvi] and of [calculate_ndbi] is
    [(x - y) / d], where [d] is 1e-10 when the sum [x + y] is exactly zero
    and is the sum itself otherwise.  This is the formula with
    [max(x + y, 1e-10)] whenever the sum is zero or at least 1e-10. *)
Theorem index_replaces_zero_denominator (a_band b_band : ndarray2 R) :
  same_shape2 a_band b_band ->
  exists ndvi ndbi,
    calculate_ndvi a_band b_band = Returns ndvi
    /\ calculate_ndbi a_band b_band = Returns ndbi
    /\ same_shape2 ndvi a_band /\ same_shape2 ndbi a_band
    /\ forall i j, (i < nrows a_band)%nat -> (j < ncols a_band)%nat ->
         let x := item2 a_band i j in
         let y := item2 b_band i j in
         item2 ndvi i j = Finite ((x - y) / replaced_zero (x + y))
         /\ item2 ndbi i j = Finite ((x - y) / replaced_zero (x + y))
         /\ (x + y = 0 \/ Spec.epsilon <= x + y ->
             item2 ndvi i j = Finite (Spec.index_formula x y)
             /\ item2 ndbi i j = Finite (Spec.index_formula x y)).
Proof.
  intros Hs.
  destruct (normalized_difference_value a_band b_band Hs) as (res & Hres & Hsh & _ & Hval).
  assert (Hin : forall i j, (i < nrows a_band)%nat -> (j < ncols a_band)%nat ->
            item2 res i j
            = Finite ((item2 a_band i j - item2 b_band i j)
                      / replaced_zero (item2 a_band i j + item2 b_band i j))).
  { intros i j Hi Hj. apply Hval.
    - rewrite (proj1 Hsh). exact Hi.
    - rewrite (proj2 Hsh). exact Hj. }
  exists res, res. repeat split; try assumption; try apply Hsh; try (apply Hin; assumption).
  - unfold Spec.index_formula. rewrite <- replaced_zero_is_max by assumption.
    apply Hin; assumption.
  - unfold Spec.index_formula. rewrite <- replaced_zero_is_max by assumption.
    apply Hin; assumption.
Qed.

(** C4 as stated fails: with near-infrared -3 and red 1 the sum is -2, the
    code divides by -2 and returns 2; the formula with
    [max(-2, 1e-10)] divides by 1e-10. *)
Lemma negative_sum_not_floored :
  exists ndvi,
    calculate_ndvi Examples.nir_negative Examples.red_one = Returns ndvi
    /\ item2 ndvi 0%nat 0%nat = Finite 2
    /\ item2 ndvi 0%nat 0%nat <> Finite (Spec.index_formula (-3) 1).
Proof.
  destruct (normalized_difference_value Examples.nir_negative Examples.red_one)
    as (res & Hres & Hs & _ & Hval); [split; reflexivity |].
  assert (H2 : item2 res 0%nat 0%nat = Finite 2).
  { rewrite Hval.
    - simpl. unfold replaced_zero. rewrite Reqb_false by lra. f_equal. field.
    - rewrite (proj1 Hs). simpl. lia.
    - rewrite (proj2 Hs). simpl. lia. }
  exists res. split; [exact Hres |]. split; [exact H2 |].
  rewrite H2. intros H. injection H as H.
  unfold Spec.index_formula, Spec.epsilon in H.
  rewrite Rmax_right in H by lra. lra.
Qed.

End Indices.

(** ** The report *)

Section Report.

Local Open Scope R_scope.

Ltac run := cbn [mbind outcome_bind Py.bind mret outcome_ret].

Lemma reconcile_value (changes : gmap string pyval) (t p : npfloat) :
  changes !! "total_change_percentage" = Some (VFloat t) ->
  exists report, reconcile changes p = Returns report
    /\ report !! "total_change_percentage" = Some (VFloat (if fgtb p t then p else t))
    /\ report !! "pixel_change_percentage" = Some (VFloat p)
    /\ forall key, key <> "total_change_percentage" ->
         key <> "pixel_change_percentage" -> report !! key = changes !! key.
Proof.
  intros Ht. unfold reconcile, dict_get.
  rewrite lookup_insert_ne by done. rewrite Ht. simpl.
  destruct (fgtb p t).
  - eexists. split; [reflexivity |]. split; [apply lookup_insert_eq |].
    split.
    + rewrite lookup_insert_ne by done. apply lookup_insert_eq.
    + intros key H1 H2. rewrite !lookup_insert_ne by done. reflexivity.
  - eexists. split; [reflexivity |]. split.
    + rewrite lookup_insert_ne by done. exact Ht.
    + split; [apply lookup_insert_eq |].
      intros key H1 H2. rewrite lookup_insert_ne by done. reflexivity.
Qed.

Lemma truthy_dict_with (d : gmap string npfloat) (k : string) (v : npfloat) :
  d !! k = Some v -> truthy (VDict d) = true.
Proof.
  intros H. unfold truthy. destruct (Nat.eqb_spec (size d) 0) as [E|E]; [| reflexivity].
  apply map_size_empty_iff in E. subst d. rewrite lookup_empty in H. discriminate.
Qed.

Lemma add_to_total_empty (changes : gmap string pyval) (key k1 k2 : string)
    (total : npfloat) :
  changes !! key = Some (VDict ∅) ->
  add_to_total changes key k1 k2 total = Returns total.
Proof. intros H. unfold add_to_total, getitem. rewrite H. reflexivity. Qed.

Lemma add_to_total_stats (changes : gmap string pyval) (key k1 k2 : string)
    (total : npfloat) (d : gmap string npfloat) (x y : npfloat) :
  changes !! key = Some (VDict d) -> d !! k1 = Some x -> d !! k2 = Some y ->
  add_to_total changes key k1 k2 total = Returns (fadd total (fadd x y)).
Proof.
  intros H H1 H2. unfold add_to_total, getitem. rewrite H. run.
  rewrite (truthy_dict_with d k1 x H1). unfold subscript, getitem.
  rewrite H1, H2. reflexivity.
Qed.

Lemma fraction_pct_finite (c n : nat) :
  (0 < n)%nat -> fraction_pct c n = Finite (INR c / INR n * 100).
Proof.
  intros H. unfold fraction_pct. rewrite fdiv_finite by (apply INR_pos_neq; exact H).
  reflexivity.
Qed.

Lemma fraction_pct_nonneg (c n : nat) : (0 < n)%nat -> 0 <= INR c / INR n * 100.
Proof.
  intros H. apply lt_0_INR in H. pose proof (pos_INR c) as Hc.
  apply Rmult_le_pos; [| lra]. unfold Rdiv. apply Rmult_le_pos; [exact Hc |].
  left. apply Rinv_0_lt_compat. exact H.
Qed.

Lemma analyze_index_some (key : string) (stats : ndarray2 npfloat -> gmap string npfloat)
    (b a : ndarray2 npfloat) (changes : gmap string pyval) :
  same_shape2 a b ->
  exists index_diff,
    analyze_index key stats (Some b) (Some a) changes
    = Returns (<[key := VDict (stats index_diff)]> changes)
    /\ same_shape2 index_diff a.
Proof.
  intros Hs. unfold analyze_index.
  destruct (zip2_same_shape fsub a b Hs) as (r & Hr & R0 & R1 & _).
  rewrite Hr. run. exists r. split; [reflexivity | split; assumption].
Qed.

Lemma analyze_without_indices :
  analyze_satellite_changes None None None None
  = Returns (<["total_change_percentage" := VFloat (Finite 0)]> initial_changes).
Proof.
  unfold analyze_satellite_changes, analyze_index. run.
  rewrite add_to_total_empty.
  2:{ unfold initial_changes. rewrite !lookup_insert_ne by done. apply lookup_insert_eq. }
  run. rewrite add_to_total_empty.
  2:{ unfold initial_changes. rewrite !lookup_insert_ne by done. apply lookup_insert_eq. }
  reflexivity.
Qed.

Lemma analyze_vegetation_only (b a : ndarray2 npfloat) :
  same_shape2 a b -> nonempty2 a ->
  exists (ndvi_diff : ndarray2 npfloat) (t : R),
    analyze_satellite_changes (Some b) (Some a) None None
    = Returns (<["total_change_percentage" := VFloat (Finite t)]>
               (<["vegetation_changes" := VDict (vegetation_dict ndvi_diff)]>
                initial_changes))
    /\ 0 <= t.
Proof.
  intros Hs [Hr Hc]. unfold analyze_satellite_changes.
  destruct (analyze_index_some "vegetation_changes" vegetation_dict b a initial_changes Hs)
    as (d & Hd & D0 & D1).
  rewrite Hd. run. unfold analyze_index at 1. run.
  assert (Hn : (0 < size2 d)%nat).
  { unfold size2. rewrite D0, D1. apply mult_pos; assumption. }
  rewrite (add_to_total_stats _ _ _ _ _ (vegetation_dict d) (loss_pct d) (gain_pct d)).
  2:{ apply lookup_insert_eq. }
  2:{ unfold vegetation_dict. rewrite !lookup_insert_ne by done. apply lookup_insert_eq. }
  2:{ unfold vegetation_dict. rewrite !lookup_insert_ne by done. apply lookup_insert_eq. }
  run. rewrite add_to_total_empty.
  2:{ rewrite lookup_insert_ne by done. unfold initial_changes.
      rewrite !lookup_insert_ne by done. apply lookup_insert_eq. }
  run. unfold loss_pct, gain_pct. rewrite !fraction_pct_finite by exact Hn.
  cbn [fadd]. exists d. eexists. split; [reflexivity |].
  pose proof (fraction_pct_nonneg
    (count2 (map2 (fun v => fltb v (Finite (-0.1))) d)) (size2 d) Hn).
  pose proof (fraction_pct_nonneg
    (count2 (map2 (fun v => fgtb v (Finite 0.1)) d)) (size2 d) Hn).
  lra.
Qed.

Lemma analyze_both_indices (vb va ub ua : ndarray2 npfloat) :
  same_shape2 va vb -> nonempty2 va -> same_shape2 ua ub -> nonempty2 ua ->
  exists (ndvi_diff ndbi_diff : ndarray2 npfloat) (t : R),
    analyze_satellite_changes (Some vb) (Some va) (Some ub) (Some ua)
    = Returns (<["total_change_percentage" := VFloat (Finite t)]>
               (<["urban_changes" := VDict (urban_dict ndbi_diff)]>
               (<["vegetation_changes" := VDict (vegetation_dict ndvi_diff)]>
                initial_changes)))
    /\ 0 <= t.
Proof.
  intros Hvs [Hvr Hvc] Hus [Hur Huc]. unfold analyze_satellite_changes.
  destruct (analyze_index_some "vegetation_changes" vegetation_dict vb va
              initial_changes Hvs) as (d & Hd & D0 & D1).
  rewrite Hd. run.
  destruct (analyze_index_some "urban_changes" urban_dict ub ua
              (<["vegetation_changes" := VDict (vegetation_dict d)]> initial_changes) Hus)
    as (e & He & E0 & E1).
  rewrite He. run.
  assert (Hn : (0 < size2 d)%nat).
  { unfold size2. rewrite D0, D1. apply mult_pos; assumption. }
  assert (Hm : (0 < size2 e)%nat).
  { unfold size2. rewrite E0, E1. apply mult_pos; assumption. }
  rewrite (add_to_total_stats _ _ _ _ _ (vegetation_dict d) (loss_pct d) (gain_pct d)).
  2:{ rewrite lookup_insert_ne by done. apply lookup_insert_eq. }
  2:{ unfold vegetation_dict. rewrite !lookup_insert_ne by done. apply lookup_insert_eq. }
  2:{ unfold vegetation_dict. rewrite !lookup_insert_ne by done. apply lookup_insert_eq. }
  run.
  rewrite (add_to_total_stats _ _ _ _ _ (urban_dict e) (gain_pct e) (loss_pct e)).
  2:{ apply lookup_insert_eq. }
  2:{ unfold urban_dict. rewrite !lookup_insert_ne by done. apply lookup_insert_eq. }
  2:{ unfold urban_dict. rewrite !lookup_insert_ne by done. apply lookup_insert_eq. }
  run. unfold loss_pct, gain_pct. rewrite !fraction_pct_finite by assumption.
  cbn [fadd]. exists d, e. eexists. split; [reflexivity |].
  pose proof (fraction_pct_nonneg
    (count2 (map2 (fun v => fltb v (Finite (-0.1))) d)) (size2 d) Hn).
  pose proof (fraction_pct_nonneg
    (count2 (map2 (fun v => fgtb v (Finite 0.1)) d)) (size2 d) Hn).
  pose proof (fraction_pct_nonneg
    (count2 (map2 (fun v => fltb v (Finite (-0.1))) e)) (size2 e) Hm).
  pose proof (fraction_pct_nonneg
    (count2 (map2 (fun v => fgtb v (Finite 0.1)) e)) (size2 e) Hm).
  lra.
Qed.

Lemma index_pair_value (before after : ndarray3 R) (i j : nat) :
  same_shape3 before after -> (i < shape0 before)%nat -> (j < shape0 before)%nat ->
  exists bi ai,
    index_pair normalized_difference before after i j = Returns (bi, ai)
    /\ same_shape2 ai bi
    /\ nrows ai = shape1 before /\ ncols ai = shape2 before.
Proof.
  intros (H0 & H1 & H2) Hi Hj. unfold index_pair, getitem0.
  rewrite <- H0.
  destruct (Nat.ltb_spec i (shape0 before)); [| lia].
  destruct (Nat.ltb_spec j (shape0 before)); [| lia].
  run.
  match goal with |- context [normalized_difference ?x ?y] =>
    destruct (normalized_difference_value x y) as (bi & Hbi & (B0 & B1) & _);
      [split; reflexivity |]
  end.
  rewrite Hbi. run.
  match goal with |- context [normalized_difference ?x ?y] =>
    destruct (normalized_difference_value x y) as (ai & Hai & (A0 & A1) & _);
      [split; reflexivity |]
  end.
  rewrite Hai. run. simpl in *.
  do 2 eexists. split; [reflexivity |].
  repeat split; congruence.
Qed.

Lemma compute_indices_few_bands (before after : ndarray3 R) :
  (shape0 before < 4)%nat ->
  compute_indices before after = Returns (None, None, None, None).
Proof.
  intros H. unfold compute_indices.
  destruct (Nat.leb_spec 4 (shape0 before)); [lia | reflexivity].
Qed.

(** The index path of a pair of one shape with no empty axis returns a
    report whose total is a finite, non-negative number. *)
Lemma index_path_total (before after : ndarray3 R) :
  same_shape3 before after -> nonempty3 before ->
  exists changes (t : R),
    index_path_report before after = Returns changes
    /\ changes !! "total_change_percentage" = Some (VFloat (Finite t))
    /\ 0 <= t.
Proof.
  intros Hs (N0 & N1 & N2). unfold index_path_report, compute_indices.
  destruct (Nat.leb_spec 4 (shape0 before)) as [H4|H4].
  - destruct (index_pair_value before after 3 2 Hs) as (vb & va & Hv & Hvs & V0 & V1);
      [lia | lia |].
    change (index_pair calculate_ndvi) with (index_pair normalized_difference).
    rewrite Hv. run.
    assert (Hvn : nonempty2 va) by (split; [rewrite V0 | rewrite V1]; assumption).
    destruct (Nat.leb_spec 5 (shape0 before)) as [H5|H5].
    + destruct (index_pair_value before after 4 3 Hs) as (ub & ua & Hu & Hus & U0 & U1);
        [lia | lia |].
      change (index_pair calculate_ndbi) with (index_pair normalized_difference).
      rewrite Hu. run.
      assert (Hun : nonempty2 ua) by (split; [rewrite U0 | rewrite U1]; assumption).
      destruct (analyze_both_indices vb va ub ua Hvs Hvn Hus Hun)
        as (d & e & t & Ht & Hpos).
      rewrite Ht. eexists. exists t. split; [reflexivity |].
      split; [apply lookup_insert_eq | exact Hpos].
    + run. destruct (analyze_vegetation_only vb va Hvs Hvn) as (d & t & Ht & Hpos).
      rewrite Ht. eexists. exists t. split; [reflexivity |].
      split; [apply lookup_insert_eq | exact Hpos].
  - run. rewrite analyze_without_indices. eexists. exists 0.
    split; [reflexivity |]. split; [apply lookup_insert_eq | lra].
Qed.

Lemma pixel_percentage_finite (w : world) (before after : ndarray3 R) (k : R)
    (path : option string) :
  same_shape3 before after -> nonempty3 before ->
  exists p, calculate_pixel_change_percentage w before after k path = Returns (Finite p)
    /\ 0 <= p.
Proof.
  intros Hs Hn. rewrite calculate_as_layout.
  pose proof (to_pixel_major_same_shape before after Hs) as Hs'.
  pose proof (to_pixel_major_nonempty before after Hn) as Hn'.
  rewrite (pixel_change_of_layout_value w _ _ k path Hs' Hn').
  eexists. split; [reflexivity |].
  unfold Spec.pixel_change_percentage, Spec.percentage_above.
  destruct Hn' as (N0 & N1 & _).
  pose proof (mult_pos _ _ N0 N1) as HN. apply lt_0_INR in HN.
  match goal with |- 0 <= 100 * (INR ?c / _) => pose proof (pos_INR c) as Hc end.
  apply Rmult_le_pos; [lra |]. unfold Rdiv. apply Rmult_le_pos; [exact Hc |].
  left. apply Rinv_0_lt_compat. exact HN.
Qed.

Lemma fgtb_finite_max (p t : R) :
  (if fgtb (Finite p) (Finite t) then Finite p else Finite t) = Finite (Rmax t p).
Proof.
  unfold fgtb, fltb, Rltb. destruct (Rlt_dec t p) as [H|H].
  - rewrite Rmax_right by lra. reflexivity.
  - rewrite Rmax_left by lra. reflexivity.
Qed.

(** C1: for a raster pair of one shape with no empty axis, the returned
    report's total_change_percentage is the larger of the total of the
    index path and the pixel-change percentage; so it is at least the
    pixel-change percentage, which the report carries too. *)
Theorem headline_is_maximum (w : world) (before after : ndarray3 R)
    (path : option string) (k : R) :
  same_shape3 before after -> nonempty3 before ->
  exists (changes report : gmap string pyval) (t p : R),
    index_path_report before after = Returns changes
    /\ changes !! "total_change_percentage" = Some (VFloat (Finite t))
    /\ calculate_pixel_change_percentage w before after k path = Returns (Finite p)
    /\ process_geotiff w before after path k = Returns report
    /\ report !! "total_change_percentage" = Some (VFloat (Finite (Rmax t p)))
    /\ report !! "pixel_change_percentage" = Some (VFloat (Finite p))
    /\ p <= Rmax t p.
Proof.
  intros Hs Hn.
  destruct (index_path_total before after Hs Hn) as (changes & t & Hc & Ht & _).
  destruct (pixel_percentage_finite w before after k path Hs Hn) as (p & Hp & _).
  destruct (reconcile_value changes (Finite t) (Finite p) Ht)
    as (report & Hr & Htot & Hpix & _).
  exists changes, report, t, p.
  split; [exact Hc |]. split; [exact Ht |]. split; [exact Hp |].
  split.
  - unfold process_geotiff. rewrite Hc. run. rewrite Hp. run. exact Hr.
  - split; [rewrite Htot, fgtb_finite_max; reflexivity |].
    split; [exact Hpix | apply Rmax_r].
Qed.

Lemma few_bands_report (w : world) (before after : ndarray3 R)
    (path : option string) (k : R) :
  same_shape3 before after -> nonempty3 before -> (shape0 before < 4)%nat ->
  exists (p : R) (report : gmap string pyval),
    calculate_pixel_change_percentage w before after k path = Returns (Finite p)
    /\ process_geotiff w before after path k = Returns report
    /\ report !! "analysis_type" = Some (VStr "satellite_indices")
    /\ report !! "vegetation_changes" = Some (VDict ∅)
    /\ report !! "urban_changes" = Some (VDict ∅)
    /\ report !! "pixel_change_percentage" = Some (VFloat (Finite p))
    /\ report !! "total_change_percentage" = Some (VFloat (Finite p))
    /\ report !! "channel_changes" = None
    /\ report !! "change_type" = None.
Proof.
  intros Hs Hn H4.
  destruct (pixel_percentage_finite w before after k path Hs Hn) as (p & Hp & Hpos).
  set (changes := <["total_change_percentage" := VFloat (Finite 0)]> initial_changes).
  assert (Hc : index_path_report before after = Returns changes).
  { unfold index_path_report. rewrite (compute_indices_few_bands before after H4).
    run. apply analyze_without_indices. }
  assert (Ht : changes !! "total_change_percentage" = Some (VFloat (Finite 0)))
    by apply lookup_insert_eq.
  destruct (reconcile_value changes (Finite 0) (Finite p) Ht)
    as (report & Hr & Htot & Hpix & Hrest).
  exists p, report. split; [exact Hp |]. split.
  { unfold process_geotiff. rewrite Hc. run. rewrite Hp. run. exact Hr. }
  repeat split.
  - rewrite Hrest by done. unfold changes, initial_changes.
    rewrite !lookup_insert_ne by done. apply lookup_insert_eq.
  - rewrite Hrest by done. unfold changes, initial_changes.
    rewrite !lookup_insert_ne by done. apply lookup_insert_eq.
  - rewrite Hrest by done. unfold changes, initial_changes.
    rewrite !lookup_insert_ne by done. apply lookup_insert_eq.
  - exact Hpix.
  - rewrite Htot, fgtb_finite_max, Rmax_right by exact Hpos. reflexivity.
  - rewrite Hrest by done. unfold changes, initial_changes.
    rewrite !lookup_insert_ne by done. apply lookup_empty.
  - rewrite Hrest by done. unfold changes, initial_changes.
    rewrite !lookup_insert_ne by done. apply lookup_empty.
Qed.

(** C5, as the code behaves: for a raster pair of one shape with fewer
    than 4 bands no index is computed, and the report is a pixel-change-only
    report of type satellite_indices: the keys vegetation_changes and
    urban_changes are present and hold empty dictionaries, the total equals
    the pixel-change percentage, and the keys of the RGB path
    (channel_changes, change_type) are absent. *)
Theorem few_bands_pixel_only_report (w : world) (before after : ndarray3 R)
    (path : option string) (k : R) :
  same_shape3 before after -> nonempty3 before -> (shape0 before < 4)%nat ->
  compute_indices before after = Returns (None, None, None, None)
  /\ exists (p : R) (report : gmap string pyval),
    calculate_pixel_change_percentage w before after k path = Returns (Finite p)
    /\ process_geotiff w before after path k = Returns report
    /\ report !! "analysis_type" = Some (VStr "satellite_indices")
    /\ report !! "vegetation_changes" = Some (VDict ∅)
    /\ report !! "urban_changes" = Some (VDict ∅)
    /\ report !! "pixel_change_percentage" = Some (VFloat (Finite p))
    /\ report !! "total_change_percentage" = Some (VFloat (Finite p))
    /\ report !! "channel_changes" = None
    /\ report !! "change_type" = None.
Proof.
  intros Hs Hn H4. split.
  - apply compute_indices_few_bands, H4.
  - apply few_bands_report; assumption.
Qed.

(** C5 as stated fails: in the report of a three-band pair the keys
    vegetation_changes and urban_changes are not omitted. *)
Lemma few_bands_fields_present :
  exists report : gmap string pyval,
    process_geotiff Examples.plain_pictures Examples.three_bands Examples.three_bands
      None 1 = Returns report
    /\ report !! "vegetation_changes" <> None
    /\ report !! "urban_changes" <> None.
Proof.
  destruct (few_bands_report Examples.plain_pictures Examples.three_bands
              Examples.three_bands None 1)
    as (p & report & _ & Hr & _ & Hv & Hu & _).
  - repeat split; reflexivity.
  - repeat split; simpl; lia.
  - simpl. lia.
  - exists report. split; [exact Hr |]. rewrite Hv, Hu. split; discriminate.
Qed.

End Report.

(** ** The entry point *)

Section EntryPoint.

Local Open Scope R_scope.

Ltac run := cbn [mbind outcome_bind Py.bind mret outcome_ret].

Lemma fallback_call_rejected :
  bind_arguments process_regular_image_params 3 ["threshold_factor"]
  = Raises (TypeError "got an unexpected keyword argument threshold_factor").
Proof. reflexivity. Qed.

(** Called with its two parameters, on two pictures of one size, the RGB
    analysis returns a report of type rgb_based. *)
Lemma process_regular_image_report (w : world) (before_path after_path : string)
    (before_img after_img : rgb_image) :
  pil_open_rgb w before_path = Returns before_img ->
  pil_open_rgb w after_path = Returns after_img ->
  img_height before_img = img_height after_img ->
  img_width before_img = img_width after_img ->
  exists report,
    process_regular_image w before_path after_path = Returns report
    /\ report !! "analysis_type" = Some (VStr "rgb_based").
Proof.
  intros Hb Ha Hh Hw. unfold process_regular_image. rewrite Hb. run. rewrite Ha. run.
  destruct (zip3_same_shape fsub (astype_float3 (np_array after_img))
              (astype_float3 (np_array before_img))) as (d & Hd & _).
  { repeat split; simpl; congruence. }
  rewrite Hd. run.
  rewrite fdiv_finite by lra. cbn [int_of_float]. run.
  eexists. split; [reflexivity |].
  rewrite lookup_insert_ne by done. apply lookup_insert_eq.
Qed.

(** C2, as the code behaves: whenever reading either file as a raster
    fails with a format-read error, [detect_changes] raises a TypeError:
    the fallback call gives [process_regular_image] a third positional
    argument and a keyword it does not have, so no picture is opened and no
    rgb_based report is returned. *)
Theorem fallback_raises_type_error (w : world) (before_path after_path : string)
    (path : option string) (k : R) (msg : string) :
  (rasterio_read w before_path = Raises (RasterioIOError msg)
   \/ exists before_data, rasterio_read w before_path = Returns before_data
        /\ rasterio_read w after_path = Raises (RasterioIOError msg)) ->
  detect_changes w before_path after_path path k
  = Raises (TypeError "got an unexpected keyword argument threshold_factor").
Proof.
  intros [H | (d & Hb & Ha)]; unfold detect_changes.
  - rewrite H. reflexivity.
  - rewrite Hb. run. rewrite Ha. reflexivity.
Qed.

End EntryPoint.

(** ** The theorems at concrete inputs *)

Section Instances.

Local Open Scope R_scope.

(** A picture of 2 rows, 4 columns and 3 channels has a first axis of
    length 2: it is handled as a raster of 2 bands and 4 x 3 pixels. *)
Example short_picture_is_transposed :
  let '(b, _) := to_pixel_major (Examples.full3 2 4 3 0) (Examples.full3 2 4 3 0) in
  (shape0 b, shape1 b, shape2 b) = (4, 3, 2)%nat.
Proof. reflexivity. Qed.

(** A raster of 8 bands and 2 x 2 pixels has a first axis of length 8: it
    is handled as a picture of 8 x 2 pixels and 2 channels. *)
Example many_bands_are_rows :
  let '(b, _) := to_pixel_major (Examples.full3 8 2 2 0) (Examples.full3 8 2 2 0) in
  (shape0 b, shape1 b, shape2 b) = (8, 2, 2)%nat.
Proof. reflexivity. Qed.

(** The headline of a five-band pair (values 1 before, 3 after). *)
Lemma headline_is_maximum_witness :
  exists (report : gmap string pyval) (t p : R),
    process_geotiff Examples.plain_pictures Examples.five_bands_dark
      Examples.five_bands_bright None 1 = Returns report
    /\ report !! "total_change_percentage" = Some (VFloat (Finite (Rmax t p)))
    /\ report !! "pixel_change_percentage" = Some (VFloat (Finite p)).
Proof.
  destruct (headline_is_maximum Examples.plain_pictures Examples.five_bands_dark
              Examples.five_bands_bright None 1)
    as (c & r & t & p & _ & _ & _ & Hr & Ht & Hp & _).
  - repeat split; reflexivity.
  - repeat split; simpl; lia.
  - exists r, t, p. repeat split; assumption.
Defined.

(** Two pictures that are not rasters: the fallback call fails. *)
Lemma fallback_raises_type_error_witness :
  detect_changes Examples.plain_pictures "before.jpg" "after.jpg" None 1
  = Raises (TypeError "got an unexpected keyword argument threshold_factor").
Proof.
  apply (fallback_raises_type_error Examples.plain_pictures "before.jpg" "after.jpg"
           None 1 "before.jpg: not recognized as a supported file format").
  left. reflexivity.
Defined.

(** The formula at the five-band pair. *)
Lemma pixel_change_percentage_formula_witness :
  exists p : R,
    calculate_pixel_change_percentage Examples.plain_pictures
      Examples.five_bands_dark Examples.five_bands_bright 1 None = Returns (Finite p).
Proof.
  eexists.
  apply (pixel_change_percentage_formula Examples.plain_pictures
           Examples.five_bands_dark Examples.five_bands_bright 1 None).
  - repeat split; reflexivity.
  - repeat split; simpl; lia.
Defined.

(** The index of the 1 x 1 pair with near-infrared -3 and red 1. *)
Lemma index_replaces_zero_denominator_witness :
  exists ndvi : ndarray2 npfloat,
    calculate_ndvi Examples.nir_negative Examples.red_one = Returns ndvi
    /\ item2 ndvi 0%nat 0%nat = Finite ((-3 - 1) / replaced_zero (-3 + 1)).
Proof.
  destruct (index_replaces_zero_denominator Examples.nir_negative Examples.red_one)
    as (ndvi & ndbi & Hv & _ & _ & _ & Hitem).
  - split; reflexivity.
  - exists ndvi. split; [exact Hv |].
    apply (Hitem 0%nat 0%nat); simpl; lia.
Defined.

(** The report of a three-band pair. *)
Lemma few_bands_pixel_only_report_witness :
  exists (report : gmap string pyval),
    process_geotiff Examples.plain_pictures Examples.three_bands Examples.three_bands
      None 1 = Returns report
    /\ report !! "vegetation_changes" = Some (VDict ∅)
    /\ report !! "urban_changes" = Some (VDict ∅).
Proof.
  destruct (few_bands_pixel_only_report Examples.plain_pictures Examples.three_bands
              Examples.three_bands None 1)
    as (_ & p & report & _ & Hr & _ & Hv & Hu & _).
  - repeat split; reflexivity.
  - repeat split; simpl; lia.
  - simpl. lia.
  - exists report. repeat split; assumption.
Defined.

(** Factors 1 and 2 on the five-band pair. *)
Lemma pixel_change_antitone_in_factor_witness :
  exists p1 p2 : R,
    calculate_pixel_change_percentage Examples.plain_pictures
      Examples.five_bands_dark Examples.five_bands_bright 1 None = Returns (Finite p1)
    /\ calculate_pixel_change_percentage Examples.plain_pictures
      Examples.five_bands_dark Examples.five_bands_bright 2 None = Returns (Finite p2)
    /\ p2 <= p1.
Proof.
  apply (pixel_change_antitone_in_factor Examples.plain_pictures
           Examples.five_bands_dark Examples.five_bands_bright 1 2 None).
  - repeat split; reflexivity.
  - repeat split; simpl; lia.
  - lra.
Defined.

(** The band pair that is all zeros. *)
Lemma indices_are_finite_witness :
  exists ndvi : ndarray2 npfloat,
    calculate_ndvi Examples.zero_band Examples.zero_band = Returns ndvi
    /\ forall i j, is_finite (item2 ndvi i j).
Proof.
  destruct (indices_are_finite Examples.zero_band Examples.zero_band)
    as (_ & (ndvi & Hv & _ & Hfin) & _).
  - split; reflexivity.
  - exists ndvi. split; assumption.
Defined.

(** A three-band raster is transposed, and its 2 x 2 pixels are counted. *)
Lemma layout_decided_by_first_axis_witness :
  to_pixel_major Examples.three_bands Examples.three_bands
  = (transpose_120 Examples.three_bands, transpose_120 Examples.three_bands)
  /\ calculate_pixel_change_percentage Examples.plain_pictures
       Examples.three_bands Examples.three_bands 1 None
     = Returns (Finite (Spec.pixel_change_percentage 2 2 3
                  (fun y x b => item3 Examples.three_bands b y x)
                  (fun y x b => item3 Examples.three_bands b y x) 1)).
Proof.
  destruct (layout_decided_by_first_axis Examples.plain_pictures Examples.three_bands
              Examples.three_bands 1 None) as (_ & Hle & _ & Hval & _).
  split.
  - apply Hle. simpl. lia.
  - apply Hval.
    + repeat split; reflexivity.
    + repeat split; simpl; lia.
    + simpl. lia.
Defined.

End Instances.

(** * Further properties of the code *)

(** ** Thresholding: identical pairs, symmetry, shape errors *)

Section PixelChangeFurther.

Local Open Scope R_scope.

Ltac run := cbn [mbind outcome_bind Py.bind mret outcome_ret].

Lemma mean_ext (H W : nat) (d d' : nat -> nat -> R) :
  (forall y x, (y < H)%nat -> (x < W)%nat -> d y x = d' y x) ->
  Spec.mean H W d = Spec.mean H W d'.
Proof.
  intros E. unfold Spec.mean. f_equal.
  apply Rsum_ext. intros y Hy. apply Rsum_ext. intros x Hx. apply E; assumption.
Qed.

Lemma std_ext (H W : nat) (d d' : nat -> nat -> R) :
  (forall y x, (y < H)%nat -> (x < W)%nat -> d y x = d' y x) ->
  Spec.std H W d = Spec.std H W d'.
Proof.
  intros E. unfold Spec.std. f_equal. rewrite (mean_ext H W d d' E).
  apply mean_ext. intros y x Hy Hx. rewrite (E y x Hy Hx). reflexivity.
Qed.

Lemma percentage_above_ext (H W : nat) (d d' : nat -> nat -> R) (t : R) :
  (forall y x, (y < H)%nat -> (x < W)%nat -> d y x = d' y x) ->
  Spec.percentage_above H W d t = Spec.percentage_above H W d' t.
Proof.
  intros E. unfold Spec.percentage_above, Spec.changed_count. do 3 f_equal.
  apply nat_sum_ext. intros y Hy. apply nat_sum_ext. intros x Hx.
  rewrite (E y x Hy Hx). reflexivity.
Qed.

Lemma pixel_change_percentage_ext (H W B : nat) (b a b' a' : nat -> nat -> nat -> R)
    (k : R) :
  (forall y x, (y < H)%nat -> (x < W)%nat ->
     Spec.diffMagnitude B b a y x = Spec.diffMagnitude B b' a' y x) ->
  Spec.pixel_change_percentage H W B b a k = Spec.pixel_change_percentage H W B b' a' k.
Proof.
  intros E. unfold Spec.pixel_change_percentage, Spec.tau.
  rewrite (mean_ext H W _ _ E), (std_ext H W _ _ E).
  apply percentage_above_ext, E.
Qed.

(** The value returned for a pair of one shape with no empty axis. *)
Lemma pixel_change_value (w : world) (before after : ndarray3 R) (k : R)
    (path : option string) :
  same_shape3 before after -> nonempty3 before ->
  calculate_pixel_change_percentage w before after k path
  = Returns (Finite (Spec.pixel_change_percentage
      (shape0 (fst (to_pixel_major before after)))
      (shape1 (fst (to_pixel_major before after)))
      (shape2 (fst (to_pixel_major before after)))
      (item3 (fst (to_pixel_major before after)))
      (item3 (snd (to_pixel_major before after))) k)).
Proof.
  intros Hs Hn. rewrite calculate_as_layout.
  apply pixel_change_of_layout_value.
  - apply to_pixel_major_same_shape, Hs.
  - apply to_pixel_major_nonempty, Hn.
Qed.




Lemma diffMagnitude_sym (B : nat) (f g : nat -> nat -> nat -> R) (y x : nat) :
  Spec.diffMagnitude B f g y x = Spec.diffMagnitude B g f y x.
Proof.
  unfold Spec.diffMagnitude. f_equal. apply Rsum_ext. intros b _. apply Rabs_minus_sym.
Qed.

Lemma pixel_change_exchange (w : world) (before after : ndarray3 R) (k : R)
    (path : option string) :
  same_shape3 before after -> nonempty3 before ->
  calculate_pixel_change_percentage w before after k path
  = calculate_pixel_change_percentage w after before k path.
Proof.
  intros Hs Hn.
  assert (Hs' : same_shape3 after before).
  { destruct Hs as (H0 & H1 & H2). repeat split; congruence. }
  assert (Hn' : nonempty3 after).
  { destruct Hs as (H0 & H1 & H2), Hn as (N0 & N1 & N2).
    repeat split; congruence. }
  rewrite (pixel_change_value w before after k path Hs Hn).
  rewrite (pixel_change_value w after before k path Hs' Hn').
  do 2 f_equal. destruct Hs as (H0 & H1 & H2).
  unfold to_pixel_major. rewrite <- H0.
  destruct (shape0 before <=? 5); simpl; rewrite <- ?H0, <- ?H1, <- ?H2;
    apply pixel_change_percentage_ext; intros; apply diffMagnitude_sym.
Qed.

(** X2: the pixel-change percentage does not depend on which raster is
    called before and which after. *)
Theorem pixel_change_symmetric (w : world) (before after : ndarray3 R) (k : R)
    (path : option string) :
  same_shape3 before after -> nonempty3 before ->
  calculate_pixel_change_percentage w before after k path
  = calculate_pixel_change_percentage w after before k path.
Proof. apply pixel_change_exchange. Qed.

(** X3: the change map cannot influence the number: whatever the path of
    the map and whatever the file system does, the percentage (or the
    exception) is the one obtained without a map. *)
Theorem change_map_does_not_interfere (w w' : world) (before after : ndarray3 R)
    (k : R) (path : string) :
  calculate_pixel_change_percentage w before after k (Some path)
  = calculate_pixel_change_percentage w' before after k None.
Proof.
  rewrite !calculate_as_layout. unfold pixel_change_of_layout.
  destruct (diff_magnitude _ _) as [dm|e]; [| reflexivity].
  run. rewrite save_change_map_returns. reflexivity.
Qed.

Lemma broadcast_dim_mismatch (m n : nat) :
  m <> n -> m <> 1%nat -> n <> 1%nat -> broadcast_dim m n = None.
Proof.
  intros Hmn Hm Hn. unfold broadcast_dim.
  destruct (Nat.eqb_spec m n); [contradiction |].
  destruct (Nat.eqb_spec m 1); [contradiction |].
  destruct (Nat.eqb_spec n 1); [contradiction | reflexivity].
Qed.

(** Along the three axes: the lengths differ and neither is 1. *)
Lemma zip3_mismatch {A B C : Type} (f : A -> B -> C) (a : ndarray3 A) (b : ndarray3 B) :
  broadcast_dim (shape0 a) (shape0 b) = None
  \/ broadcast_dim (shape1 a) (shape1 b) = None
  \/ broadcast_dim (shape2 a) (shape2 b) = None ->
  zip3 f a b = Raises broadcast_error.
Proof.
  intros H. unfold zip3.
  destruct (broadcast_dim (shape0 a) (shape0 b)); [| reflexivity].
  destruct (broadcast_dim (shape1 a) (shape1 b)); [| reflexivity].
  destruct (broadcast_dim (shape2 a) (shape2 b)); [| reflexivity].
  destruct H as [H | [H | H]]; discriminate.
Qed.

(** X4: when the two arrays differ along an axis in lengths that are
    both different from 1, [calculate_pixel_change_percentage] raises
    numpy's ValueError (operands could not be broadcast together). *)
Theorem incompatible_shapes_raise (w : world) (before after : ndarray3 R) (k : R)
    (path : option string) :
  (shape0 before <> shape0 after /\ shape0 before <> 1%nat /\ shape0 after <> 1%nat)
  \/ (shape1 before <> shape1 after /\ shape1 before <> 1%nat /\ shape1 after <> 1%nat)
  \/ (shape2 before <> shape2 after /\ shape2 before <> 1%nat /\ shape2 after <> 1%nat) ->
  calculate_pixel_change_percentage w before after k path = Raises broadcast_error.
Proof.
  intros H. rewrite calculate_as_layout. unfold pixel_change_of_layout, diff_magnitude.
  rewrite zip3_mismatch; [reflexivity |].
  unfold to_pixel_major.
  destruct (shape0 before <=? 5); simpl;
    destruct H as [(D & A1 & B1) | [(D & A1 & B1) | (D & A1 & B1)]];
    auto using broadcast_dim_mismatch.
Qed.

End PixelChangeFurther.

(** ** How large the pixel-change percentage can be *)

Section PercentageBounds.

Local Open Scope R_scope.

Local Notation "'S2' H W f" :=
  (Spec.Rsum H (fun y => Spec.Rsum W (fun x => f y x)))
  (at level 10, H at level 9, W at level 9, f at level 9).

Lemma Rsum_plus (n : nat) (f g : nat -> R) :
  Spec.Rsum n (fun i => f i + g i) = Spec.Rsum n f + Spec.Rsum n g.
Proof. induction n as [|n IH]; simpl; [lra | rewrite IH; lra]. Qed.

Lemma Rsum_scal (n : nat) (c : R) (f : nat -> R) :
  Spec.Rsum n (fun i => c * f i) = c * Spec.Rsum n f.
Proof. induction n as [|n IH]; simpl; [lra | rewrite IH; lra]. Qed.

Lemma Rsum_le (n : nat) (f g : nat -> R) :
  (forall i, (i < n)%nat -> f i <= g i) -> Spec.Rsum n f <= Spec.Rsum n g.
Proof.
  induction n as [|n IH]; intros Hfg; simpl; [lra |].
  assert (Spec.Rsum n f <= Spec.Rsum n g) by (apply IH; intros i Hi; apply Hfg; lia).
  assert (f n <= g n) by (apply Hfg; lia). lra.
Qed.

Lemma INR_nat_sum (n : nat) (f : nat -> nat) :
  INR (nat_sum n f) = Spec.Rsum n (fun i => INR (f i)).
Proof. induction n as [|n IH]; simpl; [reflexivity | rewrite plus_INR, IH; reflexivity]. Qed.

Lemma Rsum_zero_terms (n : nat) (f : nat -> R) :
  (forall i, (i < n)%nat -> 0 <= f i) -> Spec.Rsum n f = 0 ->
  forall i, (i < n)%nat -> f i = 0.
Proof.
  induction n as [|n IH]; intros Hf Hsum i Hi; [lia |].
  simpl in Hsum.
  assert (H1 : 0 <= Spec.Rsum n f) by (apply Rsum_nonneg; intros j Hj; apply Hf; lia).
  assert (H2 : 0 <= f n) by (apply Hf; lia).
  destruct (Nat.eq_dec i n) as [-> | Hne]; [lra |].
  apply IH; [intros j Hj; apply Hf; lia | lra | lia].
Qed.

Lemma S2_ext (H W : nat) (f g : nat -> nat -> R) :
  (forall y x, (y < H)%nat -> (x < W)%nat -> f y x = g y x) -> S2 H W f = S2 H W g.
Proof.
  intros E. apply Rsum_ext. intros y Hy. apply Rsum_ext. intros x Hx. auto.
Qed.

Lemma S2_le (H W : nat) (f g : nat -> nat -> R) :
  (forall y x, (y < H)%nat -> (x < W)%nat -> f y x <= g y x) -> S2 H W f <= S2 H W g.
Proof.
  intros E. apply Rsum_le. intros y Hy. apply Rsum_le. intros x Hx. auto.
Qed.

Lemma S2_plus (H W : nat) (f g : nat -> nat -> R) :
  S2 H W (fun y x => f y x + g y x) = S2 H W f + S2 H W g.
Proof.
  rewrite <- Rsum_plus. apply Rsum_ext. intros y _. apply Rsum_plus.
Qed.

Lemma S2_scal (H W : nat) (c : R) (f : nat -> nat -> R) :
  S2 H W (fun y x => c * f y x) = c * S2 H W f.
Proof.
  rewrite <- Rsum_scal. apply Rsum_ext. intros y _. apply Rsum_scal.
Qed.

Lemma S2_const (H W : nat) (c : R) : S2 H W (fun _ _ => c) = INR (H * W) * c.
Proof.
  rewrite (Rsum_ext H _ (fun _ => INR W * c)) by (intros; apply Rsum_const).
  rewrite Rsum_const, mult_INR. ring.
Qed.

Lemma changed_count_as_sum (H W : nat) (d : nat -> nat -> R) (t : R) :
  INR (Spec.changed_count H W d t)
  = S2 H W (fun y x => if Rlt_dec t (d y x) then 1 else 0).
Proof.
  unfold Spec.changed_count. rewrite INR_nat_sum.
  apply Rsum_ext. intros y _. rewrite INR_nat_sum.
  apply Rsum_ext. intros x _. destruct (Rlt_dec t (d y x)); reflexivity.
Qed.

Lemma changed_count_le_total (H W : nat) (d : nat -> nat -> R) (t : R) :
  INR (Spec.changed_count H W d t) <= INR (H * W).
Proof.
  rewrite changed_count_as_sum.
  replace (INR (H * W)) with (S2 H W (fun _ _ => 1)) by (rewrite S2_const; ring).
  apply S2_le. intros y x _ _. destruct (Rlt_dec t (d y x)); lra.
Qed.

(** The one-sided Chebyshev inequality, in the form without division:
    [t] is the distance of the threshold above the mean, [u] is free. *)
Lemma count_above_mean_plus (H W : nat) (d : nat -> nat -> R) (t u : R) :
  (0 < H * W)%nat -> 0 <= t -> 0 <= u ->
  INR (Spec.changed_count H W d (Spec.mean H W d + t)) * ((t + u) * (t + u))
  <= INR (H * W)
     * (Spec.mean H W (fun y x => (d y x - Spec.mean H W d) * (d y x - Spec.mean H W d))
        + u * u).
Proof.
  intros HN Ht Hu. apply lt_0_INR in HN.
  set (N := INR (H * W)) in *. set (m := Spec.mean H W d).
  assert (Hm : S2 H W d = N * m).
  { unfold m, Spec.mean. fold N. field. lra. }
  assert (Hv : N * Spec.mean H W (fun y x => (d y x - m) * (d y x - m))
               = S2 H W (fun y x => (d y x - m) * (d y x - m))).
  { unfold Spec.mean. fold N. field. lra. }
  rewrite (Rmult_plus_distr_l N), Hv.
  rewrite changed_count_as_sum.
  rewrite Rmult_comm, <- S2_scal.
  apply Rle_trans with (S2 H W (fun y x => (d y x - m + u) * (d y x - m + u))).
  - apply S2_le. intros y x _ _. cbv beta.
    destruct (Rlt_dec (m + t) (d y x)) as [Hgt | _].
    + rewrite Rmult_1_r. apply Rmult_le_compat; lra.
    + rewrite Rmult_0_r. apply Rle_0_sqr.
  - rewrite (S2_ext H W _
      (fun y x => (d y x - m) * (d y x - m) + (2 * u * (d y x + - m) + u * u)))
      by (intros; ring).
    rewrite (S2_plus H W (fun y x => (d y x - m) * (d y x - m))
               (fun y x => 2 * u * (d y x + - m) + u * u)).
    rewrite (S2_plus H W (fun y x => 2 * u * (d y x + - m)) (fun _ _ => u * u)).
    rewrite (S2_scal H W (2 * u) (fun y x => d y x + - m)).
    rewrite (S2_plus H W d (fun _ _ => - m)).
    rewrite !S2_const, Hm. fold N. right. ring.
Qed.

Lemma zero_deviation_no_count (H W : nat) (d : nat -> nat -> R) (t : R) :
  (0 < H * W)%nat -> 0 <= t ->
  Spec.mean H W (fun y x => (d y x - Spec.mean H W d) * (d y x - Spec.mean H W d)) = 0 ->
  Spec.changed_count H W d (Spec.mean H W d + t) = O.
Proof.
  intros HN Ht Hv. apply lt_0_INR in HN.
  set (m := Spec.mean H W d) in *.
  assert (Hs : S2 H W (fun y x => (d y x - m) * (d y x - m)) = 0).
  { unfold Spec.mean in Hv. unfold Rdiv in Hv.
    apply Rmult_integral in Hv. destruct Hv as [Hv | Hv]; [exact Hv |].
    exfalso. apply (Rinv_neq_0_compat (INR (H * W))); lra. }
  assert (Hrow : forall y, (y < H)%nat ->
            Spec.Rsum W (fun x => (d y x - m) * (d y x - m)) = 0).
  { apply Rsum_zero_terms; [| exact Hs].
    intros y _. apply Rsum_nonneg. intros x _. apply Rle_0_sqr. }
  assert (Hd : forall y x, (y < H)%nat -> (x < W)%nat -> d y x = m).
  { intros y x Hy Hx.
    assert (E : (d y x - m) * (d y x - m) = 0).
    { apply (Rsum_zero_terms W (fun x => (d y x - m) * (d y x - m))); auto.
      intros x' _. apply Rle_0_sqr. }
    apply Rmult_integral in E. destruct E; lra. }
  unfold Spec.changed_count.
  rewrite (nat_sum_ext H _ (fun _ => O)); [apply nat_sum_zero |].
  intros y Hy. rewrite (nat_sum_ext W _ (fun _ => O)); [apply nat_sum_zero |].
  intros x Hx. rewrite (Hd y x Hy Hx).
  destruct (Rlt_dec (m + t) m); [lra | reflexivity].
Qed.

(** With a non-negative factor [k], at most one pixel in [1 + k * k] is
    above the threshold. *)
Lemma percentage_above_tau_bound (H W : nat) (d : nat -> nat -> R) (k : R) :
  (0 < H * W)%nat -> 0 <= k ->
  Spec.percentage_above H W d (Spec.tau H W d k) <= 100 / (1 + k * k).
Proof.
  intros HN Hk. pose proof HN as HN'. apply lt_0_INR in HN'.
  unfold Spec.percentage_above, Spec.tau, Spec.std.
  set (m := Spec.mean H W d).
  set (v := Spec.mean H W (fun y x => (d y x - m) * (d y x - m))).
  set (s := sqrt v).
  assert (Hvpos : 0 <= v).
  { unfold v, Spec.mean, Rdiv. apply Rmult_le_pos.
    - apply Rsum_nonneg. intros y _. apply Rsum_nonneg. intros x _. apply Rle_0_sqr.
    - left. apply Rinv_0_lt_compat. exact HN'. }
  assert (Hs : 0 <= s) by apply sqrt_pos.
  assert (Hss : s * s = v) by (apply sqrt_sqrt; exact Hvpos).
  set (C := INR (Spec.changed_count H W d (m + k * s))).
  assert (HC : C * (1 + k * k) <= INR (H * W)).
  { destruct (Req_dec_T k 0) as [-> | Hk0].
    { unfold C. replace (1 + 0 * 0) with 1 by ring. rewrite Rmult_1_r.
      apply changed_count_le_total. }
    destruct (Req_dec_T s 0) as [Hs0 | Hs0].
    { assert (Hv0 : v = 0) by (rewrite <- Hss, Hs0; ring).
      assert (Hz : Spec.changed_count H W d (m + k * 0) = O).
      { apply (zero_deviation_no_count H W d (k * 0) HN); [lra | exact Hv0]. }
      unfold C. rewrite Hs0, Hz. simpl. lra. }
    assert (Hkpos : 0 < k) by lra. assert (Hspos : 0 < s) by lra.
    set (u := s / k).
    assert (Hu : 0 < u) by (apply Rdiv_lt_0_compat; assumption).
    assert (Hsu : s = k * u) by (unfold u; field; lra).
    assert (Hkt : 0 <= k * s) by nra.
    pose proof (count_above_mean_plus H W d (k * s) u HN Hkt (Rlt_le _ _ Hu)) as Hcore.
    fold m in Hcore. fold v in Hcore. fold C in Hcore.
    rewrite <- Hss in Hcore. rewrite Hsu in Hcore.
    apply Rmult_le_reg_r with (u * u * (1 + k * k)); [nra |].
    replace (C * (1 + k * k) * (u * u * (1 + k * k)))
      with (C * ((k * (k * u) + u) * (k * (k * u) + u))) by ring.
    replace (INR (H * W) * (u * u * (1 + k * k)))
      with (INR (H * W) * (k * u * (k * u) + u * u)) by ring.
    exact Hcore. }
  fold C.
  assert (Hk2 : 0 < 1 + k * k) by nra.
  unfold Rdiv. rewrite <- Rmult_assoc, Rmult_assoc.
  apply Rmult_le_compat_l; [lra |].
  apply Rmult_le_reg_r with (INR (H * W) * (1 + k * k)); [nra |].
  replace (C * / INR (H * W) * (INR (H * W) * (1 + k * k)))
    with (C * (1 + k * k)) by (field; lra).
  replace (/ (1 + k * k) * (INR (H * W) * (1 + k * k)))
    with (INR (H * W)) by (field; lra).
  exact HC.
Qed.

Lemma pixel_percentage_in_range (w : world) (before after : ndarray3 R) (k : R)
    (path : option string) :
  same_shape3 before after -> nonempty3 before ->
  exists p,
    calculate_pixel_change_percentage w before after k path = Returns (Finite p)
    /\ 0 <= p <= 100.
Proof.
  intros Hs Hn. rewrite (pixel_change_value w before after k path Hs Hn).
  eexists. split; [reflexivity |].
  destruct (to_pixel_major_nonempty before after Hn) as (N0 & N1 & _).
  pose proof (mult_pos _ _ N0 N1) as HN. apply lt_0_INR in HN.
  unfold Spec.pixel_change_percentage, Spec.percentage_above.
  match goal with |- 0 <= 100 * (INR (Spec.changed_count ?H ?W ?d ?t) / _) <= _ =>
    pose proof (changed_count_le_total H W d t) as Hle;
    pose proof (pos_INR (Spec.changed_count H W d t)) as Hpos
  end.
  split.
  - apply Rmult_le_pos; [lra |]. unfold Rdiv. apply Rmult_le_pos; [exact Hpos |].
    left. apply Rinv_0_lt_compat. exact HN.
  - rewrite <- (Rmult_1_r 100) at 2. apply Rmult_le_compat_l; [lra |].
    apply Rmult_le_reg_r with (INR (shape0 (fst (to_pixel_major before after))
                                     * shape1 (fst (to_pixel_major before after))));
      [exact HN |].
    unfold Rdiv. rewrite Rmult_assoc, Rinv_l by lra. lra.
Qed.

(** X5: for every threshold factor, negative ones included, the reported
    percentage of a pair of one shape lies between 0 and 100. *)
Theorem pixel_change_percentage_range (w : world) (before after : ndarray3 R) (k : R)
    (path : option string) :
  same_shape3 before after -> nonempty3 before ->
  exists p,
    calculate_pixel_change_percentage w before after k path = Returns (Finite p)
    /\ 0 <= p <= 100.
Proof. apply pixel_percentage_in_range. Qed.


End PercentageBounds.

(** ** The index statistics *)

Section IndexStatistics.

Local Open Scope R_scope.

Ltac run := cbn [mbind outcome_bind Py.bind mret outcome_ret].
Ltac run_in H := cbn [mbind outcome_bind Py.bind mret outcome_ret] in H.

Lemma fsub_antisym (x y : npfloat) : fsub x y = fneg (fsub y x).
Proof.
  destruct x as [a| | |], y as [b| | |]; try reflexivity.
  unfold fsub. simpl. f_equal. ring.
Qed.

Lemma fltb_fneg (x : npfloat) : fltb (fneg x) (Finite (-0.1)) = fgtb x (Finite 0.1).
Proof.
  destruct x as [a| | |]; try reflexivity.
  unfold fgtb. simpl. unfold Rltb.
  destruct (Rlt_dec (- a) (-0.1)), (Rlt_dec 0.1 a); try reflexivity; exfalso; lra.
Qed.

Lemma fgtb_fneg (x : npfloat) : fgtb (fneg x) (Finite 0.1) = fltb x (Finite (-0.1)).
Proof.
  destruct x as [a| | |]; try reflexivity.
  unfold fgtb. simpl. unfold Rltb.
  destruct (Rlt_dec 0.1 (- a)), (Rlt_dec a (-0.1)); try reflexivity; exfalso; lra.
Qed.

Lemma below_and_above_exclusive (x : npfloat) :
  (bool_to_nat (fltb x (Finite (-0.1))) + bool_to_nat (fgtb x (Finite 0.1)) <= 1)%nat.
Proof.
  destruct x as [a| | |]; simpl; try lia.
  unfold fgtb. simpl. unfold Rltb.
  destruct (Rlt_dec a (-0.1)), (Rlt_dec 0.1 a); simpl; try lia. exfalso. lra.
Qed.

Lemma nat_sum_plus (n : nat) (f g : nat -> nat) :
  nat_sum n (fun i => (f i + g i)%nat) = (nat_sum n f + nat_sum n g)%nat.
Proof. induction n as [|n IH]; simpl; [reflexivity | rewrite IH; lia]. Qed.

Lemma nat_sum_at_most (n c : nat) (f : nat -> nat) :
  (forall i, (i < n)%nat -> (f i <= c)%nat) -> (nat_sum n f <= n * c)%nat.
Proof.
  induction n as [|n IH]; intros Hf; simpl; [lia |].
  assert (nat_sum n f <= n * c)%nat by (apply IH; intros i Hi; apply Hf; lia).
  assert (f n <= c)%nat by (apply Hf; lia). lia.
Qed.

(** No entry is counted both as a fall and as a rise. *)
Lemma falls_and_rises_at_most_size (d : ndarray2 npfloat) :
  (count2 (map2 (fun v => fltb v (Finite (-0.1))) d)
   + count2 (map2 (fun v => fgtb v (Finite 0.1)) d) <= size2 d)%nat.
Proof.
  unfold count2, size2. simpl. rewrite <- nat_sum_plus.
  apply Nat.le_trans with (nrows d * (ncols d * 1))%nat; [| lia].
  apply nat_sum_at_most. intros i _. rewrite <- nat_sum_plus.
  apply nat_sum_at_most. intros j _. apply below_and_above_exclusive.
Qed.

Lemma loss_gain_values (d : ndarray2 npfloat) :
  (0 < size2 d)%nat ->
  exists l g, loss_pct d = Finite l /\ gain_pct d = Finite g
    /\ 0 <= l /\ 0 <= g /\ l + g <= 100.
Proof.
  intros Hn. unfold loss_pct, gain_pct. rewrite !fraction_pct_finite by exact Hn.
  do 2 eexists. split; [reflexivity |]. split; [reflexivity |].
  split; [apply fraction_pct_nonneg, Hn |]. split; [apply fraction_pct_nonneg, Hn |].
  pose proof (falls_and_rises_at_most_size d) as Hle.
  apply le_INR in Hle. rewrite plus_INR in Hle. apply lt_0_INR in Hn.
  set (N := INR (size2 d)) in *.
  set (c1 := INR (count2 (map2 (fun v => fltb v (Finite (-0.1))) d))) in *.
  set (c2 := INR (count2 (map2 (fun v => fgtb v (Finite 0.1)) d))) in *.
  replace (c1 / N * 100 + c2 / N * 100) with ((c1 + c2) * / N * 100) by (field; lra).
  rewrite <- (Rmult_1_l 100) at 2. apply Rmult_le_compat_r; [lra |].
  apply Rmult_le_reg_r with N; [exact Hn |].
  rewrite Rmult_assoc, Rinv_l by lra. lra.
Qed.

(** Exchanging the two operands of the difference exchanges falls and rises. *)
Lemma loss_gain_exchange (d d' : ndarray2 npfloat) :
  same_shape2 d' d ->
  (forall i j, (i < nrows d)%nat -> (j < ncols d)%nat -> item2 d' i j = fneg (item2 d i j)) ->
  loss_pct d' = gain_pct d /\ gain_pct d' = loss_pct d.
Proof.
  intros (H0 & H1) Hneg. unfold loss_pct, gain_pct, size2, count2.
  cbn [map2 nrows ncols item2]. rewrite H0, H1. split; f_equal.
  - apply nat_sum_ext. intros i Hi. apply nat_sum_ext. intros j Hj.
    rewrite (Hneg i j Hi Hj), fltb_fneg. reflexivity.
  - apply nat_sum_ext. intros i Hi. apply nat_sum_ext. intros j Hj.
    rewrite (Hneg i j Hi Hj), fgtb_fneg. reflexivity.
Qed.

Lemma zip2_fsub_exchange (a b d d' : ndarray2 npfloat) :
  same_shape2 a b ->
  zip2 fsub a b = Returns d -> zip2 fsub b a = Returns d' ->
  same_shape2 d' d
  /\ forall i j, (i < nrows d)%nat -> (j < ncols d)%nat -> item2 d' i j = fneg (item2 d i j).
Proof.
  intros Hs Hd Hd'.
  assert (Hs' : same_shape2 b a) by (destruct Hs; split; congruence).
  destruct (zip2_same_shape fsub a b Hs) as (r & Hr & R0 & R1 & Hi).
  destruct (zip2_same_shape fsub b a Hs') as (r' & Hr' & R0' & R1' & Hi').
  rewrite Hr in Hd. injection Hd as <-. rewrite Hr' in Hd'. injection Hd' as <-.
  destruct Hs as (S0 & S1). split; [split; congruence |].
  intros i j Hi0 Hj0. rewrite Hi by congruence. rewrite Hi' by congruence.
  apply fsub_antisym.
Qed.

(** The report of the index path in its three cases. *)
Lemma analyze_vegetation_form (b a : ndarray2 npfloat) :
  same_shape2 a b ->
  exists d, zip2 fsub a b = Returns d /\ same_shape2 d a
    /\ analyze_satellite_changes (Some b) (Some a) None None
       = Returns (<["total_change_percentage" :=
                     VFloat (fadd (Finite 0) (fadd (loss_pct d) (gain_pct d)))]>
                  (<["vegetation_changes" := VDict (vegetation_dict d)]> initial_changes)).
Proof.
  intros Hs. unfold analyze_satellite_changes, analyze_index.
  destruct (zip2_same_shape fsub a b Hs) as (d & Hd & D0 & D1 & _).
  rewrite Hd. run. exists d. split; [reflexivity |]. split; [split; assumption |].
  rewrite (add_to_total_stats _ _ _ _ _ (vegetation_dict d) (loss_pct d) (gain_pct d)).
  2:{ apply lookup_insert_eq. }
  2:{ unfold vegetation_dict. rewrite !lookup_insert_ne by done. apply lookup_insert_eq. }
  2:{ unfold vegetation_dict. rewrite !lookup_insert_ne by done. apply lookup_insert_eq. }
  run. rewrite add_to_total_empty.
  2:{ rewrite lookup_insert_ne by done. unfold initial_changes.
      rewrite !lookup_insert_ne by done. apply lookup_insert_eq. }
  reflexivity.
Qed.

Lemma analyze_both_form (vb va ub ua : ndarray2 npfloat) :
  same_shape2 va vb -> same_shape2 ua ub ->
  exists d e, zip2 fsub va vb = Returns d /\ same_shape2 d va
    /\ zip2 fsub ua ub = Returns e /\ same_shape2 e ua
    /\ analyze_satellite_changes (Some vb) (Some va) (Some ub) (Some ua)
       = Returns (<["total_change_percentage" :=
                     VFloat (fadd (fadd (Finite 0) (fadd (loss_pct d) (gain_pct d)))
                                  (fadd (gain_pct e) (loss_pct e)))]>
                  (<["urban_changes" := VDict (urban_dict e)]>
                  (<["vegetation_changes" := VDict (vegetation_dict d)]> initial_changes))).
Proof.
  intros Hvs Hus. unfold analyze_satellite_changes, analyze_index.
  destruct (zip2_same_shape fsub va vb Hvs) as (d & Hd & D0 & D1 & _).
  destruct (zip2_same_shape fsub ua ub Hus) as (e & He & E0 & E1 & _).
  rewrite Hd. run. rewrite He. run. exists d, e.
  split; [reflexivity |]. split; [split; assumption |].
  split; [reflexivity |]. split; [split; assumption |].
  rewrite (add_to_total_stats _ _ _ _ _ (vegetation_dict d) (loss_pct d) (gain_pct d)).
  2:{ rewrite lookup_insert_ne by done. apply lookup_insert_eq. }
  2:{ unfold vegetation_dict. rewrite !lookup_insert_ne by done. apply lookup_insert_eq. }
  2:{ unfold vegetation_dict. rewrite !lookup_insert_ne by done. apply lookup_insert_eq. }
  run.
  rewrite (add_to_total_stats _ _ _ _ _ (urban_dict e) (gain_pct e) (loss_pct e)).
  2:{ apply lookup_insert_eq. }
  2:{ unfold urban_dict. rewrite !lookup_insert_ne by done. apply lookup_insert_eq. }
  2:{ unfold urban_dict. rewrite !lookup_insert_ne by done. apply lookup_insert_eq. }
  reflexivity.
Qed.

Lemma index_pair_exchange
    (f : ndarray2 R -> ndarray2 R -> outcome (ndarray2 npfloat))
    (before after : ndarray3 R) (i j : nat) (x y : ndarray2 npfloat) :
  index_pair f before after i j = Returns (x, y) ->
  index_pair f after before i j = Returns (y, x).
Proof.
  unfold index_pair. intros H.
  destruct (getitem0 before i) as [bi|] eqn:E1; [| discriminate]. run_in H.
  destruct (getitem0 before j) as [bj|] eqn:E2; [| discriminate]. run_in H.
  destruct (f bi bj) as [fb|] eqn:E3; [| discriminate]. run_in H.
  destruct (getitem0 after i) as [ai|] eqn:E4; [| discriminate]. run_in H.
  destruct (getitem0 after j) as [aj|] eqn:E5; [| discriminate]. run_in H.
  destruct (f ai aj) as [fa|] eqn:E6; [| discriminate]. run_in H.
  injection H as <- <-.
  repeat (run; rewrite ?E1, ?E2, ?E3, ?E4, ?E5, ?E6). reflexivity.
Qed.

End IndexStatistics.

(** ** The report of the index path *)

Section IndexReports.

Local Open Scope R_scope.

Ltac run := cbn [mbind outcome_bind Py.bind mret outcome_ret].

Lemma index_path_cases (before after : ndarray3 R) :
  same_shape3 before after -> nonempty3 before ->
  ((shape0 before < 4)%nat
   /\ index_path_report before after
      = Returns (<["total_change_percentage" := VFloat (Finite 0)]> initial_changes))
  \/ (shape0 before = 4%nat
      /\ exists vb va d,
           index_pair normalized_difference before after 3 2 = Returns (vb, va)
           /\ same_shape2 va vb /\ zip2 fsub va vb = Returns d /\ (0 < size2 d)%nat
           /\ index_path_report before after
              = Returns (<["total_change_percentage" :=
                            VFloat (fadd (Finite 0) (fadd (loss_pct d) (gain_pct d)))]>
                         (<["vegetation_changes" := VDict (vegetation_dict d)]>
                          initial_changes)))
  \/ ((5 <= shape0 before)%nat
      /\ exists vb va ub ua d e,
           index_pair normalized_difference before after 3 2 = Returns (vb, va)
           /\ index_pair normalized_difference before after 4 3 = Returns (ub, ua)
           /\ same_shape2 va vb /\ zip2 fsub va vb = Returns d /\ (0 < size2 d)%nat
           /\ same_shape2 ua ub /\ zip2 fsub ua ub = Returns e /\ (0 < size2 e)%nat
           /\ index_path_report before after
              = Returns (<["total_change_percentage" :=
                            VFloat (fadd (fadd (Finite 0) (fadd (loss_pct d) (gain_pct d)))
                                         (fadd (gain_pct e) (loss_pct e)))]>
                         (<["urban_changes" := VDict (urban_dict e)]>
                         (<["vegetation_changes" := VDict (vegetation_dict d)]>
                          initial_changes)))).
Proof.
  intros Hs (N0 & N1 & N2). unfold index_path_report, compute_indices.
  destruct (Nat.leb_spec 4 (shape0 before)) as [H4|H4].
  - destruct (index_pair_value before after 3 2 Hs) as (vb & va & Hv & Hvs & V0 & V1);
      [lia | lia |].
    change (index_pair calculate_ndvi) with (index_pair normalized_difference).
    rewrite Hv. run.
    destruct (Nat.leb_spec 5 (shape0 before)) as [H5|H5].
    + right. right. split; [exact H5 |].
      destruct (index_pair_value before after 4 3 Hs) as (ub & ua & Hu & Hus & U0 & U1);
        [lia | lia |].
      change (index_pair calculate_ndbi) with (index_pair normalized_difference).
      rewrite Hu. run.
      destruct (analyze_both_form vb va ub ua Hvs Hus)
        as (d & e & Hd & (D0 & D1) & He & (E0 & E1) & Hform).
      exists vb, va, ub, ua, d, e.
      repeat (split; [first [reflexivity | assumption
                            | unfold size2; rewrite ?D0, ?D1, ?E0, ?E1, ?V0, ?V1, ?U0, ?U1;
                              apply mult_pos; assumption] |]).
      exact Hform.
    + right. left. split; [lia |]. run.
      destruct (analyze_vegetation_form vb va Hvs) as (d & Hd & (D0 & D1) & Hform).
      exists vb, va, d.
      repeat (split; [first [reflexivity | assumption
                            | unfold size2; rewrite D0, D1, V0, V1;
                              apply mult_pos; assumption] |]).
      exact Hform.
  - left. split; [exact H4 |]. run. apply analyze_without_indices.
Qed.


Lemma vegetation_dict_lookups (d : ndarray2 npfloat) :
  vegetation_dict d !! "loss_percentage" = Some (loss_pct d)
  /\ vegetation_dict d !! "gain_percentage" = Some (gain_pct d)
  /\ vegetation_dict d !! "net_change" = Some (fsub (gain_pct d) (loss_pct d)).
Proof.
  unfold vegetation_dict. split; [| split].
  - rewrite !lookup_insert_ne by done. apply lookup_insert_eq.
  - rewrite !lookup_insert_ne by done. apply lookup_insert_eq.
  - rewrite !lookup_insert_ne by done. apply lookup_insert_eq.
Qed.

Lemma index_total_bounds (before after : ndarray3 R) :
  same_shape3 before after -> nonempty3 before ->
  exists changes (t : R),
    index_path_report before after = Returns changes
    /\ changes !! "total_change_percentage" = Some (VFloat (Finite t))
    /\ 0 <= t <= 200
    /\ ((shape0 before < 5)%nat -> t <= 100).
Proof.
  intros Hs Hn.
  destruct (index_path_cases before after Hs Hn)
    as [(H4 & Hr) | [(H4 & vb & va & d & _ & _ & _ & Hd & Hr)
       | (H5 & vb & va & ub & ua & d & e & _ & _ & _ & _ & Hd & _ & _ & He & Hr)]].
  - eexists. exists 0. split; [exact Hr |]. split; [apply lookup_insert_eq |].
    split; [lra | intros _; lra].
  - destruct (loss_gain_values d Hd) as (l & g & Hl & Hg & L0 & G0 & LG).
    rewrite Hl, Hg in Hr. cbn [fadd] in Hr.
    eexists. eexists. split; [exact Hr |]. split; [apply lookup_insert_eq |].
    split; [lra | intros _; lra].
  - destruct (loss_gain_values d Hd) as (l & g & Hl & Hg & L0 & G0 & LG).
    destruct (loss_gain_values e He) as (l' & g' & Hl' & Hg' & L0' & G0' & LG').
    rewrite Hl, Hg, Hl', Hg' in Hr. cbn [fadd] in Hr.
    eexists. eexists. split; [exact Hr |]. split; [apply lookup_insert_eq |].
    split; [lra | intros H; lia].
Qed.



Lemma index_path_exchange (before after : ndarray3 R) :
  same_shape3 before after -> nonempty3 before ->
  exists changes changes' (t : R),
    index_path_report before after = Returns changes
    /\ index_path_report after before = Returns changes'
    /\ changes !! "total_change_percentage" = Some (VFloat (Finite t))
    /\ changes' !! "total_change_percentage" = Some (VFloat (Finite t))
    /\ ((4 <= shape0 before)%nat ->
        exists d d' l g,
          changes !! "vegetation_changes" = Some (VDict (vegetation_dict d))
          /\ changes' !! "vegetation_changes" = Some (VDict (vegetation_dict d'))
          /\ loss_pct d = Finite l /\ gain_pct d = Finite g
          /\ loss_pct d' = Finite g /\ gain_pct d' = Finite l).
Proof.
  intros Hs Hn.
  assert (Hs' : same_shape3 after before).
  { destruct Hs as (H0 & H1 & H2). repeat split; congruence. }
  assert (Hn' : nonempty3 after).
  { destruct Hs as (H0 & H1 & H2), Hn as (N0 & N1 & N2). repeat split; congruence. }
  assert (H0 : shape0 after = shape0 before) by apply Hs'.
  destruct (index_path_cases before after Hs Hn)
    as [(H4 & Hr) | [(H4 & vb & va & d & Hp & Hvs & Hzd & Hd & Hr)
       | (H5 & vb & va & ub & ua & d & e & Hp & Hq & Hvs & Hzd & Hd & Hus & Hze & He & Hr)]];
  destruct (index_path_cases after before Hs' Hn')
    as [(H4' & Hr') | [(H4' & vb' & va' & d' & Hp' & Hvs' & Hzd' & Hd' & Hr')
       | (H5' & vb' & va' & ub' & ua' & d' & e' & Hp' & Hq' & Hvs' & Hzd' & Hd' & Hus'
          & Hze' & He' & Hr')]];
  try lia.
  - do 2 eexists. exists 0. split; [exact Hr |]. split; [exact Hr' |].
    split; [apply lookup_insert_eq |]. split; [apply lookup_insert_eq |]. intros; lia.
  - apply index_pair_exchange in Hp. rewrite Hp in Hp'. injection Hp' as <- <-.
    destruct (zip2_fsub_exchange va vb d d' Hvs Hzd Hzd') as (Hsh & Hneg).
    destruct (loss_gain_exchange d d' Hsh Hneg) as (E1 & E2).
    destruct (loss_gain_values d Hd) as (l & g & Hl & Hg & _).
    rewrite E1, E2, Hl, Hg in Hr'. rewrite Hl, Hg in Hr. cbn [fadd] in Hr, Hr'.
    replace (0 + (g + l)) with (0 + (l + g)) in Hr' by ring.
    do 3 eexists. split; [exact Hr |]. split; [exact Hr' |].
    split; [apply lookup_insert_eq |]. split; [apply lookup_insert_eq |].
    intros _. exists d, d', l, g.
    split; [rewrite lookup_insert_ne by done; apply lookup_insert_eq |].
    split; [rewrite lookup_insert_ne by done; apply lookup_insert_eq |].
    repeat split; congruence.
  - apply index_pair_exchange in Hp. rewrite Hp in Hp'. injection Hp' as <- <-.
    apply index_pair_exchange in Hq. rewrite Hq in Hq'. injection Hq' as <- <-.
    destruct (zip2_fsub_exchange va vb d d' Hvs Hzd Hzd') as (Hsh & Hneg).
    destruct (loss_gain_exchange d d' Hsh Hneg) as (E1 & E2).
    destruct (zip2_fsub_exchange ua ub e e' Hus Hze Hze') as (Hsh' & Hneg').
    destruct (loss_gain_exchange e e' Hsh' Hneg') as (E1' & E2').
    destruct (loss_gain_values d Hd) as (l & g & Hl & Hg & _).
    destruct (loss_gain_values e He) as (l' & g' & Hl' & Hg' & _).
    rewrite E1, E2, E1', E2', Hl, Hg, Hl', Hg' in Hr'.
    rewrite Hl, Hg, Hl', Hg' in Hr. cbn [fadd] in Hr, Hr'.
    replace (0 + (g + l) + (l' + g')) with (0 + (l + g) + (g' + l')) in Hr' by ring.
    do 3 eexists. split; [exact Hr |]. split; [exact Hr' |].
    split; [apply lookup_insert_eq |]. split; [apply lookup_insert_eq |].
    intros _. exists d, d', l, g.
    split; [rewrite !lookup_insert_ne by done; apply lookup_insert_eq |].
    split; [rewrite !lookup_insert_ne by done; apply lookup_insert_eq |].
    repeat split; congruence.
Qed.

(** X9: exchanging the before and the after raster leaves the headline
    figure and the pixel-change percentage of the report unchanged; with
    at least 4 bands it exchanges the vegetation loss and gain percentages. *)
Theorem exchanging_before_and_after (w : world) (before after : ndarray3 R)
    (path : option string) (k : R) :
  same_shape3 before after -> nonempty3 before ->
  exists (report report' : gmap string pyval),
    process_geotiff w before after path k = Returns report
    /\ process_geotiff w after before path k = Returns report'
    /\ report' !! "total_change_percentage" = report !! "total_change_percentage"
    /\ report' !! "pixel_change_percentage" = report !! "pixel_change_percentage"
    /\ ((4 <= shape0 before)%nat ->
        exists (stats stats' : gmap string npfloat) (l g : npfloat),
          report !! "vegetation_changes" = Some (VDict stats)
          /\ report' !! "vegetation_changes" = Some (VDict stats')
          /\ stats !! "loss_percentage" = Some l /\ stats !! "gain_percentage" = Some g
          /\ stats' !! "loss_percentage" = Some g /\ stats' !! "gain_percentage" = Some l).
Proof.
  intros Hs Hn.
  destruct (index_path_exchange before after Hs Hn)
    as (changes & changes' & t & Hc & Hc' & Ht & Ht' & Hveg).
  destruct (pixel_percentage_in_range w before after k path Hs Hn) as (p & Hp & _).
  pose proof (pixel_change_exchange w before after k path Hs Hn) as Hsym.
  rewrite Hp in Hsym. symmetry in Hsym.
  destruct (reconcile_value changes (Finite t) (Finite p) Ht)
    as (report & Hr & Htot & Hpix & Hrest).
  destruct (reconcile_value changes' (Finite t) (Finite p) Ht')
    as (report' & Hr' & Htot' & Hpix' & Hrest').
  exists report, report'. split.
  { unfold process_geotiff. rewrite Hc. run. rewrite Hp. run. exact Hr. }
  split.
  { unfold process_geotiff. rewrite Hc'. run. rewrite Hsym. run. exact Hr'. }
  split; [congruence |]. split; [congruence |].
  intros H4. destruct (Hveg H4) as (d & d' & l & g & Hv & Hv' & Hl & Hg & Hl' & Hg').
  destruct (vegetation_dict_lookups d) as (K1 & K2 & _).
  destruct (vegetation_dict_lookups d') as (K1' & K2' & _).
  exists (vegetation_dict d), (vegetation_dict d'), (Finite l), (Finite g).
  split; [rewrite Hrest by done; exact Hv |].
  split; [rewrite Hrest' by done; exact Hv' |].
  repeat split; congruence.
Qed.

End IndexReports.

(** ** The entry point on readable rasters *)

Section EntryPointFurther.

Local Open Scope R_scope.

Ltac run := cbn [mbind outcome_bind Py.bind mret outcome_ret].

Lemma index_report_type (before after : ndarray3 R) :
  same_shape3 before after -> nonempty3 before ->
  exists changes (t : R),
    index_path_report before after = Returns changes
    /\ changes !! "total_change_percentage" = Some (VFloat (Finite t))
    /\ changes !! "analysis_type" = Some (VStr "satellite_indices").
Proof.
  intros Hs Hn.
  destruct (index_total_bounds before after Hs Hn) as (changes & t & Hc & Ht & _).
  exists changes, t. split; [exact Hc |]. split; [exact Ht |].
  destruct (index_path_cases before after Hs Hn)
    as [(_ & Hr) | [(_ & vb & va & d & _ & _ & _ & _ & Hr)
       | (_ & vb & va & ub & ua & d & e & _ & _ & _ & _ & _ & _ & _ & _ & Hr)]];
    rewrite Hr in Hc; injection Hc as <-; unfold initial_changes;
    rewrite !lookup_insert_ne by done; apply lookup_insert_eq.
Qed.

(** X10: when both files are read as rasters of one shape, [detect_changes]
    returns the report of [process_geotiff], of type satellite_indices,
    whatever the number of bands; the RGB analysis is not used. *)
Theorem readable_rasters_use_index_path (w : world) (before_path after_path : string)
    (before after : ndarray3 R) (path : option string) (k : R) :
  rasterio_read w before_path = Returns before ->
  rasterio_read w after_path = Returns after ->
  same_shape3 before after -> nonempty3 before ->
  exists report : gmap string pyval,
    detect_changes w before_path after_path path k = Returns report
    /\ process_geotiff w before after path k = Returns report
    /\ report !! "analysis_type" = Some (VStr "satellite_indices")
    /\ report !! "channel_changes" = None.
Proof.
  intros Hb Ha Hs Hn.
  destruct (index_report_type before after Hs Hn) as (changes & t & Hc & Ht & Hty).
  destruct (pixel_percentage_in_range w before after k path Hs Hn) as (p & Hp & _).
  destruct (reconcile_value changes (Finite t) (Finite p) Ht)
    as (report & Hr & _ & _ & Hrest).
  assert (Hpg : process_geotiff w before after path k = Returns report).
  { unfold process_geotiff. rewrite Hc. run. rewrite Hp. run. exact Hr. }
  exists report. split.
  { unfold detect_changes. rewrite Hb. run. rewrite Ha. run. rewrite Hpg. reflexivity. }
  split; [exact Hpg |]. split; [rewrite Hrest by done; exact Hty |].
  rewrite Hrest by done.
  destruct (index_path_cases before after Hs Hn)
    as [(_ & Hr0) | [(_ & vb & va & d & _ & _ & _ & _ & Hr0)
       | (_ & vb & va & ub & ua & d & e & _ & _ & _ & _ & _ & _ & _ & _ & Hr0)]];
    rewrite Hr0 in Hc; injection Hc as <-; unfold initial_changes;
    rewrite !lookup_insert_ne by done; apply lookup_empty.
Qed.

Lemma index_pair_missing_band (before after : ndarray3 R) (i j : nat) :
  (i < shape0 before)%nat -> (j < shape0 before)%nat -> (shape0 after <= i)%nat ->
  index_pair normalized_difference before after i j
  = Raises (IndexError "index is out of bounds for axis 0").
Proof.
  intros Hi Hj Ha. unfold index_pair, getitem0.
  destruct (Nat.ltb_spec i (shape0 before)); [| lia].
  destruct (Nat.ltb_spec j (shape0 before)); [| lia].
  run.
  match goal with |- context [normalized_difference ?x ?y] =>
    destruct (normalized_difference_value x y) as (r & Hr & _); [split; reflexivity |]
  end.
  rewrite Hr. run.
  destruct (Nat.ltb_spec i (shape0 after)); [lia | reflexivity].
Qed.

(** X11: when the before raster has at least 4 bands and the after raster
    has fewer than 4, reading band 4 of the after raster fails:
    [detect_changes] raises IndexError (the handler for format-read errors
    does not catch it). *)
Theorem missing_band_raises_index_error (w : world) (before_path after_path : string)
    (before after : ndarray3 R) (path : option string) (k : R) :
  rasterio_read w before_path = Returns before ->
  rasterio_read w after_path = Returns after ->
  (4 <= shape0 before)%nat -> (shape0 after < 4)%nat ->
  detect_changes w before_path after_path path k
  = Raises (IndexError "index is out of bounds for axis 0").
Proof.
  intros Hb Ha H4 H3. unfold detect_changes. rewrite Hb. run. rewrite Ha. run.
  unfold process_geotiff, index_path_report, compute_indices.
  destruct (Nat.leb_spec 4 (shape0 before)); [| lia].
  change (index_pair calculate_ndvi) with (index_pair normalized_difference).
  rewrite (index_pair_missing_band before after 3 2) by lia. reflexivity.
Qed.

End EntryPointFurther.

(** ** The RGB analysis *)

Section RgbAnalysis.

Local Open Scope R_scope.

Ltac run := cbn [mbind outcome_bind Py.bind mret outcome_ret].

(** What [process_regular_image] computes from two pictures of one size:
    [diff] is the array of absolute differences. *)
Lemma process_regular_image_form (w : world) (before_path after_path : string)
    (before_img after_img : rgb_image) :
  pil_open_rgb w before_path = Returns before_img ->
  pil_open_rgb w after_path = Returns after_img ->
  img_height before_img = img_height after_img ->
  img_width before_img = img_width after_img ->
  (0 < img_height before_img)%nat -> (0 < img_width before_img)%nat ->
  exists (diff : ndarray3 npfloat) (report : gmap string pyval),
    shape0 diff = img_height before_img /\ shape1 diff = img_width before_img
    /\ shape2 diff = 3%nat
    /\ (forall i j c, (i < img_height before_img)%nat -> (j < img_width before_img)%nat ->
          (c < 3)%nat ->
          item3 diff i j c
          = Finite (Rabs (img_channel after_img i j c - img_channel before_img i j c)))
    /\ process_regular_image w before_path after_path = Returns report
    /\ report !! "total_change_percentage"
       = Some (VFloat (Finite (INR (count3 (map3 (fun v => fgtb v (Finite 10)) diff)) / 3
                               / INR (img_height before_img * img_width before_img) * 100)))
    /\ report !! "pixel_change_percentage" = report !! "total_change_percentage"
    /\ report !! "analysis_type" = Some (VStr "rgb_based")
    /\ report !! "change_type"
       = Some (VStr (classify_change
            (channel_pct diff 0 (img_height before_img * img_width before_img))
            (channel_pct diff 1 (img_height before_img * img_width before_img))
            (channel_pct diff 2 (img_height before_img * img_width before_img))))
    /\ report !! "channel_changes"
       = Some (VDict (<["blue" := channel_pct diff 2 (img_height before_img * img_width before_img)]>
                     (<["green" := channel_pct diff 1 (img_height before_img * img_width before_img)]>
                     (<["red" := channel_pct diff 0 (img_height before_img * img_width before_img)]> ∅)))).
Proof.
  intros Hb Ha Hh Hw H0 W0. unfold process_regular_image. rewrite Hb. run. rewrite Ha. run.
  destruct (zip3_same_shape fsub (astype_float3 (np_array after_img))
              (astype_float3 (np_array before_img)))
    as (d & Hd & D0 & D1 & D2 & Hitem).
  { repeat split; simpl; congruence. }
  rewrite Hd. run. simpl in D0, D1, D2.
  assert (HN : (size3 (map3 fabs d) / 3)%nat
               = (img_height before_img * img_width before_img)%nat).
  { unfold size3. cbn [map3 shape0 shape1 shape2].
    rewrite D0, D1, D2, <- Hh, <- Hw. apply Nat.div_mul. lia. }
  rewrite HN.
  rewrite (fdiv_finite _ 3) by lra. cbn [int_of_float]. run.
  assert (HNpos : INR (img_height before_img * img_width before_img) <> 0).
  { apply INR_pos_neq, mult_pos; assumption. }
  rewrite (fdiv_finite _ _ HNpos).
  exists (map3 fabs d). eexists.
  split; [simpl; congruence |]. split; [simpl; congruence |].
  split; [simpl; congruence |]. split.
  { intros i j c Hi Hj Hc. simpl. rewrite Hitem by (simpl; lia). reflexivity. }
  split; [reflexivity |].
  split; [rewrite !lookup_insert_ne by done; apply lookup_insert_eq |].
  split.
  { rewrite lookup_insert_eq. rewrite !lookup_insert_ne by done.
    rewrite lookup_insert_eq. reflexivity. }
  split; [rewrite lookup_insert_ne by done; apply lookup_insert_eq |].
  split; [rewrite !lookup_insert_ne by done; apply lookup_insert_eq |].
  rewrite !lookup_insert_ne by done. apply lookup_insert_eq.
Qed.

Lemma nat_sum_positive (n : nat) (f : nat -> nat) (i : nat) :
  (i < n)%nat -> (0 < f i)%nat -> (0 < nat_sum n f)%nat.
Proof.
  induction n as [|n IH]; intros Hi Hf; [lia |]. simpl.
  destruct (Nat.eq_dec i n) as [-> | Hne]; [lia |].
  assert (0 < nat_sum n f)%nat by (apply IH; [lia | exact Hf]). lia.
Qed.

Lemma channel_count_zero (diff : ndarray3 npfloat) (c : nat) :
  (forall i j, (i < shape0 diff)%nat -> (j < shape1 diff)%nat ->
     fgtb (item3 diff i j c) (Finite 20) = false) ->
  count2 (map2 (fun v => fgtb v (Finite 20)) (take_last diff c)) = O.
Proof.
  intros Hz. unfold count2. cbn [map2 take_last nrows ncols item2].
  rewrite (nat_sum_ext _ _ (fun _ => O)); [apply nat_sum_zero |].
  intros i Hi. rewrite (nat_sum_ext _ _ (fun _ => O)); [apply nat_sum_zero |].
  intros j Hj. rewrite (Hz i j Hi Hj). reflexivity.
Qed.

Lemma channel_count_positive (diff : ndarray3 npfloat) (c i j : nat) :
  (i < shape0 diff)%nat -> (j < shape1 diff)%nat ->
  fgtb (item3 diff i j c) (Finite 20) = true ->
  (0 < count2 (map2 (fun v => fgtb v (Finite 20)) (take_last diff c)))%nat.
Proof.
  intros Hi Hj Ht. unfold count2. cbn [map2 take_last nrows ncols item2].
  apply (nat_sum_positive _ _ i Hi). apply (nat_sum_positive _ _ j Hj).
  rewrite Ht. simpl. lia.
Qed.

Lemma channel_pct_value (diff : ndarray3 npfloat) (c N : nat) :
  (0 < N)%nat ->
  channel_pct diff c N
  = Finite (INR (count2 (map2 (fun v => fgtb v (Finite 20)) (take_last diff c)))
            / INR N * 100).
Proof.
  intros HN. unfold channel_pct. rewrite fdiv_finite by (apply INR_pos_neq; exact HN).
  reflexivity.
Qed.

Lemma count3_zero (p : npfloat -> bool) (diff : ndarray3 npfloat) :
  (forall i j c, (i < shape0 diff)%nat -> (j < shape1 diff)%nat -> (c < shape2 diff)%nat ->
     p (item3 diff i j c) = false) ->
  count3 (map3 p diff) = O.
Proof.
  intros Hz. unfold count3. cbn [map3 shape0 shape1 shape2 item3].
  rewrite (nat_sum_ext _ _ (fun _ => O)); [apply nat_sum_zero |].
  intros i Hi. rewrite (nat_sum_ext _ _ (fun _ => O)); [apply nat_sum_zero |].
  intros j Hj. rewrite (nat_sum_ext _ _ (fun _ => O)); [apply nat_sum_zero |].
  intros c Hc. rewrite (Hz i j c Hi Hj Hc). reflexivity.
Qed.

(** X12: two pictures of one size with the same pixel values (the same
    file given twice, in particular) get 0 percent, in total and in the
    pixel figure, and the change type unknown.  ([process_regular_image]
    called with its two parameters.) *)
Theorem same_pictures_report_no_change (w : world) (before_path after_path : string)
    (before_img after_img : rgb_image) :
  pil_open_rgb w before_path = Returns before_img ->
  pil_open_rgb w after_path = Returns after_img ->
  img_height before_img = img_height after_img ->
  img_width before_img = img_width after_img ->
  (0 < img_height before_img)%nat -> (0 < img_width before_img)%nat ->
  (forall i j c, (i < img_height before_img)%nat -> (j < img_width before_img)%nat ->
     (c < 3)%nat -> img_channel after_img i j c = img_channel before_img i j c) ->
  exists report : gmap string pyval,
    process_regular_image w before_path after_path = Returns report
    /\ report !! "total_change_percentage" = Some (VFloat (Finite 0))
    /\ report !! "pixel_change_percentage" = Some (VFloat (Finite 0))
    /\ report !! "change_type" = Some (VStr "unknown").
Proof.
  intros Hb Ha Hh Hw H0 W0 Hsame.
  destruct (process_regular_image_form w before_path after_path before_img after_img
              Hb Ha Hh Hw H0 W0)
    as (diff & report & D0 & D1 & D2 & Hitem & Hr & Htot & Hpix & _ & Hty & _).
  assert (Hzero : forall i j c, (i < shape0 diff)%nat -> (j < shape1 diff)%nat ->
            (c < 3)%nat -> item3 diff i j c = Finite 0).
  { intros i j c Hi Hj Hc. rewrite Hitem by (rewrite <- ?D0, <- ?D1; assumption).
    rewrite Hsame by (rewrite <- ?D0, <- ?D1; assumption).
    rewrite Rminus_diag, Rabs_R0. reflexivity. }
  assert (HN : (0 < img_height before_img * img_width before_img)%nat)
    by (apply mult_pos; assumption).
  exists report. split; [exact Hr |].
  assert (Htot0 : report !! "total_change_percentage" = Some (VFloat (Finite 0))).
  { rewrite Htot, count3_zero.
    - do 3 f_equal. simpl. unfold Rdiv. ring.
    - intros i j c Hi Hj Hc. rewrite Hzero by (rewrite <- ?D2; assumption).
      unfold fgtb. simpl. apply Rltb_false. lra. }
  split; [exact Htot0 |]. split; [rewrite Hpix; exact Htot0 |].
  rewrite Hty. rewrite !channel_pct_value by exact HN.
  rewrite !channel_count_zero.
  - do 2 f_equal. unfold classify_change, fgtb. simpl.
    rewrite Rltb_false by lra. reflexivity.
  - intros i j Hi Hj. rewrite Hzero by (try assumption; lia).
    unfold fgtb. simpl. apply Rltb_false. lra.
  - intros i j Hi Hj. rewrite Hzero by (try assumption; lia).
    unfold fgtb. simpl. apply Rltb_false. lra.
  - intros i j Hi Hj. rewrite Hzero by (try assumption; lia).
    unfold fgtb. simpl. apply Rltb_false. lra.
Qed.

(** X13: when no pixel differs by more than 20 in the red or in the blue
    channel and some pixel differs by more than 20 in the green channel,
    the change type is vegetation. *)
Theorem green_only_change_is_vegetation (w : world) (before_path after_path : string)
    (before_img after_img : rgb_image) (y x : nat) :
  pil_open_rgb w before_path = Returns before_img ->
  pil_open_rgb w after_path = Returns after_img ->
  img_height before_img = img_height after_img ->
  img_width before_img = img_width after_img ->
  (forall i j, (i < img_height before_img)%nat -> (j < img_width before_img)%nat ->
     Rabs (img_channel after_img i j 0 - img_channel before_img i j 0) <= 20
     /\ Rabs (img_channel after_img i j 2 - img_channel before_img i j 2) <= 20) ->
  (y < img_height before_img)%nat -> (x < img_width before_img)%nat ->
  20 < Rabs (img_channel after_img y x 1 - img_channel before_img y x 1) ->
  exists report : gmap string pyval,
    process_regular_image w before_path after_path = Returns report
    /\ report !! "change_type" = Some (VStr "vegetation").
Proof.
  intros Hb Ha Hh Hw Hquiet Hy Hx Hgreen.
  assert (H0 : (0 < img_height before_img)%nat) by lia.
  assert (W0 : (0 < img_width before_img)%nat) by lia.
  destruct (process_regular_image_form w before_path after_path before_img after_img
              Hb Ha Hh Hw H0 W0)
    as (diff & report & D0 & D1 & D2 & Hitem & Hr & _ & _ & _ & Hty & _).
  assert (HN : (0 < img_height before_img * img_width before_img)%nat)
    by (apply mult_pos; assumption).
  exists report. split; [exact Hr |].
  rewrite Hty. rewrite !channel_pct_value by exact HN.
  rewrite (channel_count_zero diff 0), (channel_count_zero diff 2).
  - pose proof (channel_count_positive diff 1 y x) as Hpos.
    rewrite D0, D1 in Hpos. specialize (Hpos Hy Hx).
    rewrite Hitem in Hpos by (try assumption; lia).
    assert (Hc : (0 < count2 (map2 (fun v => fgtb v (Finite 20)) (take_last diff 1)))%nat).
    { apply Hpos. unfold fgtb. simpl. apply Rltb_true. exact Hgreen. }
    apply lt_0_INR in Hc. apply lt_0_INR in HN.
    do 2 f_equal. unfold classify_change, fgtb. simpl.
    rewrite Rltb_true; [reflexivity |].
    unfold Rdiv. rewrite Rmult_0_l, Rmult_0_l.
    apply Rmult_lt_0_compat; [| lra].
    apply Rmult_lt_0_compat; [exact Hc | apply Rinv_0_lt_compat; exact HN].
  - intros i j Hi Hj. rewrite D0 in Hi. rewrite D1 in Hj.
    rewrite Hitem by (try assumption; lia).
    unfold fgtb. simpl. apply Rltb_false. destruct (Hquiet i j Hi Hj). lra.
  - intros i j Hi Hj. rewrite D0 in Hi. rewrite D1 in Hj.
    rewrite Hitem by (try assumption; lia).
    unfold fgtb. simpl. apply Rltb_false. destruct (Hquiet i j Hi Hj). lra.
Qed.






End RgbAnalysis.

(** ** The confidence score and the summary *)

Section SummaryProperties.

Local Open Scope R_scope.

Ltac run := cbn [mbind outcome_bind Py.bind mret outcome_ret].
Ltac step := cbn [mbind result_bind result_then mret result_ret lift
                  outcome_bind Py.bind outcome_ret].
Ltac step_in H := cbn [mbind result_bind result_then mret result_ret lift
                       outcome_bind Py.bind outcome_ret] in H.

Lemma confidence_satellite_value (change_data : gmap string pyval) (t : R) :
  change_data !! "analysis_type" = Some (VStr "satellite_indices") ->
  change_data !! "total_change_percentage" = Some (VFloat (Finite t)) ->
  calculate_confidence change_data
  = Returns (if Rlt_dec t 1 then 0.95 else if Rlt_dec t 5 then 0.90
             else if Rlt_dec t 15 then 0.85 else 0.80).
Proof.
  intros Hty Ht. unfold calculate_confidence, dict_get. rewrite Hty, Ht.
  simpl. unfold Rltb.
  destruct (Rlt_dec t 1); [reflexivity |]. simpl.
  destruct (Rlt_dec t 5); [reflexivity |]. simpl.
  destruct (Rlt_dec t 15); reflexivity.
Qed.

Lemma confidence_other_value (change_data : gmap string pyval) (t : R) :
  eq_str (dict_get change_data "analysis_type" (VStr "unknown")) "satellite_indices"
  = false ->
  change_data !! "total_change_percentage" = Some (VFloat (Finite t)) ->
  calculate_confidence change_data
  = Returns (if Rlt_dec t 1 then 0.85 else if Rlt_dec t 5 then 0.75 else 0.65).
Proof.
  intros Hty Ht. unfold calculate_confidence. rewrite Hty. unfold dict_get. rewrite Ht.
  simpl. unfold Rltb.
  destruct (Rlt_dec t 1); [reflexivity |]. simpl.
  destruct (Rlt_dec t 5); reflexivity.
Qed.

(** X15: the confidence does not grow with the total change: of two
    reports of the same analysis type, the one with the larger total gets a
    confidence that is at most that of the other; and every confidence lies
    between 0.65 and 0.95. *)
Theorem confidence_antitone_in_total (cd1 cd2 : gmap string pyval) (t1 t2 : R) :
  cd1 !! "analysis_type" = cd2 !! "analysis_type" ->
  cd1 !! "total_change_percentage" = Some (VFloat (Finite t1)) ->
  cd2 !! "total_change_percentage" = Some (VFloat (Finite t2)) ->
  t1 <= t2 ->
  exists c1 c2,
    calculate_confidence cd1 = Returns c1 /\ calculate_confidence cd2 = Returns c2
    /\ c2 <= c1 /\ 0.65 <= c2 /\ c1 <= 0.95.
Proof.
  intros Hty H1 H2 Hle.
  destruct (eq_str (dict_get cd1 "analysis_type" (VStr "unknown")) "satellite_indices")
    eqn:E.
  - assert (Hs1 : cd1 !! "analysis_type" = Some (VStr "satellite_indices")).
    { unfold dict_get in E. destruct (cd1 !! "analysis_type") as [[| |s|]|];
        try discriminate E. simpl in E. apply String.eqb_eq in E. subst s. reflexivity. }
    assert (Hs2 : cd2 !! "analysis_type" = Some (VStr "satellite_indices")) by congruence.
    rewrite (confidence_satellite_value cd1 t1 Hs1 H1).
    rewrite (confidence_satellite_value cd2 t2 Hs2 H2).
    do 2 eexists. split; [reflexivity |]. split; [reflexivity |].
    destruct (Rlt_dec t1 1), (Rlt_dec t1 5), (Rlt_dec t1 15),
             (Rlt_dec t2 1), (Rlt_dec t2 5), (Rlt_dec t2 15); lra.
  - assert (E2 : eq_str (dict_get cd2 "analysis_type" (VStr "unknown"))
                   "satellite_indices" = false).
    { unfold dict_get in *. rewrite <- Hty. exact E. }
    rewrite (confidence_other_value cd1 t1 E H1).
    rewrite (confidence_other_value cd2 t2 E2 H2).
    do 2 eexists. split; [reflexivity |]. split; [reflexivity |].
    destruct (Rlt_dec t1 1), (Rlt_dec t1 5), (Rlt_dec t2 1), (Rlt_dec t2 5); lra.
Qed.

(** X16: for one and the same total, a report of type satellite_indices
    gets a confidence at least 0.10 above that of a report of any other
    type. *)
Theorem satellite_reports_score_higher (sat other : gmap string pyval) (t : R) :
  sat !! "analysis_type" = Some (VStr "satellite_indices") ->
  eq_str (dict_get other "analysis_type" (VStr "unknown")) "satellite_indices" = false ->
  sat !! "total_change_percentage" = Some (VFloat (Finite t)) ->
  other !! "total_change_percentage" = Some (VFloat (Finite t)) ->
  exists c_sat c_other,
    calculate_confidence sat = Returns c_sat
    /\ calculate_confidence other = Returns c_other
    /\ c_other + 0.10 <= c_sat.
Proof.
  intros Hs Ho H1 H2.
  rewrite (confidence_satellite_value sat t Hs H1).
  rewrite (confidence_other_value other t Ho H2).
  do 2 eexists. split; [reflexivity |]. split; [reflexivity |].
  destruct (Rlt_dec t 1), (Rlt_dec t 5), (Rlt_dec t 15); lra.
Qed.



Lemma rule_based_confidence (env : summary_env) (change_data : gmap string pyval)
    (text : string) (c : R) :
  generate_rule_based_summary env change_data = Ok (text, c) ->
  calculate_confidence change_data = Returns c.
Proof.
  unfold generate_rule_based_summary. intros H.
  match type of H with (?body ≫= _) = _ => destruct body as [summary|f] end;
    [| discriminate H].
  step_in H.
  destruct (calculate_confidence change_data) as [c'|e]; [| discriminate H].
  step_in H. injection H as _ <-. reflexivity.
Qed.

(** X18: whenever [generate_summary] returns, the confidence it returns
    is the one [calculate_confidence] gives for the report, whether the text
    comes from the language model or from the rule-based summary. *)
Theorem summary_confidence_is_calculated (env : summary_env)
    (change_data : gmap string pyval) (text : string) (c : R) :
  generate_summary env change_data = Ok (text, c) ->
  calculate_confidence change_data = Returns c.
Proof.
  unfold generate_summary. intros H.
  destruct (conflict_damage_detected change_data) as [conflict|e]; [| discriminate H].
  step_in H.
  match type of H with (?pre ≫= _) = _ => destruct pre as [[]|f] end;
    [| discriminate H].
  step_in H. unfold try_except_all in H.
  destruct (format_change_data env change_data) as [formatted|f1].
  - step_in H. destruct (run_chain env (get_llm env) formatted) as [summary_text|f2].
    + step_in H. destruct (calculate_confidence change_data) as [c'|e] eqn:E.
      * step_in H. injection H as _ <-. reflexivity.
      * step_in H. apply rule_based_confidence in H. congruence.
    + step_in H. apply rule_based_confidence in H. exact H.
  - step_in H. apply rule_based_confidence in H. exact H.
Qed.

(** X19: when no Ollama model answers, the rule-based summary can be
    computed and the report has a pixel-change percentage of at least 10,
    [generate_summary] raises TypeError: it adds the warning text to the
    pair returned by [generate_rule_based_summary]. *)
Theorem no_model_and_conflict_raise (env : summary_env)
    (change_data : gmap string pyval) (summary : string * R) (p : R) :
  get_llm env = None ->
  generate_rule_based_summary env change_data = Ok summary ->
  change_data !! "pixel_change_percentage" = Some (VFloat (Finite p)) ->
  10 <= p ->
  generate_summary env change_data
  = Fail (Exn (TypeError "can only concatenate tuple (not str) to tuple")).
Proof.
  intros Hllm Hrule Hpix Hp. unfold generate_summary, conflict_damage_detected, dict_get.
  rewrite Hpix. simpl default. cbn [value_ge]. step. rewrite Hllm, Hrule. step.
  assert (Hge : fgeb (Finite p) (Finite 10) = true).
  { unfold fgeb. cbn [fltb feqb]. destruct (Req_dec_T p 10) as [-> | Hne].
    - rewrite Reqb_true by reflexivity. apply orb_true_r.
    - rewrite Rltb_true by lra. reflexivity. }
  rewrite Hge. reflexivity.
Qed.

(** X20: when the conflict flag is not set and the chain of the language
    model fails on every input, [generate_summary] gives exactly what
    [generate_rule_based_summary] gives. *)
Theorem failing_chain_falls_back (env : summary_env) (change_data : gmap string pyval) :
  conflict_damage_detected change_data = Returns false ->
  (forall formatted, exists f, run_chain env (get_llm env) formatted = Fail f) ->
  generate_summary env change_data = generate_rule_based_summary env change_data.
Proof.
  intros Hflag Hchain. unfold generate_summary. rewrite Hflag. step.
  assert (Htry : try_except_all
            (formatted_data ← format_change_data env change_data;
             summary_text ← run_chain env (get_llm env) formatted_data;
             confidence ← lift (calculate_confidence change_data);
             mret (summary_text, confidence))
            (generate_rule_based_summary env change_data)
          = generate_rule_based_summary env change_data).
  { destruct (format_change_data env change_data) as [formatted|f1]; [| reflexivity].
    step. destruct (Hchain formatted) as (f & ->). reflexivity. }
  destruct (get_llm env) as [name|].
  - step. exact Htry.
  - destruct (generate_rule_based_summary env change_data) as [r|f] eqn:E.
    + step. rewrite Htry. reflexivity.
    + reflexivity.
Qed.


Lemma find_first (A : Type) (p : A -> bool) (l : list A) :
  match List.find p l with
  | None => forall x, In x l -> p x = false
  | Some y => exists earlier later, l = earlier ++ y :: later /\ p y = true
                /\ forall x, In x earlier -> p x = false
  end.
Proof.
  induction l as [|a l IH]; simpl.
  - intros x [].
  - destruct (p a) eqn:E.
    + exists [], l. split; [reflexivity |]. split; [exact E |]. intros x [].
    + destruct (List.find p l) as [y|].
      * destruct IH as (earlier & later & -> & Hy & Hearlier).
        exists (a :: earlier), later. split; [reflexivity |]. split; [exact Hy |].
        intros x [<- | Hx]; [exact E | apply Hearlier, Hx].
      * intros x [<- | Hx]; [exact E | apply IH, Hx].
Qed.

(** X21: [get_llm] returns the first model of its priority list that
    answers (every model before it in the list did not answer), and returns
    None exactly when no model of the list answers. *)
Theorem get_llm_takes_first_answering (env : summary_env) :
  match get_llm env with
  | None => forall name, In name models_to_try -> ollama_answers env name = false
  | Some name =>
      exists earlier later,
        models_to_try = earlier ++ name :: later
        /\ ollama_answers env name = true
        /\ forall other, In other earlier -> ollama_answers env other = false
  end.
Proof. unfold get_llm. apply find_first. Qed.

Lemma rstrip_app (s t : string) :
  rstrip t <> EmptyString -> rstrip (s ++ t)%string = (s ++ rstrip t)%string.
Proof.
  intros Ht. induction s as [|a s IH].
  - reflexivity.
  - change (String a s ++ t)%string with (String a (s ++ t)%string).
    change (String a s ++ rstrip t)%string with (String a (s ++ rstrip t)%string).
    cbn [rstrip]. rewrite IH.
    destruct (s ++ rstrip t)%string eqn:E; [| reflexivity].
    exfalso. destruct s; [apply Ht; exact E | discriminate E].
Qed.

Lemma app_nonempty_r (s t : string) :
  t <> EmptyString -> (s ++ t)%string <> EmptyString.
Proof. intros Ht. destruct s; [exact Ht | discriminate]. Qed.

(** The text of the rule-based summary when both statistics are empty. *)
Lemma total_only_text (shown : string) :
  strip ("Satellite analysis detected " ++ shown ++ "% total change. ")%string
  = ("Satellite analysis detected " ++ shown ++ "% total change.")%string.
Proof.
  unfold strip.
  change (lstrip ("Satellite analysis detected " ++ shown ++ "% total change. ")%string)
    with ("Satellite analysis detected " ++ shown ++ "% total change. ")%string.
  assert (Hend : rstrip "% total change. " = "% total change."%string) by reflexivity.
  rewrite rstrip_app.
  - rewrite rstrip_app; [rewrite Hend; reflexivity |].
    rewrite Hend. discriminate.
  - rewrite rstrip_app; [| rewrite Hend; discriminate].
    apply app_nonempty_r. rewrite Hend. discriminate.
Qed.

(** X22: for rasters of one shape with fewer than 4 bands, the rule-based
    summary of the report of [process_geotiff] is the single sentence about
    the total (vegetation and built-up areas are not mentioned), and its
    confidence is the one of the satellite_indices type. *)
Theorem few_bands_summary_text (env : summary_env) (w : world)
    (before after : ndarray3 R) (path : option string) (k : R) :
  same_shape3 before after -> nonempty3 before -> (shape0 before < 4)%nat ->
  exists (report : gmap string pyval) (p c : R),
    process_geotiff w before after path k = Returns report
    /\ report !! "total_change_percentage" = Some (VFloat (Finite p))
    /\ generate_rule_based_summary env report
       = Ok (("Satellite analysis detected " ++ format_fixed env 1 (Finite p)
              ++ "% total change.")%string, c)
    /\ 0.80 <= c <= 0.95.
Proof.
  intros Hs Hn H4.
  destruct (few_bands_report w before after path k Hs Hn H4)
    as (p & report & _ & Hr & Hty & Hveg & Hurb & _ & Htot & _).
  exists report, p. eexists. split; [exact Hr |]. split; [exact Htot |].
  unfold generate_rule_based_summary, dict_get.
  rewrite Hty, Htot, Hveg, Hurb. simpl default.
  cbn [eq_str]. change (String.eqb "satellite_indices" "satellite_indices") with true.
  cbv iota. cbn [format_value]. step.
  unfold vegetation_sentence, urban_sentence.
  change (truthy (VDict ∅)) with false. cbv iota. step.
  rewrite (confidence_satellite_value report p Hty Htot). step.
  rewrite total_only_text. split; [reflexivity |].
  destruct (Rlt_dec p 1), (Rlt_dec p 5), (Rlt_dec p 15); lra.
Qed.


Lemma sentence_returns (env : summary_env) (stats : gmap string npfloat)
    (summary : string) :
  (exists s, vegetation_sentence env (VDict stats) summary = Ok s)
  /\ (exists s, urban_sentence env (VDict stats) summary = Ok s).
Proof.
  unfold vegetation_sentence, urban_sentence. cbn [stats_get].
  destruct (truthy (VDict stats)); [| split; eexists; reflexivity].
  step. split.
  - destruct (fltb _ _); [eexists; reflexivity |].
    destruct (fgtb _ _); eexists; reflexivity.
  - destruct (fgtb _ _); [eexists; reflexivity |].
    destruct (fltb _ _); eexists; reflexivity.
Qed.

Lemma rule_based_returns (env : summary_env) (change_data : gmap string pyval)
    (t : R) (veg urb : gmap string npfloat) :
  change_data !! "analysis_type" = Some (VStr "satellite_indices") ->
  change_data !! "total_change_percentage" = Some (VFloat (Finite t)) ->
  change_data !! "vegetation_changes" = Some (VDict veg) ->
  change_data !! "urban_changes" = Some (VDict urb) ->
  exists text c,
    generate_rule_based_summary env change_data = Ok (text, c) /\ 0.80 <= c <= 0.95.
Proof.
  intros Hty Htot Hveg Hurb.
  unfold generate_rule_based_summary, dict_get.
  rewrite Hty, Htot, Hveg, Hurb. simpl default.
  cbn [eq_str]. change (String.eqb "satellite_indices" "satellite_indices") with true.
  cbv iota. cbn [format_value]. step.
  match goal with |- context [vegetation_sentence env (VDict veg) ?s] =>
    destruct (sentence_returns env veg s) as ((s1 & ->) & _)
  end.
  step. destruct (sentence_returns env urb s1) as (_ & (s2 & ->)). step.
  rewrite (confidence_satellite_value change_data t Hty Htot). step.
  do 2 eexists. split; [reflexivity |].
  destruct (Rlt_dec t 1), (Rlt_dec t 5), (Rlt_dec t 15); lra.
Qed.

Lemma geotiff_report_fields (w : world) (before after : ndarray3 R)
    (path : option string) (k : R) :
  same_shape3 before after -> nonempty3 before ->
  exists (report : gmap string pyval) (t p : R) (veg urb : gmap string npfloat),
    process_geotiff w before after path k = Returns report
    /\ report !! "analysis_type" = Some (VStr "satellite_indices")
    /\ report !! "total_change_percentage" = Some (VFloat (Finite t))
    /\ report !! "vegetation_changes" = Some (VDict veg)
    /\ report !! "urban_changes" = Some (VDict urb)
    /\ report !! "pixel_change_percentage" = Some (VFloat (Finite p))
    /\ (0 <= k -> p <= 100 / (1 + k * k)).
Proof.
  intros Hs Hn.
  destruct (index_total_bounds before after Hs Hn) as (changes & t & Hc & Ht & _).
  pose proof (pixel_change_value w before after k path Hs Hn) as Hp.
  set (p := Spec.pixel_change_percentage _ _ _ _ _ k) in Hp.
  assert (Hbound : 0 <= k -> p <= 100 / (1 + k * k)).
  { intros Hk. unfold p, Spec.pixel_change_percentage.
    destruct (to_pixel_major_nonempty before after Hn) as (N0 & N1 & _).
    apply percentage_above_tau_bound; [apply mult_pos; assumption | exact Hk]. }
  destruct (reconcile_value changes (Finite t) (Finite p) Ht)
    as (report & Hr & Htot & Hpix & Hrest).
  assert (Hfields : exists veg urb,
            changes !! "analysis_type" = Some (VStr "satellite_indices")
            /\ changes !! "vegetation_changes" = Some (VDict veg)
            /\ changes !! "urban_changes" = Some (VDict urb)).
  { destruct (index_path_cases before after Hs Hn)
      as [(_ & Hr0) | [(_ & vb & va & d & _ & _ & _ & _ & Hr0)
         | (_ & vb & va & ub & ua & d & e & _ & _ & _ & _ & _ & _ & _ & _ & Hr0)]];
      rewrite Hr0 in Hc; injection Hc as <-; do 2 eexists; unfold initial_changes;
      (split; [| split]);
      repeat first [apply lookup_insert_eq | rewrite lookup_insert_ne by done]. }
  destruct Hfields as (veg & urb & F1 & F2 & F3).
  exists report, (Rmax t p), p, veg, urb. split.
  { unfold process_geotiff. rewrite Hc. run. rewrite Hp. run. exact Hr. }
  split; [rewrite Hrest by done; exact F1 |].
  split; [rewrite Htot, fgtb_finite_max; reflexivity |].
  split; [rewrite Hrest by done; exact F2 |].
  split; [rewrite Hrest by done; exact F3 |].
  split; [exact Hpix | exact Hbound].
Qed.

(** X23: the rule-based summary never fails on a report of
    [process_geotiff] for rasters of one shape: it returns a text, with a
    confidence between 0.80 and 0.95. *)
Theorem detector_reports_get_a_summary (env : summary_env) (w : world)
    (before after : ndarray3 R) (path : option string) (k : R) :
  same_shape3 before after -> nonempty3 before ->
  exists (report : gmap string pyval) (text : string) (c : R),
    process_geotiff w before after path k = Returns report
    /\ generate_rule_based_summary env report = Ok (text, c)
    /\ 0.80 <= c <= 0.95.
Proof.
  intros Hs Hn.
  destruct (geotiff_report_fields w before after path k Hs Hn)
    as (report & t & p & veg & urb & Hr & Hty & Htot & Hveg & Hurb & _).
  destruct (rule_based_returns env report t veg urb Hty Htot Hveg Hurb)
    as (text & c & Hsum & Hc).
  exists report, text, c. split; [exact Hr |]. split; assumption.
Qed.






Lemma rgb_rule_based_returns (env : summary_env) (change_data : gmap string pyval)
    (t : R) (kind : string) (channels : gmap string npfloat) :
  change_data !! "analysis_type" = Some (VStr "rgb_based") ->
  change_data !! "total_change_percentage" = Some (VFloat (Finite t)) ->
  change_data !! "change_type" = Some (VStr kind) ->
  change_data !! "channel_changes" = Some (VDict channels) ->
  exists text c,
    generate_rule_based_summary env change_data = Ok (text, c) /\ 0.65 <= c <= 0.85.
Proof.
  intros Hty Htot Hkind Hch.
  assert (Hother : eq_str (dict_get change_data "analysis_type" (VStr "unknown"))
                     "satellite_indices" = false).
  { unfold dict_get. rewrite Hty. reflexivity. }
  unfold generate_rule_based_summary.
  rewrite Hother, (confidence_other_value change_data t Hother Htot).
  unfold rgb_text, dict_get. rewrite Htot, Hkind, Hch. simpl default.
  cbn [value_lt format_value stats_get]. step.
  destruct (fltb (Finite t) (Finite 1)); step;
    [| destruct (fltb (Finite t) (Finite 5)); step];
    (destruct (eq_str (VStr kind) "vegetation");
     [| destruct (eq_str (VStr kind) "urban")]);
    step; do 2 eexists; (split; [reflexivity |]);
    destruct (Rlt_dec t 1), (Rlt_dec t 5); lra.
Qed.

(** X25: the rule-based summary never fails on a report of
    [process_regular_image] for two pictures of one size: it returns a
    text, with a confidence between 0.65 and 0.85. *)
Theorem rgb_reports_get_a_summary (env : summary_env) (w : world)
    (before_path after_path : string) (before_img after_img : rgb_image) :
  pil_open_rgb w before_path = Returns before_img ->
  pil_open_rgb w after_path = Returns after_img ->
  img_height before_img = img_height after_img ->
  img_width before_img = img_width after_img ->
  (0 < img_height before_img)%nat -> (0 < img_width before_img)%nat ->
  exists (report : gmap string pyval) (text : string) (c : R),
    process_regular_image w before_path after_path = Returns report
    /\ generate_rule_based_summary env report = Ok (text, c)
    /\ 0.65 <= c <= 0.85.
Proof.
  intros Hb Ha Hh Hw H0 W0.
  destruct (process_regular_image_form w before_path after_path before_img after_img
              Hb Ha Hh Hw H0 W0)
    as (diff & report & _ & _ & _ & _ & Hr & Htot & _ & Hty & Hkind & Hch).
  destruct (rgb_rule_based_returns env report _ _ _ Hty Htot Hkind Hch)
    as (text & c & Hsum & Hc).
  exists report, text, c. split; [exact Hr |]. split; assumption.
Qed.

End SummaryProperties.

(** * The further properties at concrete inputs *)

Section FurtherInstances.

Local Open Scope R_scope.
Local Open Scope string_scope.

Import MoreExamples.

Ltac shapes := repeat split; reflexivity.
Ltac sizes := repeat split; simpl; lia.

Lemma lookup_heavy_damage :
  heavy_damage !! "pixel_change_percentage" = Some (VFloat (Finite 40))
  /\ heavy_damage !! "total_change_percentage" = Some (VFloat (Finite 40))
  /\ heavy_damage !! "analysis_type" = Some (VStr "satellite_indices")
  /\ heavy_damage !! "vegetation_changes" = Some (VDict ∅)
  /\ heavy_damage !! "urban_changes" = Some (VDict ∅).
Proof.
  unfold heavy_damage.
  repeat split; repeat first [apply lookup_insert_eq | rewrite lookup_insert_ne by done].
Qed.

Lemma lookup_quiet_report :
  quiet_report !! "pixel_change_percentage" = Some (VFloat (Finite 2))
  /\ quiet_report !! "total_change_percentage" = Some (VFloat (Finite 2))
  /\ quiet_report !! "analysis_type" = Some (VStr "satellite_indices")
  /\ quiet_report !! "vegetation_changes" = Some (VDict ∅)
  /\ quiet_report !! "urban_changes" = Some (VDict ∅).
Proof.
  unfold quiet_report.
  repeat split; repeat first [apply lookup_insert_eq | rewrite lookup_insert_ne by done].
Qed.

Lemma lookup_rgb_damage :
  rgb_damage !! "total_change_percentage" = Some (VFloat (Finite 40))
  /\ rgb_damage !! "analysis_type" = Some (VStr "rgb_based").
Proof.
  unfold rgb_damage.
  repeat split; repeat first [apply lookup_insert_eq | rewrite lookup_insert_ne by done].
Qed.

Lemma heavy_damage_rule_based :
  exists summary, generate_rule_based_summary no_model heavy_damage = Ok summary.
Proof.
  destruct lookup_heavy_damage as (_ & Ht & Hty & Hv & Hu).
  destruct (rule_based_returns no_model heavy_damage 40 ∅ ∅ Hty Ht Hv Hu)
    as (text & c & H & _).
  exists (text, c). exact H.
Qed.

Lemma quiet_report_no_conflict : conflict_damage_detected quiet_report = Returns false.
Proof.
  destruct lookup_quiet_report as (Hp & _).
  unfold conflict_damage_detected, dict_get. rewrite Hp. simpl default.
  unfold value_ge, fgeb, fltb, feqb.
  rewrite Rltb_false by lra. rewrite Reqb_false by lra. reflexivity.
Qed.

Lemma heavy_damage_summary :
  generate_summary third_model_only heavy_damage = Ok ("summary", 0.80).
Proof.
  destruct lookup_heavy_damage as (Hp & Ht & Hty & Hv & Hu).
  unfold generate_summary, conflict_damage_detected, format_change_data, dict_get.
  rewrite Hp, Ht, Hty, Hv, Hu. simpl default.
  rewrite (confidence_satellite_value heavy_damage 40 Hty Ht).
  destruct (Rlt_dec 40 1); [lra |]. destruct (Rlt_dec 40 5); [lra |].
  destruct (Rlt_dec 40 15); [lra |]. reflexivity.
Qed.


Lemma pixel_change_symmetric_witness :
  calculate_pixel_change_percentage Examples.plain_pictures Examples.five_bands_dark
    Examples.five_bands_bright 1 None
  = calculate_pixel_change_percentage Examples.plain_pictures Examples.five_bands_bright
      Examples.five_bands_dark 1 None.
Proof.
  apply (pixel_change_symmetric Examples.plain_pictures Examples.five_bands_dark
           Examples.five_bands_bright 1 None).
  - shapes.
  - sizes.
Defined.

(** Rows of 2 against rows of 3. *)
Lemma incompatible_shapes_raise_witness :
  calculate_pixel_change_percentage Examples.plain_pictures (Examples.full3 3 2 2 0)
    (Examples.full3 3 3 2 0) 1 None = Raises broadcast_error.
Proof.
  apply (incompatible_shapes_raise Examples.plain_pictures (Examples.full3 3 2 2 0)
           (Examples.full3 3 3 2 0) 1 None).
  right. left. simpl. repeat split; lia.
Defined.

Lemma pixel_change_percentage_range_witness :
  exists p,
    calculate_pixel_change_percentage Examples.plain_pictures Examples.five_bands_dark
      Examples.five_bands_bright (-1) None = Returns (Finite p)
    /\ 0 <= p <= 100.
Proof.
  apply (pixel_change_percentage_range Examples.plain_pictures Examples.five_bands_dark
           Examples.five_bands_bright (-1) None).
  - shapes.
  - sizes.
Defined.




Lemma exchanging_before_and_after_witness :
  exists (report report' : gmap string pyval),
    process_geotiff Examples.plain_pictures Examples.five_bands_dark
      Examples.five_bands_bright None 1 = Returns report
    /\ process_geotiff Examples.plain_pictures Examples.five_bands_bright
         Examples.five_bands_dark None 1 = Returns report'
    /\ report' !! "total_change_percentage" = report !! "total_change_percentage"
    /\ report' !! "pixel_change_percentage" = report !! "pixel_change_percentage".
Proof.
  destruct (exchanging_before_and_after Examples.plain_pictures Examples.five_bands_dark
              Examples.five_bands_bright None 1)
    as (report & report' & Hr & Hr' & Ht & Hp & _).
  - shapes.
  - sizes.
  - exists report, report'. repeat split; assumption.
Defined.

Lemma readable_rasters_use_index_path_witness :
  exists report : gmap string pyval,
    detect_changes raster_files "before.tif" "after.tif" None 1 = Returns report
    /\ process_geotiff raster_files Examples.five_bands_dark Examples.five_bands_bright
         None 1 = Returns report
    /\ report !! "analysis_type" = Some (VStr "satellite_indices")
    /\ report !! "channel_changes" = None.
Proof.
  apply (readable_rasters_use_index_path raster_files "before.tif" "after.tif"
           Examples.five_bands_dark Examples.five_bands_bright None 1).
  - reflexivity.
  - reflexivity.
  - shapes.
  - sizes.
Defined.

(** A five-band raster against a three-band one. *)
Lemma missing_band_raises_index_error_witness :
  detect_changes raster_files "before.tif" "rgb.tif" None 1
  = Raises (IndexError "index is out of bounds for axis 0").
Proof.
  apply (missing_band_raises_index_error raster_files "before.tif" "rgb.tif"
           Examples.five_bands_dark Examples.three_bands None 1).
  - reflexivity.
  - reflexivity.
  - simpl. lia.
  - simpl. lia.
Defined.

(** One picture given twice. *)
Lemma same_pictures_report_no_change_witness :
  exists report : gmap string pyval,
    process_regular_image two_pictures "green.png" "green.png" = Returns report
    /\ report !! "total_change_percentage" = Some (VFloat (Finite 0))
    /\ report !! "pixel_change_percentage" = Some (VFloat (Finite 0))
    /\ report !! "change_type" = Some (VStr "unknown").
Proof.
  apply (same_pictures_report_no_change two_pictures "green.png" "green.png"
           green_pixel green_pixel).
  - reflexivity.
  - reflexivity.
  - reflexivity.
  - reflexivity.
  - simpl. lia.
  - simpl. lia.
  - reflexivity.
Defined.

(** A black pixel that turns green. *)
Lemma green_only_change_is_vegetation_witness :
  exists report : gmap string pyval,
    process_regular_image two_pictures "black.png" "green.png" = Returns report
    /\ report !! "change_type" = Some (VStr "vegetation").
Proof.
  apply (green_only_change_is_vegetation two_pictures "black.png" "green.png"
           black_pixel green_pixel 0 0).
  - reflexivity.
  - reflexivity.
  - reflexivity.
  - reflexivity.
  - intros i j _ _. simpl.
    replace (0 - 0) with 0 by ring. rewrite Rabs_R0. lra.
  - simpl. lia.
  - simpl. lia.
  - simpl. replace (255 - 0) with 255 by ring.
    rewrite Rabs_right by lra. lra.
Defined.


(** A total of 2 percent against one of 40 percent. *)
Lemma confidence_antitone_in_total_witness :
  exists c1 c2,
    calculate_confidence quiet_report = Returns c1
    /\ calculate_confidence heavy_damage = Returns c2
    /\ c2 <= c1 /\ 0.65 <= c2 /\ c1 <= 0.95.
Proof.
  apply (confidence_antitone_in_total quiet_report heavy_damage 2 40).
  - destruct lookup_quiet_report as (_ & _ & -> & _).
    destruct lookup_heavy_damage as (_ & _ & -> & _). reflexivity.
  - apply lookup_quiet_report.
  - apply lookup_heavy_damage.
  - lra.
Defined.

Lemma satellite_reports_score_higher_witness :
  exists c_sat c_other,
    calculate_confidence heavy_damage = Returns c_sat
    /\ calculate_confidence rgb_damage = Returns c_other
    /\ c_other + 0.10 <= c_sat.
Proof.
  apply (satellite_reports_score_higher heavy_damage rgb_damage 40).
  - apply lookup_heavy_damage.
  - unfold dict_get. destruct lookup_rgb_damage as (_ & ->). reflexivity.
  - apply lookup_heavy_damage.
  - apply lookup_rgb_damage.
Defined.


(** The text of the third model, with the confidence of the report. *)
Lemma summary_confidence_is_calculated_witness :
  calculate_confidence heavy_damage = Returns 0.80.
Proof.
  apply (summary_confidence_is_calculated third_model_only heavy_damage "summary" 0.80).
  exact heavy_damage_summary.
Defined.

Lemma no_model_and_conflict_raise_witness :
  generate_summary no_model heavy_damage
  = Fail (Exn (TypeError "can only concatenate tuple (not str) to tuple")).
Proof.
  destruct heavy_damage_rule_based as (summary & Hs).
  apply (no_model_and_conflict_raise no_model heavy_damage summary 40).
  - reflexivity.
  - exact Hs.
  - apply lookup_heavy_damage.
  - lra.
Defined.

Lemma failing_chain_falls_back_witness :
  generate_summary no_model quiet_report
  = generate_rule_based_summary no_model quiet_report.
Proof.
  apply (failing_chain_falls_back no_model quiet_report).
  - exact quiet_report_no_conflict.
  - intros formatted. eexists. reflexivity.
Defined.

Lemma few_bands_summary_text_witness :
  exists (report : gmap string pyval) (p c : R),
    process_geotiff Examples.plain_pictures Examples.three_bands Examples.three_bands
      None 1 = Returns report
    /\ report !! "total_change_percentage" = Some (VFloat (Finite p))
    /\ generate_rule_based_summary no_model report
       = Ok ("Satellite analysis detected " ++ format_fixed no_model 1 (Finite p)
             ++ "% total change.", c)
    /\ 0.80 <= c <= 0.95.
Proof.
  apply (few_bands_summary_text no_model Examples.plain_pictures Examples.three_bands
           Examples.three_bands None 1).
  - shapes.
  - sizes.
  - simpl. lia.
Defined.

Lemma detector_reports_get_a_summary_witness :
  exists (report : gmap string pyval) (text : string) (c : R),
    process_geotiff Examples.plain_pictures Examples.five_bands_dark
      Examples.five_bands_bright None 1 = Returns report
    /\ generate_rule_based_summary no_model report = Ok (text, c)
    /\ 0.80 <= c <= 0.95.
Proof.
  apply (detector_reports_get_a_summary no_model Examples.plain_pictures
           Examples.five_bands_dark Examples.five_bands_bright None 1).
  - shapes.
  - sizes.
Defined.


Lemma rgb_reports_get_a_summary_witness :
  exists (report : gmap string pyval) (text : string) (c : R),
    process_regular_image two_pictures "black.png" "green.png" = Returns report
    /\ generate_rule_based_summary no_model report = Ok (text, c)
    /\ 0.65 <= c <= 0.85.
Proof.
  apply (rgb_reports_get_a_summary no_model two_pictures "black.png" "green.png"
           black_pixel green_pixel); try reflexivity.
  - simpl. lia.
  - simpl. lia.
Defined.

End FurtherInstances.
